(** * chatlog-stats: the log-line classifier, the URL extractor, the
    reservoir sampler, the statistics aggregator, the report assembler,
    the file-name filter and the lookup of user identifiers of
    [src/main.py], embedded as executable definitions.

    Conventions of the embedding.
    - A Python [str] is a [string]; each [ascii] is one code point below
      256 (the Latin-1 part of Unicode), and [ord] gives its code point.
    - Python integers are [Z].
    - A raised exception is the [Raise] outcome of [result]; nothing in
      [src/main.py] catches an exception of the classifier, the sampler,
      the aggregator or the report assembler, so a [Raise] that reaches
      [bulk_lines] or [save_page] ends the run. The exceptions that
      [APIClient.uid] catches are outcomes of its request and of its
      write, not [Raise].
    - [random.randint] reads its randomness from an explicit entropy
      argument, so that a statement quantified over the entropy covers
      every possible draw.
    - [Counter] objects whose [most_common] is read are association lists
      in insertion order; plain dictionaries are [gmap]s. *)

From Stdlib Require Import ZArith QArith String Ascii List Lia Bool.
From stdpp Require Import base option strings gmap.
From Stdlib Require Import Sorted.
Import ListNotations.

Local Open Scope string_scope.
Local Open Scope Z_scope.

(* ===================================================================== *)
(** ** Exceptions *)
(* ===================================================================== *)

Inductive exn : Type :=
| ValueError
| OverflowError
| TypeError
| IndexError
| AttributeError
| ZeroDivisionError
| RuntimeError (line : string) (d : ascii) (second : string).

Inductive result (A : Type) : Type :=
| Ret (a : A)
| Raise (e : exn).

Arguments Ret {A} a.
Arguments Raise {A} e.

Definition bind {A B : Type} (m : result A) (k : A -> result B) : result B :=
  match m with
  | Ret a => k a
  | Raise e => Raise e
  end.

Notation "'let*' x ':=' m 'in' k" := (bind m (fun x => k))
  (at level 10, x name, m at level 100, k at level 200).

Fixpoint mapM {A B : Type} (f : A -> result B) (l : list A) : result (list B) :=
  match l with
  | [] => Ret []
  | x :: l' => let* y := f x in let* ys := mapM f l' in Ret (y :: ys)
  end.

(* ===================================================================== *)
(** ** Python built-ins used by the program *)
(* ===================================================================== *)

Module Py.

Definition ord (c : ascii) : Z := Z.of_N (N_of_ascii c).

Definition in_range (lo hi : Z) (c : ascii) : bool :=
  (lo <=? ord c) && (ord c <=? hi).

(** [str.isspace] on one code point below 256: TAB..CR, FS..US, SPACE,
    NEL (0x85) and NBSP (0xA0). *)
Definition isspace (c : ascii) : bool :=
  in_range 9 13 c || in_range 28 32 c || (ord c =? 133) || (ord c =? 160).

Definition isdigit (c : ascii) : bool := in_range 48 57 c.

Definition is_empty (s : string) : bool :=
  match s with
  | EmptyString => true
  | String _ _ => false
  end.

Definition snoc (s : string) (c : ascii) : string := s ++ String c EmptyString.

(** [s.split()]: the maximal runs of non-whitespace, in order. [cur] is
    the token being read. *)
Fixpoint split_from (cur : string) (s : string) : list string :=
  match s with
  | EmptyString => if is_empty cur then [] else [cur]
  | String c s' =>
      if isspace c
      then (if is_empty cur then split_from EmptyString s' else cur :: split_from EmptyString s')
      else split_from (snoc cur c) s'
  end.

Definition split (s : string) : list string := split_from EmptyString s.

(** [s.split(sep)] for a one-character separator: empty fields are kept. *)
Fixpoint split_on_from (sep : ascii) (cur : string) (s : string) : list string :=
  match s with
  | EmptyString => [cur]
  | String c s' =>
      if Ascii.eqb c sep
      then cur :: split_on_from sep EmptyString s'
      else split_on_from sep (snoc cur c) s'
  end.

Definition split_on (sep : ascii) (s : string) : list string :=
  split_on_from sep EmptyString s.

Fixpoint mem (c : ascii) (chars : string) : bool :=
  match chars with
  | EmptyString => false
  | String x chars' => Ascii.eqb c x || mem c chars'
  end.

(** [s.rstrip(chars)] and [s.lstrip(chars)], given the membership test. *)
Fixpoint rstrip_by (p : ascii -> bool) (s : string) : string :=
  match s with
  | EmptyString => EmptyString
  | String c s' =>
      let r := rstrip_by p s' in
      if is_empty r && p c then EmptyString else String c r
  end.

Fixpoint lstrip_by (p : ascii -> bool) (s : string) : string :=
  match s with
  | EmptyString => EmptyString
  | String c s' => if p c then lstrip_by p s' else s
  end.

Definition rstrip (chars : string) (s : string) : string :=
  rstrip_by (fun c => mem c chars) s.

(** [s.strip()] *)
Definition strip (s : string) : string := rstrip_by isspace (lstrip_by isspace s).

(** [sep.join(l)] *)
Fixpoint join (sep : string) (l : list string) : string :=
  match l with
  | [] => EmptyString
  | [x] => x
  | x :: l' => x ++ sep ++ join sep l'
  end.

Fixpoint startswith (p s : string) : bool :=
  match p, s with
  | EmptyString, _ => true
  | String a p', String b s' => Ascii.eqb a b && startswith p' s'
  | String _ _, EmptyString => false
  end.

(** [sub in s] *)
Fixpoint contains (sub s : string) : bool :=
  startswith sub s ||
  match s with
  | EmptyString => false
  | String _ s' => contains sub s'
  end.

(** [l[i]] on a list *)
Definition getitem {A : Type} (l : list A) (i : nat) : result A :=
  match nth_error l i with
  | Some x => Ret x
  | None => Raise IndexError
  end.

(** [s[i]] on a string *)
Definition str_getitem (s : string) (i : nat) : result ascii :=
  match String.get i s with
  | Some c => Ret c
  | None => Raise IndexError
  end.

(** [l[i:]] *)
Definition slice_from {A : Type} (i : nat) (l : list A) : list A := skipn i l.

(** [l[i:j]] for [0 <= i], [0 <= j] *)
Definition slice {A : Type} (i j : nat) (l : list A) : list A :=
  firstn (j - i) (skipn i l).

(** *** [int(s)]

    Decimal literal: surrounding whitespace is dropped, one sign is
    allowed, then digits with single underscores between them. More than
    [int_max_str_digits] digits is refused. [None] is [ValueError]. *)

Definition int_max_str_digits : nat := 4300.

Definition underscore : ascii := "_"%char.

Fixpoint scan_digits (prev : option ascii) (acc : Z) (n : nat) (s : string)
  : option (Z * nat) :=
  match s with
  | EmptyString =>
      match prev with
      | None => None
      | Some p => if Ascii.eqb p underscore then None else Some (acc, n)
      end
  | String c s' =>
      if Ascii.eqb c underscore then
        match prev with
        | None => None
        | Some p =>
            if Ascii.eqb p underscore then None
            else scan_digits (Some c) acc n s'
        end
      else if isdigit c then
        scan_digits (Some c) (10 * acc + (ord c - 48)) (S n) s'
      else None
  end.

Definition int_unsigned (s : string) : option Z :=
  match scan_digits None 0 0%nat s with
  | Some (v, n) => if (int_max_str_digits <? n)%nat then None else Some v
  | None => None
  end.

Definition int_opt (s : string) : option Z :=
  match strip s with
  | String "+" s' => int_unsigned s'
  | String "-" s' => option_map Z.opp (int_unsigned s')
  | s' => int_unsigned s'
  end.

Definition int (s : string) : result Z :=
  match int_opt s with
  | Some v => Ret v
  | None => Raise ValueError
  end.

(** *** [datetime.time] applied to an unpacked list of integers

    The arguments are first converted to C [int]s ([OverflowError]
    outside 32 bits), then range-checked ([ValueError]); a fifth positional
    argument is [tzinfo], which an integer is not ([TypeError]); there is
    no sixth positional argument ([TypeError]). *)

Record time : Type := mk_time {
  hour : Z;
  minute : Z;
  second : Z;
  microsecond : Z
}.

Definition c_int (v : Z) : result Z :=
  if (-2147483648 <=? v) && (v <=? 2147483647) then Ret v else Raise OverflowError.

Definition check_time_args (h m s us : Z) : result time :=
  if negb ((0 <=? h) && (h <=? 23)) then Raise ValueError
  else if negb ((0 <=? m) && (m <=? 59)) then Raise ValueError
  else if negb ((0 <=? s) && (s <=? 59)) then Raise ValueError
  else if negb ((0 <=? us) && (us <=? 999999)) then Raise ValueError
  else Ret (mk_time h m s us).

Definition datetime_time (args : list Z) : result time :=
  match args with
  | [] => check_time_args 0 0 0 0
  | [h] => let* h := c_int h in check_time_args h 0 0 0
  | [h; m] => let* h := c_int h in let* m := c_int m in check_time_args h m 0 0
  | [h; m; s] =>
      let* h := c_int h in let* m := c_int m in let* s := c_int s in check_time_args h m s 0
  | [h; m; s; us] =>
      let* h := c_int h in let* m := c_int m in let* s := c_int s in let* us := c_int us in
      check_time_args h m s us
  | [h; m; s; us; _] =>
      let* h := c_int h in let* m := c_int m in let* s := c_int s in let* us := c_int us in
      let* _ := check_time_args h m s us in
      Raise TypeError
  | _ => Raise TypeError
  end.

(** *** [random.randint(a, b)]

    [entropy] stands for the generator's state at the call: every value of
    [a..b] is the result for some entropy, and no other value is. An empty
    range is a [ValueError]. *)
Definition randint (entropy : nat) (a b : Z) : result Z :=
  if b <? a then Raise ValueError
  else Ret (a + Z.of_nat entropy mod (b - a + 1)).

(** *** [html.escape(s)] with [quote=True] *)

Definition dquote : ascii := "034"%char.
Definition squote : ascii := "039"%char.

Fixpoint html_escape (s : string) : string :=
  match s with
  | EmptyString => EmptyString
  | String c s' =>
      (if Ascii.eqb c "&" then "&amp;"
       else if Ascii.eqb c "<" then "&lt;"
       else if Ascii.eqb c ">" then "&gt;"
       else if Ascii.eqb c dquote then "&quot;"
       else if Ascii.eqb c squote then "&#x27;"
       else String c EmptyString) ++ html_escape s'
  end.

End Py.

(* ===================================================================== *)
(** ** Regular expressions (the part of [re] that [URLS_PATTERN] uses) *)
(* ===================================================================== *)

Module Re.

(** An item of a bracket expression: one character or a range [lo-hi]. *)
Inductive class_item : Type :=
| CChar (c : ascii)
| CRange (lo hi : ascii).

(** Reading the text between [[] and []]: a backslash makes the next
    character a plain one; [x-y] with a character on both sides is a
    range; anything else stands for itself. The flag records whether the
    character was escaped. *)
Fixpoint class_atoms (spec : string) : list (ascii * bool) :=
  match spec with
  | EmptyString => []
  | String c rest =>
      match rest with
      | String e rest' =>
          if Ascii.eqb c "\" then (e, true) :: class_atoms rest'
          else (c, false) :: class_atoms rest
      | EmptyString => [(c, false)]
      end
  end.

Definition is_dash (a : ascii * bool) : bool :=
  Ascii.eqb (fst a) "-" && negb (snd a).

Fixpoint class_ranges (l : list (ascii * bool)) : list class_item :=
  match l with
  | [] => []
  | a :: rest =>
      match rest with
      | d :: b :: rest' =>
          if is_dash d then CRange (fst a) (fst b) :: class_ranges rest'
          else CChar (fst a) :: class_ranges rest
      | _ => CChar (fst a) :: class_ranges rest
      end
  end.

Definition class_items (spec : string) : list class_item :=
  class_ranges (class_atoms spec).

Definition item_matches (i : class_item) (c : ascii) : bool :=
  match i with
  | CChar x => Ascii.eqb c x
  | CRange lo hi => (Py.ord lo <=? Py.ord c) && (Py.ord c <=? Py.ord hi)
  end.

Definition class_matches (items : list class_item) (c : ascii) : bool :=
  existsb (fun i => item_matches i c) items.

Inductive regex : Type :=
| Lit (s : string)            (* the characters of [s], one after the other *)
| Bracket (spec : string)     (* [spec] *)
| Seq (r1 r2 : regex)         (* r1 r2 *)
| Alt (r1 r2 : regex)         (* r1|r2 *)
| Opt (r : regex)             (* r?, greedy *)
| Plus (r : regex)            (* r+, greedy *)
| Group (r : regex).          (* (r), capturing *)

Fixpoint string_drop (n : nat) (s : string) : string :=
  match n, s with
  | O, _ => s
  | S n', String _ s' => string_drop n' s'
  | S _, EmptyString => EmptyString
  end.

(** One or more rounds of [step], longest first. A round that consumes
    nothing ends the loop. *)
Fixpoint plus_loop (step : string -> list string) (fuel : nat) (s : string)
  : list string :=
  match fuel with
  | O => []
  | S f =>
      flat_map
        (fun s1 =>
           if (String.length s1 <? String.length s)%nat
           then (plus_loop step f s1 ++ [s1])%list
           else [s1])
        (step s)
  end.

(** [matches r s]: what is left of [s] after each way of matching [r] at
    the start of [s], in the order in which the backtracking matcher tries
    them. The first element is the match that [re] reports. *)
Fixpoint matches (r : regex) (s : string) : list string :=
  match r with
  | Lit p =>
      if Py.startswith p s then [string_drop (String.length p) s] else []
  | Bracket spec =>
      match s with
      | String c s' => if class_matches (class_items spec) c then [s'] else []
      | EmptyString => []
      end
  | Seq r1 r2 => flat_map (matches r2) (matches r1 s)
  | Alt r1 r2 => (matches r1 s ++ matches r2 s)%list
  | Opt r' => (matches r' s ++ [s])%list
  | Plus r' => plus_loop (matches r') (S (String.length s)) s
  | Group r' => matches r' s
  end.

(** The match at the start of [s], if any: the matched text and the rest. *)
Definition match_at (r : regex) (s : string) : option (string * string) :=
  match matches r s with
  | s' :: _ => Some (substring 0 (String.length s - String.length s') s, s')
  | [] => None
  end.

(** [pattern.findall(s)] for a pattern whose one group encloses all of it
    and which matches no empty string: the matches from left to right,
    each search resuming where the previous match ended. [skip] counts the
    characters still covered by the previous match. *)
Fixpoint findall_skip (r : regex) (skip : nat) (s : string) : list string :=
  match s with
  | EmptyString => []
  | String _ s' =>
      match skip with
      | S k => findall_skip r k s'
      | O =>
          match match_at r s with
          | Some (u, _) => u :: findall_skip r (String.length u - 1) s'
          | None => findall_skip r 0 s'
          end
      end
  end.

Definition findall (r : regex) (s : string) : list string := findall_skip r 0 s.

End Re.

(** [URLS_PATTERN]:
    (http[s]?://(?:[a-zA-Z]|[0-9]|[$-_@.&+]|[!*\(\),]|(?:%[0-9a-fA-F][0-9a-fA-F]))+)

    [url_atom] is the non-capturing group that is repeated. *)
Definition url_atom : Re.regex :=
  Re.Alt (Re.Bracket "a-zA-Z")
  (Re.Alt (Re.Bracket "0-9")
  (Re.Alt (Re.Bracket "$-_@.&+")
  (Re.Alt (Re.Bracket "!*\(\),")
          (Re.Seq (Re.Lit "%")
          (Re.Seq (Re.Bracket "0-9a-fA-F") (Re.Bracket "0-9a-fA-F")))))).

Definition URLS_PATTERN : Re.regex :=
  Re.Group
    (Re.Seq (Re.Lit "http")
    (Re.Seq (Re.Opt (Re.Bracket "s"))
    (Re.Seq (Re.Lit "://")
            (Re.Plus url_atom)))).

(* ===================================================================== *)
(** ** [collections.Counter] *)
(* ===================================================================== *)

(** A [Counter] is a dictionary, and a dictionary keeps its keys in the
    order of their first insertion: [most_common] breaks ties by that
    order. *)
Module Counter.

Definition t : Type := list (string * Z).

Definition empty : t := [].

(** [c[k]]: a missing key reads as 0 and is not inserted. *)
Fixpoint get (c : t) (k : string) : Z :=
  match c with
  | [] => 0
  | (k', n) :: c' => if String.eqb k k' then n else get c' k
  end.

(** [c[k] = v] *)
Fixpoint set (c : t) (k : string) (v : Z) : t :=
  match c with
  | [] => [(k, v)]
  | (k', n) :: c' =>
      if String.eqb k k' then (k', v) :: c' else (k', n) :: set c' k v
  end.

(** [c[k] += 1] *)
Definition incr (c : t) (k : string) : t := set c k (get c k + 1).

(** [sorted(c.items(), key=itemgetter(1), reverse=True)]: a stable sort,
    so items of equal count stay in insertion order. [insert_desc x l]
    puts [x], which precedes the items of [l] in the dictionary, into the
    sorted [l]. *)
Fixpoint insert_desc (x : string * Z) (l : list (string * Z)) : list (string * Z) :=
  match l with
  | [] => [x]
  | y :: l' => if snd x <? snd y then y :: insert_desc x l' else x :: y :: l'
  end.

(** [c.most_common()] *)
Definition most_common (c : t) : list (string * Z) :=
  fold_right insert_desc [] c.

(** [c.most_common(n)] *)
Definition most_common_n (n : nat) (c : t) : list (string * Z) :=
  firstn n (most_common c).

(** [c.total()] *)
Definition total (c : t) : Z := fold_right (fun kv acc => snd kv + acc) 0 c.

End Counter.

(* ===================================================================== *)
(** ** [ReservoirSampler] *)
(* ===================================================================== *)

Module ReservoirSampler.

Record t : Type := mk {
  _storage : gmap string string;
  _counter : gmap string Z
}.

(** [__init__] *)
Definition init : t := {| _storage := ∅; _counter := ∅ |}.

(** [consider(k, v)]; [entropy] feeds the one [random.randint] call that
    the method may make. *)
Definition consider (entropy : nat) (self : t) (k v : string) : result t :=
  let counter := <[k := default 0 (_counter self !! k) + 1]> (_counter self) in
  match _storage self !! k with
  | None => Ret {| _storage := <[k := v]> (_storage self); _counter := counter |}
  | Some _ =>
      let curr_idx := default 0 (counter !! k) in
      let* chosen_element_idx := Py.randint entropy 1 curr_idx in
      if chosen_element_idx =? 1
      then Ret {| _storage := <[k := v]> (_storage self); _counter := counter |}
      else Ret {| _storage := _storage self; _counter := counter |}
  end.

(** [get(k)] *)
Definition get (self : t) (k : string) : option string := _storage self !! k.

End ReservoirSampler.

(* ===================================================================== *)
(** ** [MessageType] and [ChatMessage] *)
(* ===================================================================== *)

Inductive MessageType : Type :=
| REGULAR
| ACTION
| MODE_CHANGE.

Module ChatMessage.

Record t : Type := mk {
  time : Py.time;
  username : string;
  text : string;
  line_type : MessageType
}.

(** The test of the first [if]:
    [len(line) < 7 or not ('0' <= line[0] and line[0] <= '9')]; the
    second operand is not evaluated on a line shorter than 7. *)
Definition rejects (line : string) : bool :=
  (String.length line <? 7)%nat
  || match line with
     | EmptyString => true
     | String line0 _ =>
         negb ((Py.ord "0" <=? Py.ord line0) && (Py.ord line0 <=? Py.ord "9"))
     end.

(** [datetime.time( *map(int, token.split(":")))]: every field is converted
    before the constructor is called. *)
Definition parse_time (token : string) : result Py.time :=
  let* args := mapM Py.int (Py.split_on ":" token) in
  Py.datetime_time args.

(** [ChatMessage.parse(line)]: [Ret None] is the [return None] of the
    first test, [Ret (Some m)] a parsed message. *)
Definition parse (line : string) : result (option t) :=
  if rejects line
  then Ret None
  else
    let contents := Py.split line in
    let* contents0 := Py.getitem contents 0 in
    let* message_time := parse_time contents0 in
    let* contents1 := Py.getitem contents 1 in
    let* d := Py.str_getitem contents1 0 in
    if Ascii.eqb d "*" then
      let* contents2 := Py.getitem contents 2 in
      Ret (Some {| line_type := ACTION;
                   time := message_time;
                   username := contents2;
                   text := Py.join " " (Py.slice_from 3 contents) |})
    else if Ascii.eqb d "<" then
      let* contents2 := Py.getitem contents 2 in
      Ret (Some {| line_type := REGULAR;
                   time := message_time;
                   username := Py.rstrip ">" contents2;
                   text := Py.join " " (Py.slice_from 3 contents) |})
    else if Ascii.eqb d "-" then
      let* contents4 := Py.getitem contents 4 in
      Ret (Some {| line_type := MODE_CHANGE;
                   time := message_time;
                   username := Py.rstrip "]" contents4;
                   text := EmptyString |})
    else Raise (RuntimeError line d contents1).

(** [parse_urls] *)
Definition parse_urls (self : t) : list string :=
  Re.findall URLS_PATTERN (text self).

End ChatMessage.

(* ===================================================================== *)
(** ** The records handed to the template and to [json.dump] *)
(* ===================================================================== *)

Module User.
Record t : Type := mk {
  user_id : option Z;
  username : string;
  message_count : Z;
  random_quote : string
}.
End User.

Module Url.
Record t : Type := mk {
  address : string;
  count : Z;
  last_used_username : string
}.
End Url.

(** The dictionary [being] of [save_page]. *)
Module Being.
Record t : Type := mk {
  screaming : list (string * Z);
  asking : list (string * Z);
  telling : list (string * Z);
  modding : list (string * Z)
}.
End Being.

(** The keyword arguments of [self.template.render]. *)
Module Rendered.
Record t : Type := mk {
  name : string;
  most_active : list User.t;
  runner_ups : list (string * Z);
  being : Being.t;
  urls_used : list Url.t;
  total : list Z;
  activity_graph : list Z
}.
End Rendered.

(** The dictionary [data] written by [json.dump]. *)
Module Json.
Record t : Type := mk {
  name : string;
  total_numbers : list Z;
  most_active : list (string * Z);
  runner_ups : list (string * Z);
  being : Being.t;
  most_used_urls : list (string * Z);
  activity_graph : list Z
}.
End Json.

(** What [debug] prints; the formatting of the text is left out. *)
Inductive log_entry : Type :=
| SkippedLine (line : string)
| ParsedLogs (files : nat)
| FetchingProfile (username : string)
| RenderingTemplate (channel : string).

(* ===================================================================== *)
(** ** [Main]: the aggregator and the report assembler *)
(* ===================================================================== *)

Module Main.

Record t : Type := mk {
  channel_name : string;
  user_messages : Counter.t;
  user_question : Counter.t;
  user_exclamation : Counter.t;
  user_actions : Counter.t;
  user_givemodes : Counter.t;
  _cache_user_messages : ReservoirSampler.t;
  activity_graph : list Z;
  url_count : Counter.t;
  last_url_usage : gmap string string;
  stderr : list log_entry
}.

(** The statistics part of [__init__]. *)
Definition init (channel : string) : t :=
  {| channel_name := channel;
     user_messages := Counter.empty;
     user_question := Counter.empty;
     user_exclamation := Counter.empty;
     user_actions := Counter.empty;
     user_givemodes := Counter.empty;
     _cache_user_messages := ReservoirSampler.init;
     activity_graph := repeat 0 24;
     url_count := Counter.empty;
     last_url_usage := ∅;
     stderr := [] |}.

Definition debug (self : t) (e : log_entry) : t :=
  {| channel_name := channel_name self;
     user_messages := user_messages self;
     user_question := user_question self;
     user_exclamation := user_exclamation self;
     user_actions := user_actions self;
     user_givemodes := user_givemodes self;
     _cache_user_messages := _cache_user_messages self;
     activity_graph := activity_graph self;
     url_count := url_count self;
     last_url_usage := last_url_usage self;
     stderr := (stderr self ++ [e])%list |}.

(** [l[i] += 1] *)
Definition list_incr (l : list Z) (i : nat) : result (list Z) :=
  let* old := Py.getitem l i in
  Ret (<[i := old + 1]> l).

(** The loop [for url in message.parse_urls(): ...] on the two URL maps. *)
Definition count_urls (u : string) (urls : list string)
    (acc : Counter.t * gmap string string) : Counter.t * gmap string string :=
  fold_left
    (fun acc url => (Counter.incr (fst acc) url, <[url := u]> (snd acc)))
    urls acc.

(** [one_line(line)]; [entropy] feeds the sampler's random draw. *)
Definition one_line (entropy : nat) (self : t) (line : string) : result t :=
  let* message := ChatMessage.parse line in
  match message with
  | None => Ret (debug self (SkippedLine line))
  | Some message =>
      let u := ChatMessage.username message in
      match ChatMessage.line_type message with
      | MODE_CHANGE =>
          Ret {| channel_name := channel_name self;
                 user_messages := user_messages self;
                 user_question := user_question self;
                 user_exclamation := user_exclamation self;
                 user_actions := user_actions self;
                 user_givemodes := Counter.incr (user_givemodes self) u;
                 _cache_user_messages := _cache_user_messages self;
                 activity_graph := activity_graph self;
                 url_count := url_count self;
                 last_url_usage := last_url_usage self;
                 stderr := stderr self |}
      | REGULAR | ACTION =>
          let* activity_graph' :=
            list_incr (activity_graph self)
                      (Z.to_nat (Py.hour (ChatMessage.time message))) in
          let user_messages' := Counter.incr (user_messages self) u in
          let user_actions' :=
            match ChatMessage.line_type message with
            | ACTION => Counter.incr (user_actions self) u
            | _ => user_actions self
            end in
          let* cache' :=
            ReservoirSampler.consider entropy (_cache_user_messages self) u
                                      (ChatMessage.text message) in
          let urls' :=
            count_urls u (ChatMessage.parse_urls message)
                       (url_count self, last_url_usage self) in
          let user_exclamation' :=
            if Py.contains "!" (ChatMessage.text message)
            then Counter.incr (user_exclamation self) u
            else user_exclamation self in
          let user_question' :=
            if Py.contains "?" (ChatMessage.text message)
            then Counter.incr (user_question self) u
            else user_question self in
          Ret {| channel_name := channel_name self;
                 user_messages := user_messages';
                 user_question := user_question';
                 user_exclamation := user_exclamation';
                 user_actions := user_actions';
                 user_givemodes := user_givemodes self;
                 _cache_user_messages := cache';
                 activity_graph := activity_graph';
                 url_count := fst urls';
                 last_url_usage := snd urls';
                 stderr := stderr self |}
      end
  end.

(** The loop [for line in fd: self.one_line(line.strip())] over the lines
    of one file, each with the entropy available while it is processed. *)
Fixpoint feed (self : t) (lines : list (nat * string)) : result t :=
  match lines with
  | [] => Ret self
  | (entropy, line) :: lines' =>
      let* self' := one_line entropy self (Py.strip line) in
      feed self' lines'
  end.

Fixpoint feed_files (self : t) (files : list (list (nat * string))) : result t :=
  match files with
  | [] => Ret self
  | f :: files' => let* self' := feed self f in feed_files self' files'
  end.

(** [bulk_lines()], given the contents of the matching files in order. *)
Definition bulk_lines (self : t) (files : list (list (nat * string))) : result t :=
  let* self' := feed_files self files in
  Ret (debug self' (ParsedLogs (List.length files))).

(** *** [save_page] *)

(** The loop that builds [most_active]: [html.escape] of a missing quote
    is an [AttributeError]. [api_uid] gives what [self.api.uid] answers
    during this call; what the lookup caches and prints is the matter of
    [APIClient.uid] and is no part of this state or its log. *)
Fixpoint most_active_loop (api_uid : string -> option Z) (self : t)
    (top : list (string * Z)) (most_active : list User.t)
  : result (t * list User.t) :=
  match top with
  | [] => Ret (self, most_active)
  | (username, message_count) :: top' =>
      let self := debug self (FetchingProfile username) in
      let uid := api_uid username in
      match ReservoirSampler.get (_cache_user_messages self) username with
      | None => Raise AttributeError
      | Some random_quote =>
          most_active_loop api_uid self top'
            (most_active ++
               [{| User.user_id := uid;
                   User.username := username;
                   User.message_count := message_count;
                   User.random_quote := Py.html_escape random_quote |}])%list
      end
  end.

(** The first integer that does not convert to a float: past it,
    [int / float] is an [OverflowError]. *)
Definition float_overflow_bound : Z := 2 ^ 1024 - 2 ^ 970.

(** [n / d] for an integer [n] and a float [d]: the quotient as an exact
    rational (the rounding to a double is left out). *)
Definition truediv_float (n : Z) (d : Q) : result Q :=
  if float_overflow_bound <=? Z.abs n then Raise OverflowError
  else if Qeq_bool d (0 # 1) then Raise ZeroDivisionError
  else Ret (Qdiv (inject_Z n) d).

(** [int(x)] for an integer [x] *)
Definition int_of_int (x : Z) : Z := x.

(** [for i in range(0, 24): self.activity_graph[i] = int(self.activity_graph[i])] *)
Fixpoint cast_loop (range : list nat) (graph : list Z) : result (list Z) :=
  match range with
  | [] => Ret graph
  | i :: range' =>
      let* x := Py.getitem graph i in
      cast_loop range' (<[i := int_of_int x]> graph)
  end.

(** The block under [# graph percentage calculation]: the final value of
    the local [sum] and the graph after the loop. [divisor] is the 240.0
    of the source. *)
Definition graph_percentage (divisor : Q) (graph : list Z) : result (Q * list Z) :=
  let sum := fold_left Z.add graph 0 in
  let* sum := truediv_float sum divisor in
  let* graph' := cast_loop (seq 0 24) graph in
  Ret (sum, graph').

(** [self.last_url_usage[k]] on a [defaultdict(str)]: a missing key is
    inserted with the empty string. *)
Definition last_url_lookup (m : gmap string string) (k : string)
  : gmap string string * string :=
  match m !! k with
  | Some v => (m, v)
  | None => (<[k := EmptyString]> m, EmptyString)
  end.

Fixpoint top_urls (m : gmap string string) (items : list (string * Z))
  : gmap string string * list Url.t :=
  match items with
  | [] => (m, [])
  | item :: items' =>
      let '(m1, who) := last_url_lookup m (fst item) in
      let '(m2, rest) := top_urls m1 items' in
      (m2, {| Url.address := fst item;
              Url.count := snd item;
              Url.last_used_username := who |} :: rest)
  end.

(** [save_page()] up to the two writes: the state it leaves, the
    arguments given to the template and the data given to [json.dump].
    [api_uid] is the identifier lookup [self.api.uid]. *)
Definition save_page_div (divisor : Q) (api_uid : string -> option Z) (self : t)
  : result (t * Rendered.t * Json.t) :=
  let users_messages_desc := Counter.most_common (user_messages self) in
  let capped_top25_len := Nat.min 25 (List.length users_messages_desc) in
  let top25 := Py.slice 0 capped_top25_len users_messages_desc in
  let capped_top35_len := Nat.min 35 (List.length users_messages_desc) in
  let runner_ups := Py.slice capped_top25_len capped_top35_len users_messages_desc in
  let* looped := most_active_loop api_uid self top25 [] in
  let self := fst looped in
  let most_active := snd looped in
  let* percentage := graph_percentage divisor (activity_graph self) in
  let activity_graph' := snd percentage in
  let being :=
    {| Being.screaming := Counter.most_common_n 2 (user_exclamation self);
       Being.asking := Counter.most_common_n 2 (user_question self);
       Being.telling := Counter.most_common_n 2 (user_actions self);
       Being.modding := Counter.most_common_n 2 (user_givemodes self) |} in
  let urls := top_urls (last_url_usage self) (Counter.most_common_n 10 (url_count self)) in
  let top10_urls := snd urls in
  let total_num :=
    [Counter.total (user_question self);
     Counter.total (user_exclamation self);
     Counter.total (user_actions self);
     Counter.total (user_givemodes self)] in
  let self' :=
    debug
      {| channel_name := channel_name self;
         user_messages := user_messages self;
         user_question := user_question self;
         user_exclamation := user_exclamation self;
         user_actions := user_actions self;
         user_givemodes := user_givemodes self;
         _cache_user_messages := _cache_user_messages self;
         activity_graph := activity_graph';
         url_count := url_count self;
         last_url_usage := fst urls;
         stderr := stderr self |}
      (RenderingTemplate (channel_name self)) in
  Ret (self',
       {| Rendered.name := channel_name self;
          Rendered.most_active := most_active;
          Rendered.runner_ups := runner_ups;
          Rendered.being := being;
          Rendered.urls_used := top10_urls;
          Rendered.total := total_num;
          Rendered.activity_graph := activity_graph' |},
       {| Json.name := channel_name self;
          Json.total_numbers := total_num;
          Json.most_active :=
            map (fun user => (User.username user, User.message_count user)) most_active;
          Json.runner_ups := runner_ups;
          Json.being := being;
          Json.most_used_urls :=
            map (fun url => (Url.address url, Url.count url)) top10_urls;
          Json.activity_graph := activity_graph' |}).

Definition save_page := save_page_div (240 # 1).

End Main.


(* ===================================================================== *)
(** ** [get_filter_mask]: the file-name filter *)
(* ===================================================================== *)

Module Datetime.

(** The fields of a [datetime.datetime] that the filter sets or reads. *)
Record t : Type := mk {
  year : Z;
  month : Z;
  day : Z
}.

(** [datetime.datetime(year, month, 15)]: a [ValueError] unless the year
    is one of 1..9999 and the month one of 1..12; every month has a 15th. *)
Definition on_the_15th (year month : Z) : result t :=
  if (1 <=? year) && (year <=? 9999) && (1 <=? month) && (month <=? 12)
  then Ret {| year := year; month := month; day := 15 |}
  else Raise ValueError.

Definition digit (d : Z) : ascii := ascii_of_nat (48 + Z.to_nat d).

(** The decimal digits of [n], at most [fuel] of them, before [acc]. *)
Fixpoint decimal (fuel : nat) (n : Z) (acc : string) : string :=
  match fuel with
  | O => acc
  | S fuel' =>
      let acc' := String (digit (n mod 10)) acc in
      if n / 10 =? 0 then acc' else decimal fuel' (n / 10) acc'
  end.

(** [d.strftime("%Y")]: the four digits of a year from 1000 on; the digits
    of an earlier year are given as the C library of Linux gives them,
    without padding. *)
Definition strftime_Y (d : t) : string := decimal 4 (year d) EmptyString.

(** [d.strftime("%m")]: the month as two digits. *)
Definition strftime_m (d : t) : string :=
  String (digit (month d / 10)) (String (digit (month d mod 10)) EmptyString).

End Datetime.

(** The arguments that [get_filter_mask] gives to [re.compile]. *)
Record FilterMask : Type := {
  mask_pattern : string;
  mask_ignorecase : bool
}.

(** [get_filter_mask(year, month)]. [now1], [now2] and [now3] are what the
    three calls of [datetime.datetime.now()] return, where they are made. *)
Definition get_filter_mask (now1 now2 now3 : Datetime.t) (year month : string)
  : result FilterMask :=
  let year := if String.eqb year "current" then Datetime.strftime_Y now1 else year in
  let month := if String.eqb month "current" then Datetime.strftime_m now2 else month in
  let* ym :=
    if String.eqb month "previous" || String.eqb year "previous" then
      let now := now3 in
      let month_number := Datetime.month now - 1 in
      let year_number := Datetime.year now in
      let '(month_number, year_number) :=
        if month_number <? 0
        then (month_number mod 12, year_number - 1)
        else (month_number, year_number) in
      let month_number := month_number + 1 in
      let* prev := Datetime.on_the_15th year_number month_number in
      Ret (Datetime.strftime_Y prev, Datetime.strftime_m prev)
    else Ret (year, month) in
  Ret {| mask_pattern := "(" ++ fst ym ++ ")\-(" ++ snd ym ++ ")\-\d+\.\w+";
         mask_ignorecase := true |}.

(* ===================================================================== *)
(** ** Compressed logs: [bulk_lines] over both kinds of file *)
(* ===================================================================== *)

Module Bytes.

(** A [bytes] object. *)
Definition t : Type := list Byte.byte.

Definition code (b : Byte.byte) : Z := Z.of_N (Byte.to_N b).

(** The whitespace of [bytes.strip()]: TAB..CR and SPACE. *)
Definition isspace (b : Byte.byte) : bool :=
  ((9 <=? code b) && (code b <=? 13)) || (code b =? 32).

Fixpoint lstrip (line : t) : t :=
  match line with
  | [] => []
  | b :: line' => if isspace b then lstrip line' else line
  end.

Definition rstrip (line : t) : t := rev (lstrip (rev line)).

(** [line.strip()] *)
Definition strip (line : t) : t := lstrip (rstrip line).

End Bytes.

Module MainIO.

(** [ChatMessage.parse(line)] when [line] is a [bytes] object. The test
    [len(line) < 7] is as for a string, and the function returns [None]
    on a short line. Past it, [line[0]] is an integer, and the comparison
    ['0' <= line[0]] of a string with an integer is a [TypeError]; the
    rest of the function is not reached. So the call returns [None] or
    raises. *)
Definition parse_bytes (line : Bytes.t) : result unit :=
  if (List.length line <? 7)%nat then Ret tt
  else Raise TypeError.

(** [one_line(line)] when [line] is a [bytes] object: [message] is [None]
    if [parse] returns. The log entry holds the line, its bytes as
    characters. *)
Definition one_line_bytes (self : Main.t) (line : Bytes.t) : result Main.t :=
  let* _ := parse_bytes line in
  Ret (Main.debug self (SkippedLine (string_of_list_byte line))).

(** A matching file: its suffix and its lines. A file with the suffix
    [.gz] is opened with [gzip.open(filepath, "rb")] and gives [bytes]
    lines; any other is opened with [open(filepath, "r")] and gives
    strings. *)
Inductive file : Type :=
| Plain (lines : list (nat * string))
| Gz (lines : list Bytes.t).

Fixpoint feed_bytes (self : Main.t) (lines : list Bytes.t) : result Main.t :=
  match lines with
  | [] => Ret self
  | line :: lines' =>
      let* self' := one_line_bytes self (Bytes.strip line) in
      feed_bytes self' lines'
  end.

Definition feed_file (self : Main.t) (f : file) : result Main.t :=
  match f with
  | Plain lines => Main.feed self lines
  | Gz lines => feed_bytes self lines
  end.

Fixpoint feed_files (self : Main.t) (files : list file) : result Main.t :=
  match files with
  | [] => Ret self
  | f :: files' => let* self' := feed_file self f in feed_files self' files'
  end.

(** [bulk_lines()] over the matching files of both kinds, in order. *)
Definition bulk_lines (self : Main.t) (files : list file) : result Main.t :=
  let* self' := feed_files self files in
  Ret (Main.debug self' (ParsedLogs (List.length files))).

End MainIO.

(* ===================================================================== *)
(** ** [APIClient]: the cached lookup of user identifiers *)
(* ===================================================================== *)

Module APIClient.

Fixpoint map_chars (f : ascii -> ascii) (s : string) : string :=
  match s with
  | EmptyString => EmptyString
  | String c s' => String (f c) (map_chars f s')
  end.

(** [str.lower] on one code point below 256: the upper-case letters are
    A..Z and the accented letters 0xC0..0xDE but the multiplication sign
    0xD7, each 32 below its lower-case letter. Code points from 256 on,
    some of them upper-case letters that [lower] leaves as they are, are
    outside the alphabet of this development. *)
Definition lower_char (c : ascii) : ascii :=
  if Py.in_range 65 90 c || Py.in_range 192 214 c || Py.in_range 216 222 c
  then ascii_of_N (N_of_ascii c + 32)
  else c.

(** [s.lower()] *)
Definition lower (s : string) : string := map_chars lower_char s.

(** [s.replace(old, new)] for one-character [old] and [new] *)
Definition replace (old new : ascii) (s : string) : string :=
  map_chars (fun c => if Ascii.eqb c old then new else c) s.

(** [username.lower().strip().replace(" ", "_")] *)
Definition normalise (username : string) : string :=
  replace " " "_" (Py.strip (lower username)).

(** The client with what it writes: the dictionary [_cache], the lines
    appended to the cache file, each given by the name and the identifier
    it is formatted from, and the exceptions printed by [debug]. *)
Record t : Type := mk {
  _cache : gmap string Z;
  cache_file : list (string * Z);
  stderr : list string
}.

(** What the request [self.api.user(name)] with [data.id] gives: an
    identifier, or an exception, given by its text. *)
Inductive response : Type :=
| Found (id : Z)
| Failed (message : string).

(** What appending a line to the cache file does: the line is written,
    an [OSError] is raised, or another exception is raised. *)
Inductive append_result : Type :=
| Appended
| RaisedOSError
| RaisedOther (message : string).

(** [uid(username)]. [api_user] answers the request and [append] tells
    what becomes of the write. *)
Definition uid (api_user : string -> response) (append : string -> Z -> append_result)
    (self : t) (username : string) : t * option Z :=
  let username := normalise username in
  let self :=
    match _cache self !! username with
    | Some _ => self
    | None =>
        match api_user ("@" ++ username) with
        | Found id =>
            let cache := <[username := id]> (_cache self) in
            match append username id with
            | Appended =>
                {| _cache := cache;
                   cache_file := (cache_file self ++ [(username, id)])%list;
                   stderr := stderr self |}
            | RaisedOSError =>
                {| _cache := cache;
                   cache_file := cache_file self;
                   stderr := stderr self |}
            | RaisedOther message =>
                {| _cache := cache;
                   cache_file := cache_file self;
                   stderr := (stderr self ++ [message])%list |}
            end
        | Failed message =>
            {| _cache := _cache self;
               cache_file := cache_file self;
               stderr := (stderr self ++ [message])%list |}
        end
    end in
  (self, _cache self !! username).

End APIClient.


(* ===================================================================== *)
(** ** Vocabulary of the statements *)
(* ===================================================================== *)





(** A sequence of [consider(k, v)] calls on one sampler, each with the
    entropy available to it. *)
Fixpoint consider_all (self : ReservoirSampler.t)
    (calls : list (nat * string * string)) : result ReservoirSampler.t :=
  match calls with
  | [] => Ret self
  | (entropy, k, v) :: calls' =>
      let* self' := ReservoirSampler.consider entropy self k v in
      consider_all self' calls'
  end.

(** The values passed to [consider] under the key [k], in call order. *)
Fixpoint observed (k : string) (calls : list (nat * string * string)) : list string :=
  match calls with
  | [] => []
  | (_, k', v) :: calls' =>
      if String.eqb k' k then v :: observed k calls' else observed k calls'
  end.

(** No occurrence count of the sampler is negative. *)
Definition sampler_wf (s : ReservoirSampler.t) : Prop :=
  forall k, 0 <= default 0 (ReservoirSampler._counter s !! k).

(** The states of a run: the one [__init__] builds, and those that
    [one_line] and [debug] lead to from there. *)
Inductive reachable (channel : string) : Main.t -> Prop :=
| reach_init : reachable channel (Main.init channel)
| reach_line (entropy : nat) (st st' : Main.t) (line : string) :
    reachable channel st ->
    Main.one_line entropy st line = Ret st' ->
    reachable channel st'
| reach_debug (st : Main.t) (e : log_entry) :
    reachable channel st ->
    reachable channel (Main.debug st e).

(** What every state of a run satisfies. *)
Record stats_inv (st : Main.t) : Prop := {
  inv_sampler_wf : sampler_wf (Main._cache_user_messages st);
  inv_observations :
    forall u,
      default 0 (ReservoirSampler._counter (Main._cache_user_messages st) !! u)
      = Counter.get (Main.user_messages st) u;
  inv_quote :
    forall u,
      0 < Counter.get (Main.user_messages st) u ->
      exists quote, ReservoirSampler.get (Main._cache_user_messages st) u = Some quote;
  inv_positive : Forall (fun kv => 0 < snd kv) (Main.user_messages st);
  inv_buckets : List.length (Main.activity_graph st) = 24%nat;
  inv_counts : Forall (fun n => 0 <= n) (Main.activity_graph st)
}.

(** The [top25] of [save_page]. *)
Definition top25 (st : Main.t) : list (string * Z) :=
  let users_messages_desc := Counter.most_common (Main.user_messages st) in
  Py.slice 0 (Nat.min 25 (List.length users_messages_desc)) users_messages_desc.

(** The hour under which a raw line of a file is counted in the histogram:
    that of the event it parses to, unless it is a mode change. *)
Definition counted_hour (raw : string) : option Z :=
  match ChatMessage.parse (Py.strip raw) with
  | Ret (Some m) =>
      match ChatMessage.line_type m with
      | MODE_CHANGE => None
      | _ => Some (Py.hour (ChatMessage.time m))
      end
  | _ => None
  end.

(** The number of lines counted under the hour [h]. *)
Fixpoint events_at (h : Z) (lines : list (nat * string)) : Z :=
  match lines with
  | [] => 0
  | (_, raw) :: lines' =>
      (match counted_hour raw with
       | Some h' => if h' =? h then 1 else 0
       | None => 0
       end) + events_at h lines'
  end.

Definition graph_sum (graph : list Z) : Z := fold_left Z.add graph 0.

(** [debug] called on each entry in turn. *)
Definition debug_all (self : Main.t) (entries : list log_entry) : Main.t :=
  fold_left Main.debug entries self.

(** No match of [r] starts at a character of [gap] when [gap] is followed
    by [tail]. *)
Definition no_match_in (r : Re.regex) (gap tail : string) : Prop :=
  forall g1 c g2, gap = g1 ++ String c g2 -> Re.match_at r (String c g2 ++ tail) = None.

(** [found_in_order r us s]: the strings [us] lie in [s] one after the
    other, from left to right and without overlap; each is what [r] matches
    where it stands, no match starts in the gap before it, and none starts
    after the last one. *)
Inductive found_in_order (r : Re.regex) : list string -> string -> Prop :=
| found_none (s : string) :
    no_match_in r s EmptyString ->
    found_in_order r [] s
| found_next (gap u rest : string) (us : list string) :
    no_match_in r gap (u ++ rest) ->
    Re.match_at r (u ++ rest) = Some (u, rest) ->
    found_in_order r us rest ->
    found_in_order r (u :: us) (gap ++ u ++ rest).

(** A pattern that matches no empty string. *)
Definition nonempty_matches (r : Re.regex) : Prop :=
  forall s rest, Re.match_at r s <> Some (EmptyString, rest).

(** The characters that one round of [url_atom] can consume on its own:
    those of its four bracket expressions. *)
Definition url_char (c : ascii) : bool :=
  Re.class_matches (Re.class_items "a-zA-Z") c
  || Re.class_matches (Re.class_items "0-9") c
  || Re.class_matches (Re.class_items "$-_@.&+") c
  || Re.class_matches (Re.class_items "!*\(\),") c.

(** The longest prefix of [s] made of characters satisfying [p]; what
    follows it is [Py.lstrip_by p s]. *)
Fixpoint take_while (p : ascii -> bool) (s : string) : string :=
  match s with
  | EmptyString => EmptyString
  | String c s' => if p c then String c (take_while p s') else EmptyString
  end.

Fixpoint all_chars (p : ascii -> bool) (s : string) : bool :=
  match s with
  | EmptyString => true
  | String c s' => p c && all_chars p s'
  end.



(** A character that is not whitespace. *)
Definition not_space (c : ascii) : bool := negb (Py.isspace c).

(** The last character of a string, if it has one. *)
Fixpoint last_char (s : string) : option ascii :=
  match s with
  | EmptyString => None
  | String c EmptyString => Some c
  | String _ s' => last_char s'
  end.

(** A token of [s.split()]: not empty and free of whitespace. *)
Definition is_token (t : string) : Prop :=
  Py.is_empty t = false /\ all_chars not_space t = true.

(** The calls [consider(k, v)] for the values [vs] in order, the i-th with
    the entropy [es[i]]. *)
Definition stream (k : string) (es : list nat) (vs : list string)
  : list (nat * string * string) :=
  map (fun ev => (fst ev, k, snd ev)) (combine es vs).

(** The sample held for [k] after the calls of [stream k es vs] on a new
    sampler. *)
Definition held (k : string) (es : list nat) (vs : list string) : option string :=
  match consider_all ReservoirSampler.init (stream k es vs) with
  | Ret s => ReservoirSampler.get s k
  | Raise _ => None
  end.

(** [choose i cur es]: the index held after the observations [i],
    [i+1], ... with the entropies [es], when [cur] is held before them:
    observation [i] takes the place when its draw from [1..i+1] is 1, that
    is when its entropy is a multiple of [i+1]. *)
Fixpoint choose (i cur : nat) (es : list nat) : nat :=
  match es with
  | [] => cur
  | e :: es' => choose (S i) (if (e mod S i =? 0)%nat then i else cur) es'
  end.

Definition chosen_index (es : list nat) : nat := choose 0 0 es.

(** The entropy lists of length [n] whose i-th entry is one of [0..i]:
    one list for each way the draws of [n] observations can come out. *)
Fixpoint draws (n : nat) : list (list nat) :=
  match n with
  | O => [[]]
  | S n' => flat_map (fun es => map (fun e => (es ++ [e])%list) (seq 0 n)) (draws n')
  end.

Fixpoint count_if {A : Type} (p : A -> bool) (l : list A) : nat :=
  match l with
  | [] => 0
  | x :: l' => ((if p x then 1 else 0) + count_if p l')%nat
  end.

Definition holds (v : string) (o : option string) : bool :=
  match o with
  | Some h => String.eqb h v
  | None => false
  end.

(** The event that a raw line of a file is classified as, if any. *)
Definition event_of (raw : string) : option ChatMessage.t :=
  match ChatMessage.parse (Py.strip raw) with
  | Ret (Some m) => Some m
  | _ => None
  end.

Definition is_message (m : ChatMessage.t) : bool :=
  match ChatMessage.line_type m with
  | MODE_CHANGE => false
  | _ => true
  end.

Definition is_action (m : ChatMessage.t) : bool :=
  match ChatMessage.line_type m with
  | ACTION => true
  | _ => false
  end.

Definition is_mode_change (m : ChatMessage.t) : bool := negb (is_message m).

Definition asks (m : ChatMessage.t) : bool :=
  is_message m && Py.contains "?" (ChatMessage.text m).

Definition exclaims (m : ChatMessage.t) : bool :=
  is_message m && Py.contains "!" (ChatMessage.text m).

Definition by_author (u : string) (m : ChatMessage.t) : bool :=
  String.eqb (ChatMessage.username m) u.

(** The number of lines whose event satisfies [p]. *)
Fixpoint tally (p : ChatMessage.t -> bool) (lines : list (nat * string)) : Z :=
  match lines with
  | [] => 0
  | (_, raw) :: lines' =>
      (match event_of raw with
       | Some m => if p m then 1 else 0
       | None => 0
       end) + tally p lines'
  end.

(** How often [url] is extracted from the messages and actions of the
    lines, counting every occurrence. *)
Fixpoint url_occurrences (url : string) (lines : list (nat * string)) : Z :=
  match lines with
  | [] => 0
  | (_, raw) :: lines' =>
      (match event_of raw with
       | Some m =>
           if is_message m
           then Z.of_nat (count_occ string_dec (ChatMessage.parse_urls m) url)
           else 0
       | None => 0
       end) + url_occurrences url lines'
  end.

(** The author of the last message or action among the lines from which
    [url] is extracted; [acc] when there is none. *)
Fixpoint last_poster (url : string) (acc : option string) (lines : list (nat * string))
  : option string :=
  match lines with
  | [] => acc
  | (_, raw) :: lines' =>
      last_poster url
        (match event_of raw with
         | Some m =>
             if is_message m && existsb (String.eqb url) (ChatMessage.parse_urls m)
             then Some (ChatMessage.username m)
             else acc
         | None => acc
         end)
        lines'
  end.

(** What the loop over the top 25 builds for each of them. *)
Definition user_of (api_uid : string -> option Z) (cache : ReservoirSampler.t)
    (user : User.t) (kv : string * Z) : Prop :=
  User.username user = fst kv
  /\ User.message_count user = snd kv
  /\ User.user_id user = api_uid (fst kv)
  /\ exists q,
       ReservoirSampler.get cache (fst kv) = Some q
       /\ User.random_quote user = Py.html_escape q.

(** The ranking of the authors and the [runner_ups] of [save_page]. *)
Definition ranking (st : Main.t) : list (string * Z) :=
  Counter.most_common (Main.user_messages st).

Definition runner_ups_of (st : Main.t) : list (string * Z) :=
  Py.slice (Nat.min 25 (List.length (ranking st)))
           (Nat.min 35 (List.length (ranking st))) (ranking st).

(** The URLs that [save_page] reports. *)
Definition top10_urls_of (st : Main.t) : list Url.t :=
  snd (Main.top_urls (Main.last_url_usage st)
         (Counter.most_common_n 10 (Main.url_count st))).

(** The authors of the messages and actions among the lines, each once,
    in the order of their first message or action; [seen] are those known
    before. *)
Fixpoint first_seen_from (seen : list string) (lines : list (nat * string))
  : list string :=
  match lines with
  | [] => seen
  | (_, raw) :: lines' =>
      first_seen_from
        (match event_of raw with
         | Some m =>
             if is_message m
                && negb (existsb (String.eqb (ChatMessage.username m)) seen)
             then (seen ++ [ChatMessage.username m])%list
             else seen
         | None => seen
         end)
        lines'
  end.

Definition first_seen (lines : list (nat * string)) : list string :=
  first_seen_from [] lines.

(** Counts in descending order. *)
Definition count_ge (a b : string * Z) : Prop := snd b <= snd a.

Definition has_count (n : Z) (kv : string * Z) : bool := snd kv =? n.


(** The calls [consider(username, text)] that the lines lead to: one for
    each message or action, with the entropy of its line. *)
Fixpoint sampler_calls (lines : list (nat * string)) : list (nat * string * string) :=
  match lines with
  | [] => []
  | (entropy, raw) :: lines' =>
      (match event_of raw with
       | Some m =>
           if is_message m
           then [(entropy, ChatMessage.username m, ChatMessage.text m)]
           else []
       | None => []
       end ++ sampler_calls lines')%list
  end.

(** The characters that end or open markup in HTML text and attributes. *)
Definition html_special (c : ascii) : bool :=
  Ascii.eqb c "<" || Ascii.eqb c ">" || Ascii.eqb c Py.dquote || Ascii.eqb c Py.squote.

Definition html_safe (s : string) : bool :=
  all_chars (fun c => negb (html_special c)) s.

(** Every URL that has a counter has a last poster. *)
Definition urls_known (counts : Counter.t) (last : gmap string string) : Prop :=
  forall url, In url (map fst counts) -> is_Some (last !! url).

(** The entry of the report for an item of the URL counter. *)
Definition url_entry (last : gmap string string) (item : string * Z) : Url.t :=
  {| Url.address := fst item;
     Url.count := snd item;
     Url.last_used_username := default EmptyString (last !! fst item) |}.

(** What [save_page] writes to the log. *)
Definition save_page_log (st : Main.t) : list log_entry :=
  (map (fun x => FetchingProfile (fst x)) (top25 st)
   ++ [RenderingTemplate (Main.channel_name st)])%list.

(** The first exception that the classifier raises on the lines, if any. *)
Fixpoint first_error (lines : list (nat * string)) : option exn :=
  match lines with
  | [] => None
  | (_, raw) :: lines' =>
      match ChatMessage.parse (Py.strip raw) with
      | Raise e => Some e
      | Ret _ => first_error lines'
      end
  end.

(** The log entries of the lines that the classifier rejects. *)
Fixpoint skipped_log (lines : list (nat * string)) : list log_entry :=
  match lines with
  | [] => []
  | (_, raw) :: lines' =>
      match ChatMessage.parse (Py.strip raw) with
      | Ret None => SkippedLine (Py.strip raw) :: skipped_log lines'
      | _ => skipped_log lines'
      end
  end.

(** A reading of the clock: a date of the calendar. *)
Definition valid_now (now : Datetime.t) : Prop :=
  1 <= Datetime.year now <= 9999 /\ 1 <= Datetime.month now <= 12.

(** The lines of the plain files, in order, and those of the compressed
    files. *)
Definition plain_lines (files : list MainIO.file) : list (nat * string) :=
  flat_map (fun f => match f with MainIO.Plain lines => lines | MainIO.Gz _ => [] end)
           files.

Definition gz_lines (files : list MainIO.file) : list Bytes.t :=
  flat_map (fun f => match f with MainIO.Plain _ => [] | MainIO.Gz lines => lines end)
           files.

(** A compressed line of less than 7 bytes, once stripped. *)
Definition short_line (line : Bytes.t) : bool :=
  (List.length (Bytes.strip line) <? 7)%nat.

(** A state with another log. *)
Definition with_log (st : Main.t) (log : list log_entry) : Main.t :=
  {| Main.channel_name := Main.channel_name st;
     Main.user_messages := Main.user_messages st;
     Main.user_question := Main.user_question st;
     Main.user_exclamation := Main.user_exclamation st;
     Main.user_actions := Main.user_actions st;
     Main.user_givemodes := Main.user_givemodes st;
     Main._cache_user_messages := Main._cache_user_messages st;
     Main.activity_graph := Main.activity_graph st;
     Main.url_count := Main.url_count st;
     Main.last_url_usage := Main.last_url_usage st;
     Main.stderr := log |}.

(** Two states that differ in the log at most. *)
Definition same_statistics (a b : Main.t) : Prop := with_log a [] = with_log b [].

(** A character that normalising a name leaves as it is: not a space,
    and its own lower-case form. *)
Definition name_char (c : ascii) : bool :=
  negb (Ascii.eqb c " ") && Ascii.eqb (APIClient.lower_char c) c.

(** Not the space character. *)
Definition not_blank (c : ascii) : bool := negb (Ascii.eqb c " ").

(** The first character of a string, if it has one. *)
Definition first_char (s : string) : option ascii :=
  match s with
  | EmptyString => None
  | String c _ => Some c
  end.

(** No whitespace at either end. *)
Definition trimmed (s : string) : Prop :=
  (forall c, first_char s = Some c -> Py.isspace c = false)
  /\ (forall c, last_char s = Some c -> Py.isspace c = false).

(** A counter whose keys are distinct and whose counts are positive. *)
Definition counter_ok (c : Counter.t) : Prop :=
  List.NoDup (map fst c) /\ Forall (fun kv => 0 < snd kv) c.

(** [l] lists keys with their values under [f], [k] of them at most, in
    descending order of value, no key twice and no value below 1; a key
    of positive value that is left out has no larger value than any that
    is listed, and none is left out unless the list is full. *)
Definition top_of (k : nat) (f : string -> Z) (l : list (string * Z)) : Prop :=
  (List.length l <= k)%nat
  /\ List.NoDup (map fst l)
  /\ StronglySorted count_ge l
  /\ (forall u n, In (u, n) l -> n = f u /\ 0 < n)
  /\ (forall v, 0 < f v ->
        In (v, f v) l
        \/ (List.length l = k /\ forall item, In item l -> f v <= snd item)).

(* ===================================================================== *)
(** ** Basic facts about the classifier *)
(* ===================================================================== *)

Lemma ord_digit_bounds : Py.ord "0" = 48 /\ Py.ord "9" = 57.
Proof. split; reflexivity. Qed.

Lemma rejects_short (line : string) :
  (String.length line < 7)%nat -> ChatMessage.rejects line = true.
Proof.
  intros H. unfold ChatMessage.rejects.
  apply Nat.ltb_lt in H. rewrite H. reflexivity.
Qed.

Lemma rejects_not_digit (c : ascii) (rest : string) :
  Py.isdigit c = false -> ChatMessage.rejects (String c rest) = true.
Proof.
  intros H. unfold ChatMessage.rejects.
  destruct ord_digit_bounds as [-> ->].
  unfold Py.isdigit, Py.in_range in H. rewrite H.
  apply orb_true_r.
Qed.

Lemma parse_rejected (line : string) :
  ChatMessage.rejects line = true -> ChatMessage.parse line = Ret None.
Proof. intros H. unfold ChatMessage.parse. rewrite H. reflexivity. Qed.

Lemma snoc_not_empty (cur : string) (c : ascii) : Py.is_empty (Py.snoc cur c) = false.
Proof. destruct cur; reflexivity. Qed.

(** The tokens of [s.split()] are never empty, so [contents[1][0]] exists
    whenever [contents[1]] does. *)
Lemma split_tokens_not_empty (s : string) :
  forall t, In t (Py.split s) -> Py.is_empty t = false.
Proof.
  unfold Py.split.
  assert (H : forall cur t,
            In t (Py.split_from cur s) ->
            Py.is_empty t = false).
  { induction s as [|c s IH]; intros cur t; cbn [Py.split_from].
    - destruct (Py.is_empty cur) eqn:Hcur; [contradiction |].
      intros [<- | []]. exact Hcur.
    - destruct (Py.isspace c).
      + destruct (Py.is_empty cur) eqn:Hcur; [apply IH |].
        intros [<- | Hin]; [exact Hcur | eapply IH, Hin].
      + apply IH. }
  apply H.
Qed.

Lemma split_from_started (s cur : string) :
  Py.is_empty cur = false -> exists t ts, Py.split_from cur s = t :: ts.
Proof.
  revert cur. induction s as [|c s IH]; intros cur Hcur; cbn [Py.split_from].
  - rewrite Hcur. eauto.
  - destruct (Py.isspace c).
    + rewrite Hcur. eauto.
    + apply IH, snoc_not_empty.
Qed.

(** A line that passes the first test starts with a digit, hence with its
    first token: [contents[0]] exists. *)
Lemma first_token_exists (line : string) :
  ChatMessage.rejects line = false ->
  exists t0, nth_error (Py.split line) 0 = Some t0.
Proof.
  unfold ChatMessage.rejects. intros H.
  apply orb_false_iff in H as [_ H].
  destruct line as [|c rest]; [discriminate |].
  apply negb_false_iff in H.
  assert (Hspace : Py.isspace c = false).
  { destruct ord_digit_bounds as [H0 H9]. rewrite H0, H9 in H.
    unfold Py.isspace, Py.in_range.
    apply andb_true_iff in H as [Hlo Hhi].
    apply Z.leb_le in Hlo, Hhi.
    repeat (apply orb_false_iff; split);
      first [ apply andb_false_iff; first [left; apply Z.leb_gt; lia | right; apply Z.leb_gt; lia]
            | apply Z.eqb_neq; lia ]. }
  unfold Py.split. cbn [Py.split_from]. rewrite Hspace.
  destruct (split_from_started rest (Py.snoc EmptyString c) (snoc_not_empty _ _))
    as (t & ts & ->).
  exists t. reflexivity.
Qed.

(* ===================================================================== *)
(** ** The classifier's rejects and its fatal errors *)
(* ===================================================================== *)

(** C8. A line of text shorter than 7 characters, or whose first
    character is not an ASCII digit, gives no event and raises nothing:
    [parse] returns [None], [one_line] adds the skip message with the
    line to the log and leaves every statistic as it was, and the loop
    over the file goes on with the next line. A line of a compressed
    file is a [bytes] object, and there the same holds only below 7
    bytes: from 7 bytes on, whatever the first byte is, the comparison
    of ['0'] with [line[0]] raises [TypeError], which [one_line] and
    [bulk_lines] let through. The line that opens a log is skipped in a
    plain file and ends the run in a compressed one. *)
Theorem undated_line_is_skipped_as_text_but_fatal_as_bytes :
  (forall (entropy : nat) (self : Main.t) (line : string),
     (String.length line < 7)%nat
     \/ (exists c rest, line = String c rest /\ Py.isdigit c = false) ->
     ChatMessage.parse line = Ret None
     /\ exists self',
          Main.one_line entropy self line = Ret self'
          /\ Main.stderr self' = (Main.stderr self ++ [SkippedLine line])%list
          /\ same_statistics self' self
          /\ forall raw rest,
               Py.strip raw = line ->
               Main.feed self ((entropy, raw) :: rest) = Main.feed self' rest)
  /\ (forall (self : Main.t) (raw : Bytes.t) (rest : list Bytes.t),
        (7 <= List.length (Bytes.strip raw))%nat ->
        MainIO.parse_bytes (Bytes.strip raw) = Raise TypeError
        /\ MainIO.one_line_bytes self (Bytes.strip raw) = Raise TypeError
        /\ MainIO.feed_bytes self (raw :: rest) = Raise TypeError)
  /\ (exists st,
        Main.bulk_lines (Main.init "osu")
          [[(0%nat, "--- Log opened Tue Nov 03 10:00:00 2026")]] = Ret st
        /\ Main.stderr st
           = [SkippedLine "--- Log opened Tue Nov 03 10:00:00 2026"; ParsedLogs 1]
        /\ Main.user_messages st = Counter.empty)
  /\ MainIO.bulk_lines (Main.init "osu")
       [MainIO.Gz [list_byte_of_string "--- Log opened Tue Nov 03 10:00:00 2026"]]
     = Raise TypeError.
Proof.
  split; [|split; [|split]].
  - intros entropy self line H.
    assert (Hrej : ChatMessage.rejects line = true).
    { destruct H as [H | (c & rest & -> & H)].
      - apply rejects_short, H.
      - apply rejects_not_digit, H. }
    assert (Hone : Main.one_line entropy self line
                   = Ret (Main.debug self (SkippedLine line))).
    { unfold Main.one_line. rewrite (parse_rejected _ Hrej). reflexivity. }
    split; [apply parse_rejected, Hrej |].
    exists (Main.debug self (SkippedLine line)).
    split; [exact Hone |]. split; [reflexivity |]. split; [reflexivity |].
    intros raw rest Hraw. simpl. rewrite Hraw, Hone. reflexivity.
  - intros self raw rest Hlen.
    assert (Hparse : MainIO.parse_bytes (Bytes.strip raw) = Raise TypeError).
    { unfold MainIO.parse_bytes.
      destruct (Nat.ltb_spec (List.length (Bytes.strip raw)) 7); [lia | reflexivity]. }
    assert (Hone : MainIO.one_line_bytes self (Bytes.strip raw) = Raise TypeError).
    { unfold MainIO.one_line_bytes. rewrite Hparse. reflexivity. }
    split; [exact Hparse |]. split; [exact Hone |].
    cbn [MainIO.feed_bytes]. rewrite Hone. reflexivity.
  - eexists. split; [vm_compute; reflexivity |]. split; reflexivity.
  - vm_compute. reflexivity.
Qed.

Lemma undated_line_is_skipped_as_text_but_fatal_as_bytes_witness :
  ((String.length "12:00" < 7)%nat
   \/ (exists c rest, "12:00" = String c rest /\ Py.isdigit c = false))
  /\ exists self',
       Main.one_line 0 (Main.init "osu") "12:00" = Ret self'
       /\ Main.stderr self' = [SkippedLine "12:00"].
Proof.
  assert (H : (String.length "12:00" < 7)%nat
              \/ (exists c rest, "12:00" = String c rest /\ Py.isdigit c = false)).
  { left. simpl. lia. }
  split; [exact H |].
  destruct (proj1 undated_line_is_skipped_as_text_but_fatal_as_bytes
              0%nat (Main.init "osu") "12:00" H)
    as (_ & self' & Hone & Hlog & _).
  exists self'. split; [exact Hone | exact Hlog].
Defined.

Lemma feed_app (self : Main.t) (l1 l2 : list (nat * string)) :
  Main.feed self (l1 ++ l2)%list
  = bind (Main.feed self l1) (fun self' => Main.feed self' l2).
Proof.
  revert self. induction l1 as [|[entropy line] l1 IH]; intros self; simpl.
  - reflexivity.
  - destruct (Main.one_line entropy self (Py.strip line)) as [self'|e]; simpl.
    + apply IH.
    + reflexivity.
Qed.

Lemma feed_files_app (self : Main.t) (f1 f2 : list (list (nat * string))) :
  Main.feed_files self (f1 ++ f2)%list
  = bind (Main.feed_files self f1) (fun self' => Main.feed_files self' f2).
Proof.
  revert self. induction f1 as [|f f1 IH]; intros self; simpl.
  - reflexivity.
  - destruct (Main.feed self f) as [self'|e]; simpl.
    + apply IH.
    + reflexivity.
Qed.

(** An exception raised by [one_line] on some line of some file ends
    [bulk_lines] with that exception, whatever follows the line. *)
Lemma raise_aborts_run (self st0 st : Main.t) (entropy : nat) (raw : string)
    (files_before files_after : list (list (nat * string)))
    (before after : list (nat * string)) (e : exn) :
  Main.feed_files self files_before = Ret st0 ->
  Main.feed st0 before = Ret st ->
  Main.one_line entropy st (Py.strip raw) = Raise e ->
  Main.bulk_lines self
    (files_before ++ (before ++ (entropy, raw) :: after) :: files_after)%list
  = Raise e.
Proof.
  intros Hfiles Hbefore Hline.
  unfold Main.bulk_lines. rewrite feed_files_app, Hfiles. simpl.
  rewrite feed_app, Hbefore. simpl. rewrite Hline. reflexivity.
Qed.

(** C4. On a line that passes the length and leading-digit test and whose
    first token parses as a time, a second token starting with a character
    other than [*], [<] and [-] makes [parse] raise the
    unknown-discriminator [RuntimeError]; [one_line] lets it through, and
    [bulk_lines] ends with it instead of going on to the next line. *)
Theorem unknown_discriminator_is_fatal
    (entropy : nat) (self : Main.t) (line t0 t1' : string) (tm : Py.time)
    (c : ascii) :
  ChatMessage.rejects line = false ->
  nth_error (Py.split line) 0 = Some t0 ->
  ChatMessage.parse_time t0 = Ret tm ->
  nth_error (Py.split line) 1 = Some (String c t1') ->
  c <> "*"%char -> c <> "<"%char -> c <> "-"%char ->
  ChatMessage.parse line = Raise (RuntimeError line c (String c t1'))
  /\ Main.one_line entropy self line = Raise (RuntimeError line c (String c t1'))
  /\ forall start st0 files_before files_after before after raw,
       Py.strip raw = line ->
       Main.feed_files start files_before = Ret st0 ->
       Main.feed st0 before = Ret self ->
       Main.bulk_lines start
         (files_before ++ (before ++ (entropy, raw) :: after) :: files_after)%list
       = Raise (RuntimeError line c (String c t1')).
Proof.
  intros Hrej H0 Htime H1 Hstar Hlt Hdash.
  assert (Hparse : ChatMessage.parse line = Raise (RuntimeError line c (String c t1'))).
  { unfold ChatMessage.parse, Py.getitem. rewrite Hrej, H0, H1.
    cbn [bind]. rewrite Htime.
    cbn [bind Py.str_getitem String.get].
    apply Ascii.eqb_neq in Hstar, Hlt, Hdash.
    rewrite Hstar, Hlt, Hdash. reflexivity. }
  assert (Hone : Main.one_line entropy self line
                 = Raise (RuntimeError line c (String c t1'))).
  { unfold Main.one_line. rewrite Hparse. reflexivity. }
  split; [exact Hparse |]. split; [exact Hone |].
  intros start st0 files_before files_after before after raw Hraw Hfiles Hbefore.
  apply (raise_aborts_run start st0 self); auto.
  rewrite Hraw. exact Hone.
Qed.

Lemma unknown_discriminator_is_fatal_witness :
  Main.one_line 0 (Main.init "osu") "16:45:29 >> nick joined"
  = Raise (RuntimeError "16:45:29 >> nick joined" ">" ">>").
Proof.
  refine (proj1 (proj2 (unknown_discriminator_is_fatal 0 (Main.init "osu")
            "16:45:29 >> nick joined" "16:45:29" ">"
            (Py.mk_time 16 45 29 0) ">" _ _ _ _ _ _ _)));
    first [ reflexivity | discriminate ].
Defined.









(* ===================================================================== *)
(** ** The reservoir sampler *)
(* ===================================================================== *)

Section Sampler.

Import ReservoirSampler.

Lemma sampler_wf_init : sampler_wf init.
Proof. intros k. simpl. rewrite lookup_empty. simpl. lia. Qed.

Lemma randint_from_one (entropy : nat) (n : Z) :
  1 <= n -> exists r, Py.randint entropy 1 n = Ret r /\ 1 <= r <= n.
Proof.
  intros Hn. unfold Py.randint.
  destruct (n <? 1) eqn:Hlt; [lia |].
  eexists. split; [reflexivity |].
  pose proof (Z.mod_pos_bound (Z.of_nat entropy) (n - 1 + 1)). lia.
Qed.

(** One call: it returns, keeps the counts non-negative, leaves the other
    keys alone, and holds for [k] either the new value or the one held
    before. *)
Lemma consider_spec (entropy : nat) (s : t) (k v : string) :
  sampler_wf s ->
  exists s',
    consider entropy s k v = Ret s'
    /\ sampler_wf s'
    /\ (forall k', k' <> k -> get s' k' = get s k')
    /\ (get s k = None -> get s' k = Some v)
    /\ (get s' k = Some v \/ (get s' k = get s k /\ get s k <> None))
    /\ default 0 (_counter s' !! k) = default 0 (_counter s !! k) + 1
    /\ (forall k', k' <> k -> _counter s' !! k' = _counter s !! k').
Proof.
  intros Hwf.
  assert (Hwf' : forall st, sampler_wf
            {| _storage := st;
               _counter := <[k := default 0 (_counter s !! k) + 1]> (_counter s) |}).
  { intros st k'. simpl. destruct (decide (k = k')) as [<-|Hne].
    - rewrite lookup_insert_eq. simpl. specialize (Hwf k). lia.
    - rewrite lookup_insert_ne by exact Hne. apply Hwf. }
  unfold consider, get.
  destruct (_storage s !! k) as [held|] eqn:Hheld.
  - rewrite lookup_insert_eq. cbn [default].
    change (id (default 0 (_counter s !! k) + 1))
      with (default 0 (_counter s !! k) + 1).
    destruct (randint_from_one entropy (default 0 (_counter s !! k) + 1))
      as (r & -> & _); [specialize (Hwf k); lia |].
    cbn [bind].
    destruct (r =? 1); eexists; (split; [reflexivity |]); simpl;
      (split; [apply Hwf' |]).
    + split; [intros k' Hne; apply lookup_insert_ne; congruence |].
      split; [discriminate |].
      split; [left; apply lookup_insert_eq |].
      split; [rewrite lookup_insert_eq; reflexivity |].
      intros k' Hne. apply lookup_insert_ne. congruence.
    + split; [reflexivity |].
      split; [discriminate |].
      split; [right; split; [exact Hheld | discriminate] |].
      split; [rewrite lookup_insert_eq; reflexivity |].
      intros k' Hne. apply lookup_insert_ne. congruence.
  - eexists. split; [reflexivity |]. simpl.
    split; [apply Hwf' |].
    split; [intros k' Hne; apply lookup_insert_ne; congruence |].
    split; [intros _; apply lookup_insert_eq |].
    split; [left; apply lookup_insert_eq |].
    split; [rewrite lookup_insert_eq; reflexivity |].
    intros k' Hne. apply lookup_insert_ne. congruence.
Qed.

Lemma consider_all_spec (calls : list (nat * string * string)) (k : string) :
  forall s, sampler_wf s ->
  exists s',
    consider_all s calls = Ret s'
    /\ sampler_wf s'
    /\ (observed k calls = [] -> get s' k = get s k)
    /\ (observed k calls <> [] ->
        exists v, get s' k = Some v /\ (In v (observed k calls) \/ get s k = Some v))
    /\ (get s k = None -> forall v, observed k calls = [v] -> get s' k = Some v).
Proof.
  induction calls as [|[[entropy k'] v'] calls IH]; intros s Hwf.
  - exists s. simpl. repeat split; try done.
  - destruct (consider_spec entropy s k' v' Hwf)
      as (s1 & Hcall & Hwf1 & Hother & Hfresh & Hheld & _).
    destruct (IH s1 Hwf1) as (s' & Hrest & Hwf' & Hnone & Hsome & Hone).
    exists s'. cbn [consider_all observed]. rewrite Hcall. cbn [bind].
    split; [exact Hrest |]. split; [exact Hwf' |].
    destruct (String.eqb_spec k' k) as [->|Hne].
    + split; [discriminate |].
      split.
      * intros _. destruct (observed k calls) as [|w ws] eqn:Hobs.
        -- rewrite (Hnone eq_refl).
           destruct Hheld as [Hnew | [Hsame Hwas]].
           ++ exists v'. split; [exact Hnew | left; left; reflexivity].
           ++ destruct (get s k) as [old|] eqn:Hold; [|congruence].
              exists old. split; [exact Hsame | right; reflexivity].
        -- destruct Hsome as (v & Hv & [Hin | Hprev]); [discriminate | |].
           ++ exists v. split; [exact Hv | left; right; exact Hin].
           ++ destruct Hheld as [Hnew | [Hsame Hwas]].
              ** exists v. split; [exact Hv |]. left; left. congruence.
              ** exists v. split; [exact Hv |]. right. congruence.
      * intros Hempty v Hv. injection Hv as -> Hobs.
        rewrite (Hnone Hobs). apply Hfresh, Hempty.
    + rewrite <- (Hother k) by congruence.
      split; [exact Hnone |]. split; [exact Hsome | exact Hone].
Qed.

(** C6. Starting from a new sampler and after any sequence of [consider]
    calls, on any keys and with any random draws: the calls all return;
    [get(k)] is none when [k] was never passed; it is [v] when [k] was
    passed exactly once, with [v]; and when [k] was passed at least once
    it is one of the values passed with [k]. *)
Theorem sampler_holds_an_observed_value
    (calls : list (nat * string * string)) (k : string) :
  exists s,
    consider_all init calls = Ret s
    /\ (observed k calls = [] -> get s k = None)
    /\ (forall v, observed k calls = [v] -> get s k = Some v)
    /\ (observed k calls <> [] ->
        exists v, In v (observed k calls) /\ get s k = Some v).
Proof.
  destruct (consider_all_spec calls k init sampler_wf_init)
    as (s & Hrun & _ & Hnone & Hsome & Hone).
  assert (Hinit : get init k = None) by apply lookup_empty.
  exists s. split; [exact Hrun |].
  split; [intros H; rewrite (Hnone H); exact Hinit |].
  split; [exact (Hone Hinit) |].
  intros H. destruct (Hsome H) as (v & Hv & [Hin | Hprev]).
  - exists v. split; assumption.
  - rewrite Hinit in Hprev. discriminate.
Qed.

End Sampler.

Lemma sampler_holds_an_observed_value_witness :
  exists s,
    consider_all ReservoirSampler.init
      [(0%nat, "a", "one"); (5%nat, "b", "x"); (1%nat, "a", "two"); (2%nat, "a", "three")]
    = Ret s
    /\ ReservoirSampler.get s "c" = None
    /\ ReservoirSampler.get s "b" = Some "x"
    /\ exists v, In v ["one"; "two"; "three"] /\ ReservoirSampler.get s "a" = Some v.
Proof.
  pose (calls := [(0%nat, "a", "one"); (5%nat, "b", "x");
                  (1%nat, "a", "two"); (2%nat, "a", "three")]).
  destruct (sampler_holds_an_observed_value calls "a") as (s & Hrun & _ & _ & Ha).
  destruct (sampler_holds_an_observed_value calls "b") as (sb & Hrunb & _ & Hb & _).
  destruct (sampler_holds_an_observed_value calls "c") as (sc & Hrunc & Hc & _ & _).
  assert (sb = s) as -> by congruence.
  assert (sc = s) as -> by congruence.
  exists s. split; [exact Hrun |].
  split; [apply Hc; reflexivity |].
  split; [apply Hb; reflexivity |].
  apply Ha. discriminate.
Defined.

(* ===================================================================== *)
(** ** Counters *)
(* ===================================================================== *)

Lemma counter_get_set_eq (c : Counter.t) (k : string) (v : Z) :
  Counter.get (Counter.set c k v) k = v.
Proof.
  induction c as [|[k' n] c IH]; simpl.
  - rewrite String.eqb_refl. reflexivity.
  - destruct (String.eqb k k') eqn:E; simpl; rewrite E; [reflexivity | exact IH].
Qed.

Lemma counter_get_set_ne (c : Counter.t) (k k' : string) (v : Z) :
  k' <> k -> Counter.get (Counter.set c k v) k' = Counter.get c k'.
Proof.
  intros Hne. induction c as [|[k0 n] c IH]; simpl.
  - apply String.eqb_neq in Hne. rewrite Hne. reflexivity.
  - destruct (String.eqb_spec k k0) as [->|Hk]; simpl.
    + apply String.eqb_neq in Hne. rewrite Hne. reflexivity.
    + rewrite IH. reflexivity.
Qed.

Lemma counter_get_incr_eq (c : Counter.t) (k : string) :
  Counter.get (Counter.incr c k) k = Counter.get c k + 1.
Proof. apply counter_get_set_eq. Qed.

Lemma counter_get_incr_ne (c : Counter.t) (k k' : string) :
  k' <> k -> Counter.get (Counter.incr c k) k' = Counter.get c k'.
Proof. apply counter_get_set_ne. Qed.

Lemma counter_set_positive (c : Counter.t) (k : string) (v : Z) :
  0 < v ->
  Forall (fun kv => 0 < snd kv) c ->
  Forall (fun kv => 0 < snd kv) (Counter.set c k v).
Proof.
  intros Hv H. induction H as [|[k' n] c Hn Hc IH]; simpl.
  - repeat constructor. exact Hv.
  - destruct (String.eqb k k'); constructor; simpl; auto.
Qed.

Lemma counter_get_nonneg (c : Counter.t) (k : string) :
  Forall (fun kv => 0 < snd kv) c -> 0 <= Counter.get c k.
Proof.
  intros H. induction H as [|[k' n] c Hn _ IH]; simpl in *.
  - lia.
  - destruct (String.eqb k k'); lia.
Qed.

Lemma counter_in_positive (c : Counter.t) (k : string) (n : Z) :
  Forall (fun kv => 0 < snd kv) c -> In (k, n) c -> 0 < Counter.get c k.
Proof.
  intros H. induction H as [|[k' n'] c Hn Hc IH]; simpl in *; intros Hin.
  - contradiction.
  - destruct (String.eqb_spec k k') as [->|Hne]; [exact Hn |].
    destruct Hin as [Heq | Hin]; [congruence | auto].
Qed.

Lemma insert_desc_in (x y : string * Z) (l : list (string * Z)) :
  In y (Counter.insert_desc x l) -> y = x \/ In y l.
Proof.
  induction l as [|z l IH]; simpl.
  - intros [<- | []]. left. reflexivity.
  - destruct (snd x <? snd z); simpl.
    + intros [<- | H]; [right; left; reflexivity |].
      destruct (IH H) as [-> | Hin]; [left; reflexivity | right; right; exact Hin].
    + intros [<- | [<- | H]]; auto.
Qed.

Lemma most_common_in (c : Counter.t) (y : string * Z) :
  In y (Counter.most_common c) -> In y c.
Proof.
  unfold Counter.most_common. induction c as [|x c IH]; simpl.
  - auto.
  - intros H. destruct (insert_desc_in _ _ _ H) as [-> | Hin]; auto.
Qed.

Lemma slice_in {A : Type} (i j : nat) (l : list A) (y : A) :
  In y (Py.slice i j l) -> In y l.
Proof.
  unfold Py.slice. intros H.
  rewrite <- (firstn_skipn i l). apply in_or_app. right.
  rewrite <- (firstn_skipn (j - i) (skipn i l)). apply in_or_app. left. exact H.
Qed.

(* ===================================================================== *)
(** ** What one line does to the statistics *)
(* ===================================================================== *)

(** C7. A mode-change event adds one to its author's mode-change counter
    and to nothing else: the author's count is one more than before, the
    count of every other author is what it was, and the histogram, the
    message, question, exclamation and action counters, the URL counter,
    the last-used-by map and the sampler are those of the state before;
    nothing is printed. *)
Theorem mode_change_touches_only_its_counter
    (entropy : nat) (self : Main.t) (line : string) (m : ChatMessage.t) :
  ChatMessage.parse line = Ret (Some m) ->
  ChatMessage.line_type m = MODE_CHANGE ->
  exists self',
    Main.one_line entropy self line = Ret self'
    /\ Counter.get (Main.user_givemodes self') (ChatMessage.username m)
       = Counter.get (Main.user_givemodes self) (ChatMessage.username m) + 1
    /\ (forall u,
          u <> ChatMessage.username m ->
          Counter.get (Main.user_givemodes self') u
          = Counter.get (Main.user_givemodes self) u)
    /\ Main.user_givemodes self'
       = Counter.incr (Main.user_givemodes self) (ChatMessage.username m)
    /\ Main.activity_graph self' = Main.activity_graph self
    /\ Main.user_messages self' = Main.user_messages self
    /\ Main.user_question self' = Main.user_question self
    /\ Main.user_exclamation self' = Main.user_exclamation self
    /\ Main.user_actions self' = Main.user_actions self
    /\ Main.url_count self' = Main.url_count self
    /\ Main.last_url_usage self' = Main.last_url_usage self
    /\ Main._cache_user_messages self' = Main._cache_user_messages self
    /\ Main.stderr self' = Main.stderr self
    /\ Main.channel_name self' = Main.channel_name self.
Proof.
  intros Hparse Htype. unfold Main.one_line. rewrite Hparse. simpl.
  rewrite Htype. eexists. split; [reflexivity |].
  cbn [Main.user_givemodes].
  split; [apply counter_get_incr_eq |].
  split; [intros u Hu; apply counter_get_incr_ne, Hu |].
  simpl. repeat split.
Qed.

Lemma mode_change_touches_only_its_counter_witness :
  exists self self',
    Main.feed (Main.init "osu")
      [(0%nat, "16:40:00 -!- mode/#russian [+o terho] by BanchoBot");
       (1%nat, "16:41:00 -!- mode/#russian [+v amy] by BanchoBot");
       (2%nat, "16:42:00 < bob> hi")]
    = Ret self
    /\ Main.one_line 3 self "16:45:29 -!- mode/#russian [-o terho] by BanchoBot"
       = Ret self'
    /\ Main.user_givemodes self = [("terho", 1); ("amy", 1)]
    /\ Main.user_givemodes self' = [("terho", 2); ("amy", 1)]
    /\ Counter.get (Main.user_givemodes self') "terho" = 2
    /\ Counter.get (Main.user_givemodes self') "amy" = 1
    /\ Main.user_messages self' = [("bob", 1)]
    /\ Main.activity_graph self' = Main.activity_graph self.
Proof.
  pose (lines := [(0%nat, "16:40:00 -!- mode/#russian [+o terho] by BanchoBot");
                  (1%nat, "16:41:00 -!- mode/#russian [+v amy] by BanchoBot");
                  (2%nat, "16:42:00 < bob> hi")]).
  destruct (Main.feed (Main.init "osu") lines) as [self|e] eqn:Hfeed;
    [|vm_compute in Hfeed; discriminate Hfeed].
  destruct (mode_change_touches_only_its_counter 3 self
              "16:45:29 -!- mode/#russian [-o terho] by BanchoBot"
              (ChatMessage.mk (Py.mk_time 16 45 29 0) "terho" EmptyString MODE_CHANGE)
              eq_refl eq_refl)
    as (self' & Hone & Hget & Hother & Hmodes & Hgraph & Hmessages & _).
  cbn [ChatMessage.username] in Hget, Hother, Hmodes.
  assert (Hself : self = match Main.feed (Main.init "osu") lines with
                         | Ret s => s | Raise _ => self end)
    by (rewrite Hfeed; reflexivity).
  exists self, self'. split; [exact Hfeed |]. split; [exact Hone |].
  split; [rewrite Hself; vm_compute; reflexivity |].
  split; [rewrite Hmodes, Hself; vm_compute; reflexivity |].
  split; [rewrite Hget, Hself; vm_compute; reflexivity |].
  split; [rewrite Hother by discriminate; rewrite Hself; vm_compute; reflexivity |].
  split; [rewrite Hmessages, Hself; vm_compute; reflexivity | exact Hgraph].
Defined.

Lemma one_line_cases (entropy : nat) (st st' : Main.t) (line : string) :
  Main.one_line entropy st line = Ret st' ->
  (ChatMessage.parse line = Ret None /\ st' = Main.debug st (SkippedLine line))
  \/ (exists m,
        ChatMessage.parse line = Ret (Some m)
        /\ ChatMessage.line_type m = MODE_CHANGE
        /\ Main.user_messages st' = Main.user_messages st
        /\ Main._cache_user_messages st' = Main._cache_user_messages st
        /\ Main.activity_graph st' = Main.activity_graph st)
  \/ (exists m graph' cache',
        ChatMessage.parse line = Ret (Some m)
        /\ ChatMessage.line_type m <> MODE_CHANGE
        /\ Main.list_incr (Main.activity_graph st)
             (Z.to_nat (Py.hour (ChatMessage.time m))) = Ret graph'
        /\ ReservoirSampler.consider entropy (Main._cache_user_messages st)
             (ChatMessage.username m) (ChatMessage.text m) = Ret cache'
        /\ Main.user_messages st'
           = Counter.incr (Main.user_messages st) (ChatMessage.username m)
        /\ Main._cache_user_messages st' = cache'
        /\ Main.activity_graph st' = graph').
Proof.
  unfold Main.one_line. cbv zeta.
  destruct (ChatMessage.parse line) as [[m|]|e]; cbn [bind]; [| |discriminate].
  - destruct (ChatMessage.line_type m) eqn:Htype.
    1, 2:
      destruct (Main.list_incr (Main.activity_graph st)
                  (Z.to_nat (Py.hour (ChatMessage.time m)))) as [graph'|e] eqn:Hincr;
        cbn [bind]; [|discriminate];
      destruct (ReservoirSampler.consider entropy (Main._cache_user_messages st)
                  (ChatMessage.username m) (ChatMessage.text m)) as [cache'|e] eqn:Hcons;
        cbn [bind]; [|discriminate];
      intros H; injection H as <-;
      right; right; exists m, graph', cache'; rewrite Htype;
      repeat split; first [assumption | discriminate].
    intros H. injection H as <-.
    right; left. exists m. repeat split. exact Htype.
  - intros H. injection H as <-. left. split; reflexivity.
Qed.

Lemma list_incr_spec (graph graph' : list Z) (i : nat) :
  Main.list_incr graph i = Ret graph' ->
  exists old, graph !! i = Some old /\ graph' = <[i := old + 1]> graph.
Proof.
  unfold Main.list_incr, Py.getitem.
  destruct (nth_error graph i) as [old|] eqn:Hold; cbn [bind]; [|discriminate].
  intros H. injection H as <-. exists old. split; [|reflexivity].
  rewrite <- Hold. clear. revert i.
  induction graph as [|x graph IH]; intros [|i]; simpl; auto.
Qed.

Lemma stats_inv_init (channel : string) : stats_inv (Main.init channel).
Proof.
  constructor; simpl.
  - apply sampler_wf_init.
  - intros u. rewrite lookup_empty. reflexivity.
  - intros u H. lia.
  - constructor.
  - reflexivity.
  - repeat constructor; lia.
Qed.

Lemma stats_inv_debug (st : Main.t) (e : log_entry) :
  stats_inv st -> stats_inv (Main.debug st e).
Proof. intros [H1 H2 H3 H4 H5 H6]. constructor; assumption. Qed.

Lemma stats_inv_one_line (entropy : nat) (st st' : Main.t) (line : string) :
  stats_inv st -> Main.one_line entropy st line = Ret st' -> stats_inv st'.
Proof.
  intros Hinv Hone.
  destruct (one_line_cases _ _ _ _ Hone)
    as [[_ ->] | [(m & _ & _ & Hmsg & Hcache & Hgraph)
                 | (m & graph' & cache' & _ & _ & Hincr & Hcons & Hmsg & Hcache & Hgraph)]].
  - apply stats_inv_debug, Hinv.
  - destruct Hinv as [H1 H2 H3 H4 H5 H6].
    constructor; rewrite ?Hmsg, ?Hcache, ?Hgraph; assumption.
  - destruct Hinv as [H1 H2 H3 H4 H5 H6].
    destruct (consider_spec entropy _ (ChatMessage.username m) (ChatMessage.text m) H1)
      as (s' & Hs' & Hwf' & Hother & Hfresh & Hheld & Hcount & Hcount').
    rewrite Hcons in Hs'. injection Hs' as <-.
    destruct (list_incr_spec _ _ _ Hincr) as (old & Hold & ->).
    constructor; rewrite ?Hmsg, ?Hcache, ?Hgraph.
    + exact Hwf'.
    + intros u. destruct (decide (u = ChatMessage.username m)) as [->|Hne].
      * rewrite Hcount, counter_get_incr_eq, H2. reflexivity.
      * rewrite (Hcount' u Hne), (counter_get_incr_ne _ _ _ Hne). apply H2.
    + intros u. destruct (decide (u = ChatMessage.username m)) as [->|Hne].
      * intros _. destruct Hheld as [Hnew | [Hsame Hwas]].
        -- eexists. exact Hnew.
        -- rewrite Hsame.
           destruct (ReservoirSampler.get (Main._cache_user_messages st)
                       (ChatMessage.username m)) as [q|]; [eauto | congruence].
      * rewrite (counter_get_incr_ne _ _ _ Hne), (Hother u Hne). apply H3.
    + apply counter_set_positive; [|exact H4].
      pose proof (counter_get_nonneg _ (ChatMessage.username m) H4). lia.
    + rewrite length_insert. exact H5.
    + apply Forall_insert; [exact H6 |].
      rewrite Forall_forall in H6.
      assert (Hin : old ∈ Main.activity_graph st).
      { apply list_elem_of_lookup. eauto. }
      specialize (H6 old Hin). lia.
Qed.

Lemma reachable_inv (channel : string) (st : Main.t) :
  reachable channel st -> stats_inv st.
Proof.
  induction 1 as [| entropy st st' line _ IH Hone | st e _ IH].
  - apply stats_inv_init.
  - eapply stats_inv_one_line; eassumption.
  - apply stats_inv_debug, IH.
Qed.

Lemma feed_reachable (channel : string) (lines : list (nat * string)) :
  forall st st',
    reachable channel st -> Main.feed st lines = Ret st' -> reachable channel st'.
Proof.
  induction lines as [|[entropy raw] lines IH]; intros st st' Hst; simpl.
  - intros H. injection H as <-. exact Hst.
  - destruct (Main.one_line entropy st (Py.strip raw)) as [st1|e] eqn:Hone;
      cbn [bind]; [|discriminate].
    apply IH. eapply reach_line; eassumption.
Qed.

Lemma feed_files_reachable (channel : string) (files : list (list (nat * string))) :
  forall st st',
    reachable channel st -> Main.feed_files st files = Ret st' -> reachable channel st'.
Proof.
  induction files as [|f files IH]; intros st st' Hst; simpl.
  - intros H. injection H as <-. exact Hst.
  - destruct (Main.feed st f) as [st1|e] eqn:Hfeed; cbn [bind]; [|discriminate].
    apply IH. eapply feed_reachable; eassumption.
Qed.

Lemma bulk_lines_reachable (channel : string) (files : list (list (nat * string)))
    (st : Main.t) :
  Main.bulk_lines (Main.init channel) files = Ret st -> reachable channel st.
Proof.
  unfold Main.bulk_lines.
  destruct (Main.feed_files (Main.init channel) files) as [st1|e] eqn:Hfeed;
    cbn [bind]; [|discriminate].
  intros H. injection H as <-.
  apply reach_debug. eapply feed_files_reachable; [apply reach_init | exact Hfeed].
Qed.

(* ===================================================================== *)
(** ** Every ranked author has a quote *)
(* ===================================================================== *)

Lemma most_active_loop_spec (api_uid : string -> option Z) (top : list (string * Z)) :
  forall (self : Main.t) (acc : list User.t),
    (forall u n, In (u, n) top ->
       exists q, ReservoirSampler.get (Main._cache_user_messages self) u = Some q) ->
    exists users,
      Main.most_active_loop api_uid self top acc
      = Ret (debug_all self (map (fun x => FetchingProfile (fst x)) top),
             (acc ++ users)%list)
      /\ map (fun user => (User.username user, User.message_count user)) users = top.
Proof.
  induction top as [|[username message_count] top IH]; intros self acc Hquotes.
  - exists []. simpl. rewrite app_nil_r. split; reflexivity.
  - destruct (Hquotes username message_count (or_introl eq_refl)) as (q & Hq).
    cbn [Main.most_active_loop].
    change (Main._cache_user_messages (Main.debug self (FetchingProfile username)))
      with (Main._cache_user_messages self).
    rewrite Hq.
    destruct (IH (Main.debug self (FetchingProfile username))
                 (acc ++ [{| User.user_id := api_uid username;
                             User.username := username;
                             User.message_count := message_count;
                             User.random_quote := Py.html_escape q |}])%list)
      as (users & Hloop & Hmap).
    { intros u n Hin. apply (Hquotes u n). right. exact Hin. }
    eexists (_ :: users). rewrite Hloop. split.
    + simpl. rewrite <- app_assoc. reflexivity.
    + simpl. rewrite Hmap. reflexivity.
Qed.

Lemma top25_has_quotes (st : Main.t) :
  stats_inv st ->
  forall u n, In (u, n) (top25 st) ->
    exists q, ReservoirSampler.get (Main._cache_user_messages st) u = Some q.
Proof.
  intros Hinv u n Hin.
  apply (inv_quote st Hinv).
  apply (counter_in_positive _ u n (inv_positive st Hinv)).
  apply most_common_in. eapply slice_in. exact Hin.
Qed.

(** C10. In every state of a run, an author whose message counter is
    positive has been passed to the sampler as many times as the counter
    says, so at least once, and the sampler holds a quote for that author.
    Hence the loop of [save_page] over the top 25 finds a quote for each of
    them and returns: [html.escape] is never given a missing value. *)
Theorem ranked_authors_have_a_quote
    (channel : string) (st : Main.t) (api_uid : string -> option Z) :
  reachable channel st ->
  (forall u,
     0 < Counter.get (Main.user_messages st) u ->
     default 0 (ReservoirSampler._counter (Main._cache_user_messages st) !! u)
     = Counter.get (Main.user_messages st) u
     /\ exists q, ReservoirSampler.get (Main._cache_user_messages st) u = Some q)
  /\ (forall u n,
        In (u, n) (top25 st) ->
        0 < Counter.get (Main.user_messages st) u
        /\ exists q, ReservoirSampler.get (Main._cache_user_messages st) u = Some q)
  /\ exists st' most_active,
       Main.most_active_loop api_uid st (top25 st) [] = Ret (st', most_active)
       /\ map (fun user => (User.username user, User.message_count user)) most_active
          = top25 st.
Proof.
  intros Hreach. pose proof (reachable_inv _ _ Hreach) as Hinv.
  split; [|split].
  - intros u Hu. split; [apply (inv_observations st Hinv) | apply (inv_quote st Hinv), Hu].
  - intros u n Hin. split; [|eapply top25_has_quotes; eassumption].
    apply (counter_in_positive _ u n (inv_positive st Hinv)).
    apply most_common_in. eapply slice_in. exact Hin.
  - destruct (most_active_loop_spec api_uid (top25 st) st [] (top25_has_quotes st Hinv))
      as (users & Hloop & Hmap).
    eexists _, users. split; [exact Hloop | exact Hmap].
Qed.

Lemma ranked_authors_have_a_quote_witness :
  exists st,
    Main.bulk_lines (Main.init "osu")
      [[(0%nat, "10:15:00 * nick1 waves"); (3%nat, "10:16:00 < nick1> again")]]
    = Ret st
    /\ exists q, ReservoirSampler.get (Main._cache_user_messages st) "nick1" = Some q.
Proof.
  destruct (Main.bulk_lines (Main.init "osu")
              [[(0%nat, "10:15:00 * nick1 waves"); (3%nat, "10:16:00 < nick1> again")]])
    as [st|e] eqn:Hrun; [|vm_compute in Hrun; discriminate Hrun].
  exists st. split; [reflexivity |].
  destruct (ranked_authors_have_a_quote "osu" st (fun _ => None)
              (bulk_lines_reachable _ _ _ Hrun)) as (Hcounted & _).
  apply Hcounted.
  vm_compute in Hrun. injection Hrun as <-. reflexivity.
Defined.

(* ===================================================================== *)
(** ** The hourly histogram *)
(* ===================================================================== *)

Lemma check_time_args_hour (h m s us : Z) (tm : Py.time) :
  Py.check_time_args h m s us = Ret tm -> 0 <= Py.hour tm <= 23.
Proof.
  unfold Py.check_time_args.
  destruct ((0 <=? h) && (h <=? 23)) eqn:Hh; cbn [negb]; [|discriminate].
  destruct (negb ((0 <=? m) && (m <=? 59))); [discriminate |].
  destruct (negb ((0 <=? s) && (s <=? 59))); [discriminate |].
  destruct (negb ((0 <=? us) && (us <=? 999999))); [discriminate |].
  intros H. injection H as <-. simpl. lia.
Qed.

Lemma datetime_time_hour (args : list Z) (tm : Py.time) :
  Py.datetime_time args = Ret tm -> 0 <= Py.hour tm <= 23.
Proof.
  destruct args as [|h [|m [|s [|us [|tz [|x rest]]]]]]; cbn [Py.datetime_time];
    unfold Py.c_int;
    repeat match goal with
      | |- context [if ?b then Ret ?v else Raise ?e] =>
          destruct b; cbn [bind]; [|discriminate]
      end;
    try discriminate;
    try apply check_time_args_hour.
  destruct (Py.check_time_args h m s us); discriminate.
Qed.

Lemma parse_hour (line : string) (m : ChatMessage.t) :
  ChatMessage.parse line = Ret (Some m) -> 0 <= Py.hour (ChatMessage.time m) <= 23.
Proof.
  unfold ChatMessage.parse.
  destruct (ChatMessage.rejects line); [discriminate |].
  destruct (Py.getitem (Py.split line) 0) as [t0|e]; cbn [bind]; [|discriminate].
  unfold ChatMessage.parse_time at 1.
  destruct (mapM Py.int (Py.split_on ":" t0)) as [args|e]; cbn [bind]; [|discriminate].
  destruct (Py.datetime_time args) as [tm|e] eqn:Htm; cbn [bind]; [|discriminate].
  apply datetime_time_hour in Htm.
  destruct (Py.getitem (Py.split line) 1) as [t1|e]; cbn [bind]; [|discriminate].
  destruct (Py.str_getitem t1 0) as [d|e]; cbn [bind]; [|discriminate].
  destruct (Ascii.eqb d "*");
    [destruct (Py.getitem (Py.split line) 2); cbn [bind]; [|discriminate];
     intros H; injection H as <-; exact Htm |].
  destruct (Ascii.eqb d "<");
    [destruct (Py.getitem (Py.split line) 2); cbn [bind]; [|discriminate];
     intros H; injection H as <-; exact Htm |].
  destruct (Ascii.eqb d "-");
    [destruct (Py.getitem (Py.split line) 4); cbn [bind]; [|discriminate];
     intros H; injection H as <-; exact Htm |].
  discriminate.
Qed.

Lemma fold_left_add_acc (g : list Z) (a : Z) :
  fold_left Z.add g a = a + fold_left Z.add g 0.
Proof.
  revert a. induction g as [|x g IH]; intros a; simpl.
  - lia.
  - rewrite (IH (a + x)), (IH (0 + x)). lia.
Qed.

Lemma graph_sum_cons (x : Z) (g : list Z) : graph_sum (x :: g) = x + graph_sum g.
Proof. unfold graph_sum. simpl. apply fold_left_add_acc. Qed.

Lemma graph_sum_insert (g : list Z) (i : nat) (old : Z) :
  g !! i = Some old -> graph_sum (<[i := old + 1]> g) = graph_sum g + 1.
Proof.
  revert i. induction g as [|x g IH]; intros [|i]; simpl; try discriminate.
  - intros H. injection H as ->. rewrite !graph_sum_cons. lia.
  - intros H. rewrite !graph_sum_cons, (IH i H). lia.
Qed.

Lemma graph_sum_nonneg (g : list Z) : Forall (fun n => 0 <= n) g -> 0 <= graph_sum g.
Proof.
  induction 1 as [|x g Hx _ IH]; [unfold graph_sum; simpl; lia |].
  rewrite graph_sum_cons. lia.
Qed.

(** One line adds one to the bucket of its counted hour, if it has one. *)
Lemma one_line_histogram (entropy : nat) (st st' : Main.t) (raw : string) :
  Main.one_line entropy st (Py.strip raw) = Ret st' ->
  (forall (i : nat) (n : Z),
     Main.activity_graph st !! i = Some n ->
     Main.activity_graph st' !! i = Some (n + events_at (Z.of_nat i) [(entropy, raw)]))
  /\ graph_sum (Main.activity_graph st') <= graph_sum (Main.activity_graph st) + 1.
Proof.
  intros Hone. unfold events_at, counted_hour.
  destruct (one_line_cases _ _ _ _ Hone)
    as [[-> ->] | [(m & -> & -> & _ & _ & ->)
                 | (m & graph' & cache' & Hparse & Htype & Hincr & _ & _ & _ & ->)]].
  - split; [|simpl; lia]. intros i n Hn. simpl. rewrite Hn. f_equal; lia.
  - split; [|lia]. intros i n Hn. rewrite Hn. f_equal; lia.
  - rewrite Hparse.
    pose proof (parse_hour _ _ Hparse) as Hhour.
    destruct (list_incr_spec _ _ _ Hincr) as (old & Hold & ->).
    split; [|rewrite (graph_sum_insert _ _ _ Hold); lia].
    intros i n Hn.
    assert (Hcounted :
      match ChatMessage.line_type m with
      | MODE_CHANGE => None
      | _ => Some (Py.hour (ChatMessage.time m))
      end = Some (Py.hour (ChatMessage.time m))).
    { destruct (ChatMessage.line_type m); congruence. }
    rewrite Hcounted.
    destruct (decide (Z.to_nat (Py.hour (ChatMessage.time m)) = i)) as [<-|Hne].
    + rewrite list_lookup_insert_eq by (eapply lookup_lt_Some; exact Hold).
      rewrite Z2Nat.id by lia. rewrite Z.eqb_refl.
      rewrite Hold in Hn. injection Hn as <-. f_equal; lia.
    + rewrite list_lookup_insert_ne by exact Hne.
      destruct (Z.eqb_spec (Py.hour (ChatMessage.time m)) (Z.of_nat i)) as [Heq|_].
      * exfalso. apply Hne. rewrite Heq. apply Nat2Z.id.
      * rewrite Hn. f_equal; lia.
Qed.

Lemma events_at_app (h : Z) (l1 l2 : list (nat * string)) :
  events_at h (l1 ++ l2)%list = events_at h l1 + events_at h l2.
Proof.
  induction l1 as [|[entropy raw] l1 IH]; simpl; [reflexivity |].
  rewrite IH. lia.
Qed.

Lemma feed_histogram (lines : list (nat * string)) :
  forall st st',
    Main.feed st lines = Ret st' ->
    (forall (i : nat) (n : Z),
       Main.activity_graph st !! i = Some n ->
       Main.activity_graph st' !! i = Some (n + events_at (Z.of_nat i) lines))
    /\ graph_sum (Main.activity_graph st')
       <= graph_sum (Main.activity_graph st) + Z.of_nat (List.length lines).
Proof.
  induction lines as [|[entropy raw] lines IH]; intros st st'.
  - simpl. intros H. injection H as <-. split; [|lia].
    intros i n Hn. rewrite Hn. f_equal; lia.
  - cbn [Main.feed].
    destruct (Main.one_line entropy st (Py.strip raw)) as [st1|e] eqn:Hone;
      cbn [bind]; [|discriminate].
    intros Hfeed.
    destruct (one_line_histogram _ _ _ _ Hone) as [Hone_at Hone_sum].
    destruct (IH _ _ Hfeed) as [Hrest_at Hrest_sum].
    split.
    + intros i n Hn.
      rewrite (Hrest_at i _ (Hone_at i n Hn)).
      change ((entropy, raw) :: lines) with ([(entropy, raw)] ++ lines)%list.
      rewrite events_at_app. f_equal; lia.
    + cbn [List.length]. lia.
Qed.

Lemma feed_files_histogram (files : list (list (nat * string))) :
  forall st st',
    Main.feed_files st files = Ret st' ->
    (forall (i : nat) (n : Z),
       Main.activity_graph st !! i = Some n ->
       Main.activity_graph st' !! i = Some (n + events_at (Z.of_nat i) (concat files)))
    /\ graph_sum (Main.activity_graph st')
       <= graph_sum (Main.activity_graph st) + Z.of_nat (List.length (concat files)).
Proof.
  induction files as [|f files IH]; intros st st'.
  - simpl. intros H. injection H as <-. split; [|lia].
    intros i n Hn. rewrite Hn. f_equal; lia.
  - cbn [Main.feed_files concat].
    destruct (Main.feed st f) as [st1|e] eqn:Hfeed; cbn [bind]; [|discriminate].
    intros Hfiles.
    destruct (feed_histogram _ _ _ Hfeed) as [Hf_at Hf_sum].
    destruct (IH _ _ Hfiles) as [Hrest_at Hrest_sum].
    split.
    + intros i n Hn.
      rewrite (Hrest_at i _ (Hf_at i n Hn)), events_at_app. f_equal; lia.
    + rewrite length_app. lia.
Qed.

Lemma debug_all_graph (entries : list log_entry) (self : Main.t) :
  Main.activity_graph (debug_all self entries) = Main.activity_graph self.
Proof.
  unfold debug_all. revert self.
  induction entries as [|e entries IH]; intros self; simpl; [reflexivity |].
  rewrite IH. reflexivity.
Qed.

(** The loop of integer casts writes back what it reads. *)
Lemma cast_loop_id (range : list nat) (graph : list Z) :
  Forall (fun i => (i < List.length graph)%nat) range ->
  Main.cast_loop range graph = Ret graph.
Proof.
  induction 1 as [|i range Hi _ IH]; cbn [Main.cast_loop]; [reflexivity |].
  destruct (lookup_lt_is_Some_2 graph i Hi) as [x Hx].
  unfold Py.getitem.
  assert (Hnth : nth_error graph i = Some x).
  { rewrite <- Hx. clear. revert i.
    induction graph as [|y graph IHg]; intros [|i]; simpl; auto. }
  rewrite Hnth. cbn [bind]. unfold Main.int_of_int.
  rewrite (list_insert_id graph i x Hx). exact IH.
Qed.

Lemma graph_percentage_spec (divisor : Q) (graph : list Z) :
  List.length graph = 24%nat ->
  0 <= graph_sum graph < Main.float_overflow_bound ->
  Qeq_bool divisor (0 # 1) = false ->
  Main.graph_percentage divisor graph
  = Ret (Qdiv (inject_Z (graph_sum graph)) divisor, graph).
Proof.
  intros Hlen Hsum Hdiv. unfold Main.graph_percentage, Main.truediv_float.
  fold (graph_sum graph).
  destruct (Z.leb_spec Main.float_overflow_bound (Z.abs (graph_sum graph))) as [Hbig|_];
    [lia |].
  rewrite Hdiv. cbn [bind].
  rewrite cast_loop_id; [reflexivity |].
  rewrite Hlen. apply Forall_forall. intros i Hi.
  apply list_elem_of_In, in_seq in Hi. lia.
Qed.

Lemma init_histogram (channel : string) (i : nat) :
  (i < 24)%nat -> Main.activity_graph (Main.init channel) !! i = Some 0.
Proof.
  intros Hi. simpl.
  do 24 (destruct i as [|i]; [reflexivity |]). lia.
Qed.

Lemma bulk_lines_inv (start st : Main.t) (files : list (list (nat * string))) :
  Main.bulk_lines start files = Ret st ->
  exists st0,
    Main.feed_files start files = Ret st0
    /\ st = Main.debug st0 (ParsedLogs (List.length files)).
Proof.
  unfold Main.bulk_lines.
  destruct (Main.feed_files start files) as [st0|e]; cbn [bind]; [|discriminate].
  intros H. injection H as <-. eauto.
Qed.

(** C3. After a run over fewer lines than the first integer that no
    longer converts to a float, [save_page] returns, and the histogram it
    gives to the template and to [json.dump] is the histogram of the state:
    24 integers, the one at index [i] being the number of lines counted
    under the hour [i] during the run. The percentage block returns the
    sum divided by 240 next to an unchanged list of buckets, and the
    quotient reaches no output: any other non-zero divisor gives the same
    state and the same two outputs. *)
Theorem histogram_is_reported_raw
    (channel : string) (files : list (list (nat * string))) (st : Main.t)
    (api_uid : string -> option Z) :
  Main.bulk_lines (Main.init channel) files = Ret st ->
  Z.of_nat (List.length (concat files)) < Main.float_overflow_bound ->
  exists st' rendered json,
    Main.save_page api_uid st = Ret (st', rendered, json)
    /\ Rendered.activity_graph rendered = Main.activity_graph st
    /\ Json.activity_graph json = Main.activity_graph st
    /\ Main.activity_graph st' = Main.activity_graph st
    /\ List.length (Main.activity_graph st) = 24%nat
    /\ (forall i : nat,
          (i < 24)%nat ->
          Main.activity_graph st !! i = Some (events_at (Z.of_nat i) (concat files)))
    /\ Main.graph_percentage (240 # 1) (Main.activity_graph st)
       = Ret (Qdiv (inject_Z (graph_sum (Main.activity_graph st))) (240 # 1),
              Main.activity_graph st)
    /\ forall divisor,
         Qeq_bool divisor (0 # 1) = false ->
         Main.save_page_div divisor api_uid st = Main.save_page api_uid st.
Proof.
  intros Hrun Hsize.
  pose proof (reachable_inv _ _ (bulk_lines_reachable _ _ _ Hrun)) as Hinv.
  destruct (bulk_lines_inv _ _ _ Hrun) as (st0 & Hfiles & Hst).
  destruct (feed_files_histogram _ _ _ Hfiles) as [Hat Hsum].
  assert (Hgraph : Main.activity_graph st = Main.activity_graph st0)
    by (rewrite Hst; reflexivity).
  assert (Hbound : 0 <= graph_sum (Main.activity_graph st) < Main.float_overflow_bound).
  { split; [apply graph_sum_nonneg, (inv_counts st Hinv) |].
    rewrite Hgraph.
    change (graph_sum (Main.activity_graph (Main.init channel))) with 0 in Hsum.
    lia. }
  destruct (most_active_loop_spec api_uid (top25 st) st [] (top25_has_quotes st Hinv))
    as (users & Hloop & _).
  assert (Hpage : forall divisor,
    Qeq_bool divisor (0 # 1) = false ->
    exists st' rendered json,
      Main.save_page_div divisor api_uid st = Ret (st', rendered, json)
      /\ Main.save_page api_uid st = Ret (st', rendered, json)
      /\ Rendered.activity_graph rendered = Main.activity_graph st
      /\ Json.activity_graph json = Main.activity_graph st
      /\ Main.activity_graph st' = Main.activity_graph st).
  { intros divisor Hdiv.
    unfold Main.save_page, Main.save_page_div. cbv zeta.
    fold (top25 st). rewrite Hloop. cbn [bind fst snd].
    rewrite debug_all_graph.
    rewrite (graph_percentage_spec divisor _ (inv_buckets st Hinv) Hbound Hdiv).
    rewrite (graph_percentage_spec (240 # 1) _ (inv_buckets st Hinv) Hbound eq_refl).
    cbn [bind fst snd].
    eexists _, _, _. split; [reflexivity |]. split; [reflexivity |].
    repeat split. }
  destruct (Hpage (240 # 1) eq_refl) as (st' & rendered & json & _ & Hsave & Hr & Hj & Hs).
  exists st', rendered, json.
  split; [exact Hsave |]. split; [exact Hr |]. split; [exact Hj |]. split; [exact Hs |].
  split; [apply (inv_buckets st Hinv) |].
  split.
  { intros i Hi. rewrite Hgraph.
    rewrite (Hat i 0 (init_histogram channel i Hi)). f_equal. }
  split.
  { apply graph_percentage_spec; [apply (inv_buckets st Hinv) | exact Hbound | reflexivity]. }
  intros divisor Hdiv.
  destruct (Hpage divisor Hdiv) as (st2 & r2 & j2 & Hdiv_page & Hsave2 & _).
  rewrite Hdiv_page, Hsave2. reflexivity.
Qed.

(* ===================================================================== *)
(** ** Strings *)
(* ===================================================================== *)

Lemma string_app_cons (c : ascii) (a b : string) :
  String c a ++ b = String c (a ++ b).
Proof. reflexivity. Qed.

Lemma string_app_nil_l (s : string) : EmptyString ++ s = s.
Proof. reflexivity. Qed.

Lemma string_app_nil_r (s : string) : s ++ EmptyString = s.
Proof.
  induction s as [|c s IH]; [reflexivity |].
  rewrite string_app_cons, IH. reflexivity.
Qed.

Lemma string_app_assoc (a b c : string) : (a ++ b) ++ c = a ++ (b ++ c).
Proof.
  induction a as [|x a IH]; [reflexivity |].
  rewrite !string_app_cons, IH. reflexivity.
Qed.

Lemma string_length_app (a b : string) :
  String.length (a ++ b) = (String.length a + String.length b)%nat.
Proof.
  induction a as [|x a IH]; [reflexivity |].
  rewrite string_app_cons. simpl. rewrite IH. reflexivity.
Qed.

Lemma string_drop_app (u rest : string) :
  Re.string_drop (String.length u) (u ++ rest) = rest.
Proof.
  induction u as [|c u IH]; [destruct rest; reflexivity |].
  rewrite string_app_cons. exact IH.
Qed.

Lemma substring_app (u rest : string) :
  substring 0 (String.length u) (u ++ rest) = u.
Proof.
  induction u as [|c u IH].
  - destruct rest; reflexivity.
  - rewrite string_app_cons. simpl. rewrite IH. reflexivity.
Qed.

Lemma startswith_app (p s : string) :
  Py.startswith p s = true -> s = p ++ Re.string_drop (String.length p) s.
Proof.
  revert s. induction p as [|a p IH]; intros s; simpl.
  - reflexivity.
  - destruct s as [|b s]; [discriminate |].
    intros H. apply andb_true_iff in H as [Hab Hps].
    apply Ascii.eqb_eq in Hab. subst b.
    rewrite string_app_cons. f_equal. apply IH, Hps.
Qed.

(* ===================================================================== *)
(** ** The matcher and [findall] *)
(* ===================================================================== *)

Lemma in_flat_map_inv {A B : Type} (f : A -> list B) (l : list A) (y : B) :
  In y (flat_map f l) -> exists x, In x l /\ In y (f x).
Proof. intros H. apply in_flat_map in H. exact H. Qed.

Lemma plus_loop_suffix (step : string -> list string) :
  (forall s s', In s' (step s) -> exists u, s = u ++ s') ->
  forall fuel s s', In s' (Re.plus_loop step fuel s) -> exists u, s = u ++ s'.
Proof.
  intros Hstep. induction fuel as [|fuel IH]; intros s s'; simpl; [contradiction |].
  intros H. apply in_flat_map_inv in H as (s1 & Hs1 & Hin).
  destruct (Hstep _ _ Hs1) as (u1 & ->).
  destruct (String.length s1 <? String.length (u1 ++ s1))%nat.
  - apply in_app_or in Hin as [Hin | [<- | []]].
    + destruct (IH _ _ Hin) as (u2 & ->).
      exists (u1 ++ u2). apply eq_sym, string_app_assoc.
    + exists u1. reflexivity.
  - destruct Hin as [<- | []]. exists u1. reflexivity.
Qed.

(** Whatever is left after a match is a suffix of the text. *)
Lemma matches_suffix (r : Re.regex) :
  forall s s', In s' (Re.matches r s) -> exists u, s = u ++ s'.
Proof.
  induction r as [p | spec | r1 IH1 r2 IH2 | r1 IH1 r2 IH2 | r IH | r IH | r IH];
    intros s s'; cbn [Re.matches].
  - destruct (Py.startswith p s) eqn:Hp; [|contradiction].
    intros [<- | []]. exists p. apply startswith_app, Hp.
  - destruct s as [|c s]; [contradiction |].
    destruct (Re.class_matches (Re.class_items spec) c); [|contradiction].
    intros [<- | []]. exists (String c EmptyString). reflexivity.
  - intros H. apply in_flat_map_inv in H as (s1 & Hs1 & Hin).
    destruct (IH1 _ _ Hs1) as (u1 & ->). destruct (IH2 _ _ Hin) as (u2 & ->).
    exists (u1 ++ u2). apply eq_sym, string_app_assoc.
  - intros H. apply in_app_or in H as [H | H]; [apply IH1, H | apply IH2, H].
  - intros H. apply in_app_or in H as [H | [<- | []]]; [apply IH, H |].
    exists EmptyString. reflexivity.
  - apply plus_loop_suffix, IH.
  - apply IH.
Qed.

Lemma match_at_split (r : Re.regex) (s u rest : string) :
  Re.match_at r s = Some (u, rest) -> s = u ++ rest.
Proof.
  unfold Re.match_at.
  destruct (Re.matches r s) as [|s' l] eqn:Hm; [discriminate |].
  destruct (matches_suffix r s s') as (u' & ->); [rewrite Hm; left; reflexivity |].
  rewrite string_length_app, Nat.add_sub, substring_app.
  intros H. injection H as <- <-. reflexivity.
Qed.

Lemma no_match_in_nil (r : Re.regex) (tail : string) : no_match_in r EmptyString tail.
Proof. intros [|x g1] c g2 H; discriminate H. Qed.

Lemma no_match_in_cons (r : Re.regex) (c : ascii) (gap tail : string) :
  Re.match_at r (String c gap ++ tail) = None ->
  no_match_in r gap tail ->
  no_match_in r (String c gap) tail.
Proof.
  intros Hhere Hgap [|x g1] c' g2 H; simpl in H; injection H as -> ->.
  - exact Hhere.
  - eapply Hgap. reflexivity.
Qed.

Lemma found_in_order_skip (r : Re.regex) (c : ascii) (us : list string) (s : string) :
  Re.match_at r (String c s) = None ->
  found_in_order r us s ->
  found_in_order r us (String c s).
Proof.
  intros Hhere Hfound. destruct Hfound as [s Hnone | gap u rest us Hgap Hmatch Hrest].
  - constructor. apply no_match_in_cons; [|exact Hnone].
    rewrite string_app_nil_r. exact Hhere.
  - change (String c (gap ++ u ++ rest)) with (String c gap ++ u ++ rest).
    constructor; [|exact Hmatch | exact Hrest].
    apply no_match_in_cons; [exact Hhere | exact Hgap].
Qed.

Lemma findall_skip_found (r : Re.regex) :
  nonempty_matches r ->
  forall s skip, found_in_order r (Re.findall_skip r skip s) (Re.string_drop skip s).
Proof.
  intros Hnonempty. induction s as [|c s IH]; intros skip.
  - destruct skip; simpl; constructor; apply no_match_in_nil.
  - destruct skip as [|skip]; cbn [Re.findall_skip Re.string_drop]; [|apply IH].
    destruct (Re.match_at r (String c s)) as [[u rest]|] eqn:Hmatch.
    + pose proof (match_at_split _ _ _ _ Hmatch) as Hsplit.
      destruct u as [|c' u]; [exfalso; exact (Hnonempty _ _ Hmatch) |].
      rewrite string_app_cons in Hsplit. injection Hsplit as <- ->.
      specialize (IH (String.length u)). rewrite string_drop_app in IH.
      replace (String.length (String c u) - 1)%nat with (String.length u)
        by (simpl; lia).
      change (String c (u ++ rest)) with (EmptyString ++ String c u ++ rest).
      constructor; [apply no_match_in_nil | exact Hmatch | exact IH].
    + apply found_in_order_skip; [exact Hmatch |]. apply (IH 0%nat).
Qed.

(** A match of a pattern [(p r)] starts with the literal [p] and consumes it. *)
Lemma matches_literal_prefix (p : string) (r : Re.regex) (s s' : string) :
  In s' (Re.matches (Re.Group (Re.Seq (Re.Lit p) r)) s) ->
  Py.startswith p s = true /\ exists u, s = p ++ u ++ s'.
Proof.
  cbn [Re.matches].
  destruct (Py.startswith p s) eqn:Hp; [|contradiction].
  cbn [flat_map]. rewrite app_nil_r. intros Hin.
  split; [reflexivity |].
  apply matches_suffix in Hin as (u & Hu).
  exists u. rewrite <- Hu. apply startswith_app, Hp.
Qed.

Lemma url_match_consumes_http (s s' : string) :
  In s' (Re.matches URLS_PATTERN s) ->
  Py.startswith "http" s = true /\ exists u, s = "http" ++ u ++ s'.
Proof. apply matches_literal_prefix. Qed.

Lemma url_needs_http (s : string) :
  Py.startswith "http" s = false -> Re.match_at URLS_PATTERN s = None.
Proof.
  intros H. unfold Re.match_at.
  destruct (Re.matches URLS_PATTERN s) as [|s' l] eqn:Hm; [reflexivity |].
  destruct (url_match_consumes_http s s') as [Hhttp _]; [rewrite Hm; left; reflexivity |].
  congruence.
Qed.

Lemma url_matches_nonempty : nonempty_matches URLS_PATTERN.
Proof.
  intros s rest Hmatch.
  pose proof (match_at_split _ _ _ _ Hmatch) as Hsplit.
  rewrite string_app_nil_l in Hsplit. subst rest.
  unfold Re.match_at in Hmatch.
  destruct (Re.matches URLS_PATTERN s) as [|s' l] eqn:Hm; [discriminate |].
  injection Hmatch as _ ->.
  destruct (url_match_consumes_http s s) as (_ & u & Hu); [rewrite Hm; left; reflexivity |].
  apply (f_equal String.length) in Hu.
  rewrite !string_length_app in Hu. simpl in Hu. lia.
Qed.

Lemma atom_matches_char (c : ascii) (s : string) :
  url_char c = true -> exists l, Re.matches url_atom (String c s) = s :: l.
Proof.
  unfold url_char, url_atom. cbn [Re.matches]. intros H.
  destruct (Re.class_matches (Re.class_items "a-zA-Z") c); [eexists; reflexivity |].
  destruct (Re.class_matches (Re.class_items "0-9") c); [eexists; reflexivity |].
  destruct (Re.class_matches (Re.class_items "$-_@.&+") c); [eexists; reflexivity |].
  destruct (Re.class_matches (Re.class_items "!*\(\),") c); [eexists; reflexivity |].
  discriminate.
Qed.

Lemma atom_rejects_char (c : ascii) (s : string) :
  url_char c = false -> Re.matches url_atom (String c s) = [].
Proof.
  unfold url_char, url_atom. cbn [Re.matches]. intros H.
  destruct (Ascii.eqb_spec "%" c) as [<-|Hne]; [vm_compute in H; discriminate H |].
  apply orb_false_iff in H as [H H4]. apply orb_false_iff in H as [H H3].
  apply orb_false_iff in H as [H1 H2].
  rewrite H1, H2, H3, H4.
  cbn [Py.startswith]. apply Ascii.eqb_neq in Hne. rewrite Hne. reflexivity.
Qed.

Lemma take_while_lstrip (p : ascii -> bool) (s : string) :
  take_while p s ++ Py.lstrip_by p s = s.
Proof.
  induction s as [|c s IH]; [reflexivity |].
  cbn [take_while Py.lstrip_by]. destruct (p c); [|reflexivity].
  rewrite string_app_cons, IH. reflexivity.
Qed.

Lemma plus_loop_stops (fuel : nat) (s : string) :
  match s with
  | EmptyString => True
  | String c _ => url_char c = false
  end ->
  Re.plus_loop (Re.matches url_atom) fuel s = [].
Proof.
  intros Hs. destruct fuel as [|fuel]; [reflexivity |].
  cbn [Re.plus_loop]. destruct s as [|c s].
  - reflexivity.
  - rewrite (atom_rejects_char c s Hs). reflexivity.
Qed.

Lemma plus_loop_head (fuel : nat) :
  forall c s,
    (String.length s < fuel)%nat ->
    url_char c = true ->
    exists l,
      Re.plus_loop (Re.matches url_atom) fuel (String c s)
      = Py.lstrip_by url_char s :: l.
Proof.
  induction fuel as [|fuel IH]; intros c s Hfuel Hc; [lia |].
  cbn [Re.plus_loop].
  destruct (atom_matches_char c s Hc) as [l ->].
  cbn [flat_map].
  assert (Hlt : (String.length s <? String.length (String c s))%nat = true)
    by (apply Nat.ltb_lt; simpl; lia).
  rewrite Hlt.
  destruct s as [|c2 s2].
  - rewrite plus_loop_stops by exact I. eexists. reflexivity.
  - cbn [Py.lstrip_by]. destruct (url_char c2) eqn:Hc2.
    + destruct (IH c2 s2) as [l2 ->]; [simpl in Hfuel; lia | exact Hc2 |].
      eexists. reflexivity.
    + rewrite plus_loop_stops by exact Hc2. eexists. reflexivity.
Qed.

Lemma url_matches_http (c : ascii) (s : string) :
  url_char c = true ->
  exists l,
    Re.matches URLS_PATTERN ("http://" ++ String c s) = Py.lstrip_by url_char s :: l.
Proof.
  intros Hc. unfold URLS_PATTERN. cbn [Re.matches].
  change ("http://" ++ String c s)
    with (String "h" (String "t" (String "t" (String "p"
           (String ":" (String "/" (String "/" (String c s)))))))).
  cbn [Py.startswith Re.string_drop String.length flat_map Ascii.eqb Bool.eqb andb].
  change (Re.class_matches (Re.class_items "s") ":") with false.
  cbn [app flat_map Py.startswith Re.string_drop String.length Ascii.eqb Bool.eqb andb].
  destruct (plus_loop_head (S (S (String.length s))) c s) as [l ->];
    [simpl; lia | exact Hc |].
  rewrite !app_nil_r. eexists. reflexivity.
Qed.

Lemma url_matches_https (c : ascii) (s : string) :
  url_char c = true ->
  exists l,
    Re.matches URLS_PATTERN ("https://" ++ String c s) = Py.lstrip_by url_char s :: l.
Proof.
  intros Hc. unfold URLS_PATTERN. cbn [Re.matches].
  change ("https://" ++ String c s)
    with (String "h" (String "t" (String "t" (String "p" (String "s"
           (String ":" (String "/" (String "/" (String c s))))))))).
  cbn [Py.startswith Re.string_drop String.length flat_map Ascii.eqb Bool.eqb andb].
  change (Re.class_matches (Re.class_items "s") "s") with true.
  cbn [app flat_map Py.startswith Re.string_drop String.length Ascii.eqb Bool.eqb andb].
  destruct (plus_loop_head (S (S (String.length s))) c s) as [l ->];
    [simpl; lia | exact Hc |].
  eexists. reflexivity.
Qed.

(** The match of the pattern at a URL: the scheme, "://" and the longest
    run of URL characters that follows. *)
Lemma url_match_at (scheme : string) (c : ascii) (s : string) :
  scheme = "http" \/ scheme = "https" ->
  url_char c = true ->
  Re.match_at URLS_PATTERN (scheme ++ "://" ++ String c s)
  = Some (scheme ++ "://" ++ String c (take_while url_char s),
          Py.lstrip_by url_char s).
Proof.
  intros Hscheme Hc. unfold Re.match_at.
  assert (Hm : exists l,
    Re.matches URLS_PATTERN (scheme ++ "://" ++ String c s)
    = Py.lstrip_by url_char s :: l).
  { destruct Hscheme as [-> | ->];
      [apply url_matches_http, Hc | apply url_matches_https, Hc]. }
  destruct Hm as [l ->].
  assert (Heq : scheme ++ "://" ++ String c s
                = (scheme ++ "://" ++ String c (take_while url_char s))
                  ++ Py.lstrip_by url_char s).
  { rewrite !string_app_assoc, (string_app_cons c), take_while_lstrip. reflexivity. }
  rewrite Heq, string_length_app, Nat.add_sub, substring_app. reflexivity.
Qed.

Lemma findall_skip_all (r : Re.regex) (s : string) (skip : nat) :
  (String.length s <= skip)%nat -> Re.findall_skip r skip s = [].
Proof.
  revert skip. induction s as [|c s IH]; intros skip Hlen; [reflexivity |].
  destruct skip as [|skip]; [simpl in Hlen; lia |].
  cbn [Re.findall_skip]. apply IH. simpl in Hlen. lia.
Qed.

Lemma take_while_all (p : ascii -> bool) (s : string) :
  all_chars p s = true -> take_while p s = s /\ Py.lstrip_by p s = EmptyString.
Proof.
  induction s as [|c s IH]; [split; reflexivity |].
  cbn [all_chars take_while Py.lstrip_by]. intros H.
  apply andb_true_iff in H as [Hc Hs]. rewrite Hc.
  destruct (IH Hs) as [-> ->]. split; reflexivity.
Qed.

Lemma all_chars_app (p : ascii -> bool) (a b : string) :
  all_chars p (a ++ b) = all_chars p a && all_chars p b.
Proof.
  induction a as [|c a IH]; [reflexivity |].
  rewrite string_app_cons. cbn [all_chars]. rewrite IH. apply andb_assoc.
Qed.

(** A text that is a scheme, "://" and URL characters only is extracted
    whole. *)
Lemma findall_whole_url (scheme : string) (c : ascii) (s : string) :
  scheme = "http" \/ scheme = "https" ->
  url_char c = true ->
  all_chars url_char s = true ->
  Re.findall URLS_PATTERN (scheme ++ "://" ++ String c s)
  = [scheme ++ "://" ++ String c s].
Proof.
  intros Hscheme Hc Hs.
  pose proof (url_match_at scheme c s Hscheme Hc) as Hmatch.
  destruct (take_while_all _ _ Hs) as [Htake Hrest].
  rewrite Htake, Hrest in Hmatch.
  unfold Re.findall.
  destruct Hscheme as [-> | ->].
  - change ("http" ++ "://" ++ String c s) with (String "h" ("ttp" ++ "://" ++ String c s)) in *.
    cbn [Re.findall_skip]. rewrite Hmatch.
    rewrite findall_skip_all; [reflexivity |]. simpl. lia.
  - change ("https" ++ "://" ++ String c s) with (String "h" ("ttps" ++ "://" ++ String c s)) in *.
    cbn [Re.findall_skip]. rewrite Hmatch.
    rewrite findall_skip_all; [reflexivity |]. simpl. lia.
Qed.

Lemma findall_without_http (s : string) :
  Py.contains "http" s = false ->
  forall skip, Re.findall_skip URLS_PATTERN skip s = [].
Proof.
  induction s as [|c s IH]; intros Hnone skip; [reflexivity |].
  cbn [Py.contains] in Hnone. apply orb_false_iff in Hnone as [Hhere Hrest].
  cbn [Re.findall_skip]. destruct skip as [|skip]; [|apply IH, Hrest].
  rewrite (url_needs_http _ Hhere). apply IH, Hrest.
Qed.

Lemma count_urls_counts (u : string) (urls : list string) :
  forall (counts : Counter.t) (last : gmap string string) (url : string),
    Counter.get (fst (Main.count_urls u urls (counts, last))) url
    = Counter.get counts url + Z.of_nat (count_occ string_dec urls url).
Proof.
  induction urls as [|x urls IH]; intros counts last url.
  - simpl. lia.
  - unfold Main.count_urls in *. cbn [fold_left fst snd].
    rewrite IH. destruct (string_dec x url) as [->|Hne].
    + rewrite counter_get_incr_eq, count_occ_cons_eq by reflexivity. lia.
    + rewrite counter_get_incr_ne, count_occ_cons_neq by congruence. lia.
Qed.

(* ===================================================================== *)
(** ** The URL extractor *)
(* ===================================================================== *)

(** C5. On the body "see http://a.b/c?x=1 and https://d.e" the extractor
    returns the two URLs in that order; on a body that does not contain
    "http" it returns nothing. What it returns is read off the text alone:
    the matches of the pattern from left to right, one after the other,
    none skipped, the match at a scheme followed by "://" and a URL
    character being the longest run of URL characters after it. A URL that
    occurs twice is returned twice, and the aggregator adds one to the
    URL's counter for each occurrence. *)
Theorem url_extractor_is_lexical :
  (forall m,
     ChatMessage.text m = "see http://a.b/c?x=1 and https://d.e" ->
     ChatMessage.parse_urls m = ["http://a.b/c?x=1"; "https://d.e"])
  /\ (forall m,
        Py.contains "http" (ChatMessage.text m) = false ->
        ChatMessage.parse_urls m = [])
  /\ (forall m,
        found_in_order URLS_PATTERN (ChatMessage.parse_urls m) (ChatMessage.text m))
  /\ (forall scheme c s,
        scheme = "http" \/ scheme = "https" ->
        url_char c = true ->
        Re.match_at URLS_PATTERN (scheme ++ "://" ++ String c s)
        = Some (scheme ++ "://" ++ String c (take_while url_char s),
                Py.lstrip_by url_char s))
  /\ (forall m,
        ChatMessage.text m = "http://a.b and http://a.b" ->
        ChatMessage.parse_urls m = ["http://a.b"; "http://a.b"])
  /\ (forall u urls counts last url,
        Counter.get (fst (Main.count_urls u urls (counts, last))) url
        = Counter.get counts url + Z.of_nat (count_occ string_dec urls url)).
Proof.
  split; [|split; [|split; [|split; [|split]]]].
  - intros m Hm. unfold ChatMessage.parse_urls. rewrite Hm. vm_compute. reflexivity.
  - intros m Hm. apply findall_without_http, Hm.
  - intros m. apply (findall_skip_found URLS_PATTERN url_matches_nonempty _ 0%nat).
  - apply url_match_at.
  - intros m Hm. unfold ChatMessage.parse_urls. rewrite Hm. vm_compute. reflexivity.
  - intros. apply count_urls_counts.
Qed.

Lemma url_extractor_is_lexical_witness :
  ChatMessage.parse_urls
    (ChatMessage.mk (Py.mk_time 10 0 1 0) "nick" "see http://a.b/c?x=1 and https://d.e" REGULAR)
  = ["http://a.b/c?x=1"; "https://d.e"]
  /\ ChatMessage.parse_urls
       (ChatMessage.mk (Py.mk_time 10 0 1 0) "nick" "no links, only ftp://x.y" REGULAR)
     = [].
Proof.
  split.
  - apply (proj1 url_extractor_is_lexical). reflexivity.
  - apply (proj1 (proj2 url_extractor_is_lexical)). reflexivity.
Defined.

Lemma dollar_underscore_class (c : ascii) :
  Re.class_matches (Re.class_items "$-_@.&+") c = true <-> 36 <= Py.ord c <= 95.
Proof.
  change (Re.class_items "$-_@.&+")
    with [Re.CRange "$" "_"; Re.CChar "@"; Re.CChar "."; Re.CChar "&"; Re.CChar "+"].
  cbn [Re.class_matches existsb Re.item_matches].
  change (Py.ord "$") with 36. change (Py.ord "_") with 95.
  split.
  - intros H.
    repeat (apply orb_true_iff in H as [H | H]);
      try (apply Ascii.eqb_eq in H; subst c; vm_compute; split; discriminate).
    + lia.
    + discriminate.
  - intros H. apply orb_true_iff. left. lia.
Qed.

Lemma range_is_url_char (c : ascii) : 36 <= Py.ord c <= 95 -> url_char c = true.
Proof.
  intros H. apply dollar_underscore_class in H.
  unfold url_char. rewrite H. rewrite orb_true_r. reflexivity.
Qed.

(** The characters that a URL can continue with. *)
Lemma url_char_codes (c : ascii) :
  url_char c = true
  <-> Py.ord c = 33 \/ 36 <= Py.ord c <= 95 \/ 97 <= Py.ord c <= 122.
Proof.
  destruct c as [[] [] [] [] [] [] [] []]; vm_compute; split;
    first [ discriminate
          | intros _; reflexivity
          | intros _; left; reflexivity
          | intros _; right; left; split; discriminate
          | intros _; right; right; split; discriminate
          | intros [H | [[H1 H2] | [H1 H2]]];
            first [ discriminate H
                  | exfalso; apply H1; reflexivity
                  | exfalso; apply H2; reflexivity ] ].
Qed.

(** C9. The bracket expression [[$-_@.&+]] reads as the range from [$] to
    [_] followed by four single characters, and it matches exactly the
    characters with codes 0x24 to 0x5F. Any such character is extracted as
    part of a URL, wherever it stands after "http://" among other URL
    characters; among them are [/], [?], [=], [:], [;], the digits and the
    upper-case letters, none of which is one of the seven characters
    written between the brackets. *)
Theorem url_bracket_is_a_range :
  Re.class_items "$-_@.&+"
  = [Re.CRange "$" "_"; Re.CChar "@"; Re.CChar "."; Re.CChar "&"; Re.CChar "+"]
  /\ (forall c,
        Re.class_matches (Re.class_items "$-_@.&+") c = true <-> 36 <= Py.ord c <= 95)
  /\ (forall c before after m,
        36 <= Py.ord c <= 95 ->
        all_chars url_char before = true ->
        all_chars url_char after = true ->
        ChatMessage.text m = "http://" ++ before ++ String c after ->
        ChatMessage.parse_urls m = ["http://" ++ before ++ String c after])
  /\ Forall (fun c => 36 <= Py.ord c <= 95 /\ Py.mem c "$-_@.&+" = false)
       ["/"; "?"; "="; ":"; ";"; "0"; "9"; "A"; "Z"]%char.
Proof.
  split; [reflexivity |]. split; [exact dollar_underscore_class |]. split.
  - intros c before after m Hc Hbefore Hafter Hm.
    unfold ChatMessage.parse_urls. rewrite Hm. clear Hm.
    apply range_is_url_char in Hc.
    destruct before as [|c0 before].
    + rewrite string_app_nil_l.
      apply (findall_whole_url "http" c after); auto.
    + rewrite string_app_cons. cbn [all_chars] in Hbefore.
      apply andb_true_iff in Hbefore as [Hc0 Hbefore].
      apply (findall_whole_url "http" c0 (before ++ String c after)); auto.
      rewrite all_chars_app. cbn [all_chars]. rewrite Hbefore, Hc, Hafter. reflexivity.
  - repeat constructor; vm_compute; discriminate.
Qed.

(* ===================================================================== *)
(** ** The three-line scenario *)
(* ===================================================================== *)

(** C1, as the code runs it. The first line has its nick glued to the
    bracket, [<nick1>], so the second token is [<nick1>] and the third
    token, [hello?], is taken as the author, with [world!] as the body.
    After the three lines [nick1] therefore has one message, no question,
    no exclamation and one action; the author [hello?] has one message and
    one exclamation; [nick2] has one mode change; bucket 10 holds 2 and
    bucket 11 holds 0; the list of top URLs is empty. No random draw is
    made, so this holds for every entropy. *)
Theorem scenario_first_line_goes_to_third_token
    (e1 e2 e3 : nat) (api_uid : string -> option Z) :
  ChatMessage.parse "10:00:01 <nick1> hello? world!"
  = Ret (Some (ChatMessage.mk (Py.mk_time 10 0 1 0) "hello?" "world!" REGULAR))
  /\ exists st,
       Main.feed (Main.init "c")
         [(e1, "10:00:01 <nick1> hello? world!");
          (e2, "10:15:00 * nick1 waves");
          (e3, "11:00:00 -!- mode/#c [+o nick2] by Bot")]
       = Ret st
       /\ Main.user_messages st = [("hello?", 1); ("nick1", 1)]
       /\ Counter.get (Main.user_messages st) "nick1" = 1
       /\ Counter.get (Main.user_question st) "nick1" = 0
       /\ Counter.get (Main.user_exclamation st) "nick1" = 0
       /\ Counter.get (Main.user_exclamation st) "hello?" = 1
       /\ Counter.get (Main.user_actions st) "nick1" = 1
       /\ Counter.get (Main.user_givemodes st) "nick2" = 1
       /\ Main.activity_graph st !! 10%nat = Some 2
       /\ Main.activity_graph st !! 11%nat = Some 0
       /\ exists st' rendered json,
            Main.save_page api_uid st = Ret (st', rendered, json)
            /\ Rendered.urls_used rendered = []
            /\ Json.most_used_urls json = [].
Proof.
  split; [vm_compute; reflexivity |].
  eexists. split; [vm_compute; reflexivity |].
  repeat (split; [vm_compute; reflexivity |]).
  eexists _, _, _. split; [vm_compute; reflexivity |].
  split; reflexivity.
Qed.

(** The second line that the comment above the [<] branch gives for this
    format, with its text in ASCII: the nick is glued to the bracket, and
    the first word of the message is taken as the author. *)
Example documented_op_line_is_misread :
  ChatMessage.parse "16:39:11 <@Kobold84> Ukr."
  = Ret (Some (ChatMessage.mk (Py.mk_time 16 39 11 0) "Ukr." EmptyString REGULAR)).
Proof. vm_compute. reflexivity. Qed.

(** With the nick padded as in the log format [< nick>], the same scenario
    gives [nick1] two messages, one question, one exclamation and one
    action, whichever way the sampler's draw goes. *)
Example scenario_with_padded_nick :
  forall e2, (e2 = 0 \/ e2 = 1)%nat ->
  exists st,
    Main.feed (Main.init "c")
      [(0%nat, "10:00:01 < nick1> hello? world!");
       (e2, "10:15:00 * nick1 waves");
       (0%nat, "11:00:00 -!- mode/#c [+o nick2] by Bot")]
    = Ret st
    /\ Counter.get (Main.user_messages st) "nick1" = 2
    /\ Counter.get (Main.user_question st) "nick1" = 1
    /\ Counter.get (Main.user_exclamation st) "nick1" = 1
    /\ Counter.get (Main.user_actions st) "nick1" = 1
    /\ Counter.get (Main.user_givemodes st) "nick2" = 1
    /\ Main.activity_graph st !! 10%nat = Some 2
    /\ Main.activity_graph st !! 11%nat = Some 0.
Proof.
  intros e2 [-> | ->];
    (eexists; split; [vm_compute; reflexivity |]);
    repeat split; vm_compute; reflexivity.
Qed.

Lemma histogram_is_reported_raw_witness :
  exists st st' rendered json,
    Main.bulk_lines (Main.init "osu")
      [[(0%nat, "10:15:00 * nick1 waves"); (1%nat, "--- Log closed")];
       [(2%nat, "23:59:59 < nick2> bye http://a.b")]]
    = Ret st
    /\ Main.save_page (fun _ => None) st = Ret (st', rendered, json)
    /\ Json.activity_graph json = Main.activity_graph st
    /\ Main.activity_graph st !! 10%nat = Some 1
    /\ Main.activity_graph st !! 23%nat = Some 1.
Proof.
  pose (files := [[(0%nat, "10:15:00 * nick1 waves"); (1%nat, "--- Log closed")];
                  [(2%nat, "23:59:59 < nick2> bye http://a.b")]]).
  destruct (Main.bulk_lines (Main.init "osu") files) as [st|e] eqn:Hrun;
    [|vm_compute in Hrun; discriminate Hrun].
  assert (Hsize : Z.of_nat (List.length (concat files)) < Main.float_overflow_bound)
    by (vm_compute; reflexivity).
  destruct (histogram_is_reported_raw "osu" files st (fun _ => None) Hrun Hsize)
    as (st' & rendered & json & Hsave & _ & Hjson & _ & _ & Hat & _).
  exists st, st', rendered, json.
  split; [exact Hrun |]. split; [exact Hsave |]. split; [exact Hjson |].
  split; [rewrite (Hat 10%nat) by lia | rewrite (Hat 23%nat) by lia];
    vm_compute; reflexivity.
Defined.

Lemma url_bracket_is_a_range_witness :
  36 <= Py.ord "?" <= 95
  /\ ChatMessage.parse_urls
       (ChatMessage.mk (Py.mk_time 10 0 1 0) "nick" "http://a.b/c?x=1" REGULAR)
     = ["http://a.b/c?x=1"].
Proof.
  assert (H : 36 <= Py.ord "?" <= 95) by (vm_compute; split; discriminate).
  split; [exact H |].
  exact (proj1 (proj2 (proj2 url_bracket_is_a_range)) "?"%char "a.b/c" "x=1"
           (ChatMessage.mk (Py.mk_time 10 0 1 0) "nick" "http://a.b/c?x=1" REGULAR)
           H eq_refl eq_refl eq_refl).
Defined.

(* ===================================================================== *)
(** ** More on the classifier *)
(* ===================================================================== *)

(** What a parsed event comes from. *)
Lemma parse_some_inv (line : string) (m : ChatMessage.t) :
  ChatMessage.parse line = Ret (Some m) ->
  ChatMessage.rejects line = false
  /\ exists t0 c t1',
       nth_error (Py.split line) 0 = Some t0
       /\ ChatMessage.parse_time t0 = Ret (ChatMessage.time m)
       /\ nth_error (Py.split line) 1 = Some (String c t1')
       /\ ((c = "*"%char
            /\ ChatMessage.line_type m = ACTION
            /\ ChatMessage.text m = Py.join " " (skipn 3 (Py.split line))
            /\ exists t2, nth_error (Py.split line) 2 = Some t2
                          /\ ChatMessage.username m = t2)
           \/ (c = "<"%char
               /\ ChatMessage.line_type m = REGULAR
               /\ ChatMessage.text m = Py.join " " (skipn 3 (Py.split line))
               /\ exists t2, nth_error (Py.split line) 2 = Some t2
                             /\ ChatMessage.username m = Py.rstrip ">" t2)
           \/ (c = "-"%char
               /\ ChatMessage.line_type m = MODE_CHANGE
               /\ ChatMessage.text m = EmptyString
               /\ exists t4, nth_error (Py.split line) 4 = Some t4
                             /\ ChatMessage.username m = Py.rstrip "]" t4)).
Proof.
  unfold ChatMessage.parse, Py.getitem, Py.slice_from.
  destruct (ChatMessage.rejects line); [discriminate |].
  destruct (nth_error (Py.split line) 0) as [t0|] eqn:H0; cbn [bind]; [|discriminate].
  destruct (ChatMessage.parse_time t0) as [tm|e] eqn:Htime; cbn [bind]; [|discriminate].
  destruct (nth_error (Py.split line) 1) as [[|c t1']|] eqn:H1; cbn [bind];
    try discriminate.
  cbn [Py.str_getitem String.get bind].
  intros H. split; [reflexivity |]. exists t0, c, t1'.
  split; [reflexivity |].
  destruct (Ascii.eqb_spec c "*") as [->|_].
  { destruct (nth_error (Py.split line) 2) as [t2|] eqn:H2; cbn [bind] in H; [|discriminate].
    injection H as <-. split; [exact Htime |]. split; [reflexivity |].
    left. repeat (split; [reflexivity |]). eauto. }
  destruct (Ascii.eqb_spec c "<") as [->|_].
  { destruct (nth_error (Py.split line) 2) as [t2|] eqn:H2; cbn [bind] in H; [|discriminate].
    injection H as <-. split; [exact Htime |]. split; [reflexivity |].
    right; left. repeat (split; [reflexivity |]). eauto. }
  destruct (Ascii.eqb_spec c "-") as [->|_]; [|discriminate].
  destruct (nth_error (Py.split line) 4) as [t4|] eqn:H4; cbn [bind] in H; [|discriminate].
  injection H as <-. split; [exact Htime |]. split; [reflexivity |].
  right; right. repeat (split; [reflexivity |]). eauto.
Qed.

Lemma check_time_args_fields (h m s us : Z) (tm : Py.time) :
  Py.check_time_args h m s us = Ret tm ->
  tm = Py.mk_time h m s us
  /\ 0 <= h <= 23 /\ 0 <= m <= 59 /\ 0 <= s <= 59 /\ 0 <= us <= 999999.
Proof.
  unfold Py.check_time_args.
  destruct ((0 <=? h) && (h <=? 23)) eqn:Hh; cbn [negb]; [|discriminate].
  destruct ((0 <=? m) && (m <=? 59)) eqn:Hm; cbn [negb]; [|discriminate].
  destruct ((0 <=? s) && (s <=? 59)) eqn:Hs; cbn [negb]; [|discriminate].
  destruct ((0 <=? us) && (us <=? 999999)) eqn:Hus; cbn [negb]; [|discriminate].
  intros H. injection H as <-. split; [reflexivity | lia].
Qed.

Lemma datetime_time_fields (args : list Z) (tm : Py.time) :
  Py.datetime_time args = Ret tm ->
  (List.length args <= 4)%nat
  /\ 0 <= Py.hour tm <= 23 /\ 0 <= Py.minute tm <= 59
  /\ 0 <= Py.second tm <= 59 /\ 0 <= Py.microsecond tm <= 999999
  /\ Py.hour tm = nth 0 args 0 /\ Py.minute tm = nth 1 args 0
  /\ Py.second tm = nth 2 args 0 /\ Py.microsecond tm = nth 3 args 0.
Proof.
  destruct args as [|h [|m [|s [|us [|tz [|x rest]]]]]]; cbn [Py.datetime_time];
    unfold Py.c_int;
    repeat match goal with
      | |- context [if ?b then Ret ?v else Raise ?e] =>
          destruct b; cbn [bind]; [|discriminate]
      end;
    try discriminate;
    try (intros H; apply check_time_args_fields in H as (-> & H);
         cbn [Py.hour Py.minute Py.second Py.microsecond nth List.length];
         split; [lia |]; repeat split; lia).
  destruct (Py.check_time_args h m s us); discriminate.
Qed.

Lemma parse_time_fields (token : string) (tm : Py.time) :
  ChatMessage.parse_time token = Ret tm ->
  exists args,
    mapM Py.int (Py.split_on ":" token) = Ret args
    /\ (List.length args <= 4)%nat
    /\ 0 <= Py.hour tm <= 23 /\ 0 <= Py.minute tm <= 59
    /\ 0 <= Py.second tm <= 59 /\ 0 <= Py.microsecond tm <= 999999
    /\ Py.hour tm = nth 0 args 0 /\ Py.minute tm = nth 1 args 0
    /\ Py.second tm = nth 2 args 0 /\ Py.microsecond tm = nth 3 args 0.
Proof.
  unfold ChatMessage.parse_time.
  destruct (mapM Py.int (Py.split_on ":" token)) as [args|e]; cbn [bind]; [|discriminate].
  intros H. exists args. split; [reflexivity |]. apply datetime_time_fields, H.
Qed.

(** X1. The time of every parsed event is a valid time of day. It is read
    from at most four colon-separated integers of the first token, in the
    order hour, minute, second, microsecond; a field that is not written
    is 0. *)
Theorem parsed_time_is_valid (line : string) (m : ChatMessage.t) :
  ChatMessage.parse line = Ret (Some m) ->
  exists t0 args,
    nth_error (Py.split line) 0 = Some t0
    /\ mapM Py.int (Py.split_on ":" t0) = Ret args
    /\ (List.length args <= 4)%nat
    /\ 0 <= Py.hour (ChatMessage.time m) <= 23
    /\ 0 <= Py.minute (ChatMessage.time m) <= 59
    /\ 0 <= Py.second (ChatMessage.time m) <= 59
    /\ 0 <= Py.microsecond (ChatMessage.time m) <= 999999
    /\ Py.hour (ChatMessage.time m) = nth 0 args 0
    /\ Py.minute (ChatMessage.time m) = nth 1 args 0
    /\ Py.second (ChatMessage.time m) = nth 2 args 0
    /\ Py.microsecond (ChatMessage.time m) = nth 3 args 0.
Proof.
  intros H. destruct (parse_some_inv _ _ H) as (_ & t0 & c & t1' & H0 & Htime & _).
  destruct (parse_time_fields _ _ Htime) as (args & Hargs & Hrest).
  exists t0, args. split; [exact H0 |]. split; [exact Hargs | exact Hrest].
Qed.

Lemma parsed_time_is_valid_witness :
  exists t0 args,
    nth_error (Py.split "16:37 < _dopamine> hi") 0 = Some t0
    /\ mapM Py.int (Py.split_on ":" t0) = Ret args
    /\ args = [16; 37].
Proof.
  destruct (parsed_time_is_valid "16:37 < _dopamine> hi"
              (ChatMessage.mk (Py.mk_time 16 37 0 0) "_dopamine" "hi" REGULAR) eq_refl)
    as (t0 & args & H0 & Hargs & _).
  exists t0, args. split; [exact H0 |]. split; [exact Hargs |].
  vm_compute in H0. injection H0 as <-. vm_compute in Hargs. injection Hargs as <-.
  reflexivity.
Defined.

(** X2. A line that passes the first test and whose first token is a time
    is fatal when it has too few tokens for its branch: no second token,
    no third token after [*] or [<], no fifth token after [-]. [parse]
    raises [IndexError] and [one_line] does not catch it. *)
Theorem missing_tokens_are_fatal
    (entropy : nat) (self : Main.t) (line t0 : string) (tm : Py.time) :
  ChatMessage.rejects line = false ->
  nth_error (Py.split line) 0 = Some t0 ->
  ChatMessage.parse_time t0 = Ret tm ->
  (List.length (Py.split line) = 1%nat
   \/ (exists c t1',
         nth_error (Py.split line) 1 = Some (String c t1')
         /\ ((c = "*"%char \/ c = "<"%char) /\ List.length (Py.split line) = 2%nat
             \/ c = "-"%char /\ (List.length (Py.split line) <= 4)%nat))) ->
  ChatMessage.parse line = Raise IndexError
  /\ Main.one_line entropy self line = Raise IndexError.
Proof.
  intros Hrej H0 Htime Hshort.
  assert (Hparse : ChatMessage.parse line = Raise IndexError).
  { unfold ChatMessage.parse, Py.getitem. rewrite Hrej, H0. cbn [bind].
    rewrite Htime. cbn [bind].
    destruct Hshort as [Hone | (c & t1' & H1 & Hbranch)].
    - assert (H1 : nth_error (Py.split line) 1 = None)
        by (apply nth_error_None; lia).
      rewrite H1. reflexivity.
    - rewrite H1. cbn [bind Py.str_getitem String.get].
      destruct Hbranch as [[Hc Hlen] | [-> Hlen]].
      + assert (H2 : nth_error (Py.split line) 2 = None)
          by (apply nth_error_None; lia).
        rewrite H2.
        destruct Hc as [-> | ->]; reflexivity.
      + assert (H4 : nth_error (Py.split line) 4 = None)
          by (apply nth_error_None; lia).
        rewrite H4. reflexivity. }
  split; [exact Hparse |].
  unfold Main.one_line. rewrite Hparse. reflexivity.
Qed.

Lemma missing_tokens_are_fatal_witness :
  Main.one_line 0 (Main.init "osu") "16:45:29 -!- mode/#russian" = Raise IndexError
  /\ Main.one_line 0 (Main.init "osu") "16:45:29" = Raise IndexError.
Proof.
  split.
  - refine (proj2 (missing_tokens_are_fatal 0 (Main.init "osu")
              "16:45:29 -!- mode/#russian" "16:45:29" (Py.mk_time 16 45 29 0)
              eq_refl eq_refl eq_refl _)).
    right. exists "-"%char, "!-". split; [reflexivity |].
    right. split; [reflexivity | vm_compute; lia].
  - refine (proj2 (missing_tokens_are_fatal 0 (Main.init "osu")
              "16:45:29" "16:45:29" (Py.mk_time 16 45 29 0)
              eq_refl eq_refl eq_refl _)).
    left. reflexivity.
Defined.

(** *** Tokens *)

Lemma all_chars_snoc (p : ascii -> bool) (s : string) (c : ascii) :
  all_chars p (Py.snoc s c) = all_chars p s && p c.
Proof.
  unfold Py.snoc. rewrite all_chars_app. cbn [all_chars].
  rewrite andb_true_r. reflexivity.
Qed.

(** The tokens of [s.split()] contain no whitespace. *)
Lemma split_tokens_no_space (s : string) :
  forall t, In t (Py.split s) -> all_chars not_space t = true.
Proof.
  unfold Py.split.
  assert (H : forall cur t,
            all_chars not_space cur = true ->
            In t (Py.split_from cur s) ->
            all_chars not_space t = true).
  { induction s as [|c s IH]; intros cur t Hcur; cbn [Py.split_from].
    - destruct (Py.is_empty cur); [contradiction |]. intros [<- | []]. exact Hcur.
    - destruct (Py.isspace c) eqn:Hc.
      + destruct (Py.is_empty cur); [apply IH; reflexivity |].
        intros [<- | Hin]; [exact Hcur | eapply IH, Hin; reflexivity].
      + apply IH. rewrite all_chars_snoc, Hcur. unfold not_space. rewrite Hc. reflexivity. }
  intros t. apply (H EmptyString t). reflexivity.
Qed.

Lemma snoc_app (cur : string) (c : ascii) (t : string) :
  Py.snoc cur c ++ t = cur ++ String c t.
Proof. unfold Py.snoc. rewrite string_app_assoc. reflexivity. Qed.

(** Reading a token: nothing is emitted before its end. *)
Lemma split_from_token (tok cur s : string) :
  all_chars not_space tok = true ->
  Py.split_from cur (tok ++ s) = Py.split_from (cur ++ tok) s.
Proof.
  revert cur. induction tok as [|c tok IH]; intros cur Htok.
  - rewrite string_app_nil_l, string_app_nil_r. reflexivity.
  - cbn [all_chars] in Htok. apply andb_true_iff in Htok as [Hc Htok].
    rewrite string_app_cons. cbn [Py.split_from].
    unfold not_space in Hc. apply negb_true_iff in Hc. rewrite Hc.
    rewrite (IH _ Htok), snoc_app. reflexivity.
Qed.

(** Joining tokens with single spaces and splitting again gives the
    tokens back. *)
Lemma split_join (toks : list string) :
  Forall is_token toks -> Py.split (Py.join " " toks) = toks.
Proof.
  unfold Py.split.
  induction 1 as [|x toks [Hne Hns] Htoks IH]; [reflexivity |].
  destruct toks as [|y toks].
  - cbn [Py.join]. rewrite <- (string_app_nil_r x) at 1.
    rewrite (split_from_token x _ _ Hns), string_app_nil_l.
    cbn [Py.split_from]. rewrite Hne. reflexivity.
  - change (Py.join " " (x :: y :: toks)) with (x ++ " " ++ Py.join " " (y :: toks)).
    rewrite (split_from_token x _ _ Hns), string_app_nil_l.
    change (" " ++ Py.join " " (y :: toks)) with (String " " (Py.join " " (y :: toks))).
    cbn [Py.split_from].
    change (Py.isspace " ") with true. cbv iota. rewrite Hne, IH. reflexivity.
Qed.

Lemma split_tokens_are_tokens (s : string) : Forall is_token (Py.split s).
Proof.
  apply Forall_forall. intros t Ht. apply list_elem_of_In in Ht. split.
  - apply (split_tokens_not_empty s), Ht.
  - apply (split_tokens_no_space s), Ht.
Qed.

Lemma Forall_skipn {A : Type} (P : A -> Prop) (n : nat) (l : list A) :
  Forall P l -> Forall P (skipn n l).
Proof.
  revert l. induction n as [|n IH]; intros l H; [exact H |].
  destruct H as [|x l Hx Hl]; [constructor | apply IH, Hl].
Qed.

(** X3. The body of a parsed event is whitespace-normalised: for a
    message or an action, splitting the body gives the tokens of the line
    from the fourth on, and joining them again gives the body, so the body
    has no whitespace at either end and none but single spaces inside; for
    a mode change the body is empty. *)
Theorem parsed_body_is_normalised (line : string) (m : ChatMessage.t) :
  ChatMessage.parse line = Ret (Some m) ->
  match ChatMessage.line_type m with
  | MODE_CHANGE => ChatMessage.text m = EmptyString
  | _ =>
      Py.split (ChatMessage.text m) = skipn 3 (Py.split line)
      /\ Py.join " " (Py.split (ChatMessage.text m)) = ChatMessage.text m
  end.
Proof.
  intros H.
  destruct (parse_some_inv _ _ H)
    as (_ & t0 & c & t1' & _ & _ & _ &
        [(_ & -> & Htext & _) | [(_ & -> & Htext & _) | (_ & -> & Htext & _)]]).
  3: exact Htext.
  all: rewrite Htext;
    rewrite (split_join _ (Forall_skipn _ 3 _ (split_tokens_are_tokens line)));
    split; reflexivity.
Qed.

Lemma parsed_body_is_normalised_witness :
  Py.split "hello?   world!" <> []
  /\ Py.join " " (Py.split "hello? world!") = "hello? world!".
Proof.
  pose proof (parsed_body_is_normalised
                ("10:00:01 < nick1>  hello?" ++ String "009" "world!  ")
                (ChatMessage.mk (Py.mk_time 10 0 1 0) "nick1" "hello? world!" REGULAR)
                eq_refl) as [_ H].
  split; [vm_compute; discriminate | exact H].
Defined.

(** *** Authors *)

Lemma rstrip_by_split (p : ascii -> bool) (s : string) :
  exists t, s = Py.rstrip_by p s ++ t /\ all_chars p t = true.
Proof.
  induction s as [|c s (t & Hs & Ht)]; [exists EmptyString; split; reflexivity |].
  cbn [Py.rstrip_by].
  destruct (Py.is_empty (Py.rstrip_by p s)) eqn:Hempty; cbn [andb].
  - destruct (Py.rstrip_by p s); [|discriminate].
    rewrite string_app_nil_l in Hs. subst t.
    destruct (p c) eqn:Hc.
    + exists (String c s). split; [reflexivity |]. cbn [all_chars]. rewrite Hc, Ht. reflexivity.
    + exists s. split; [reflexivity | exact Ht].
  - exists t. split; [|exact Ht]. rewrite string_app_cons, <- Hs. reflexivity.
Qed.

Lemma rstrip_by_last (p : ascii -> bool) (s : string) (c : ascii) :
  last_char (Py.rstrip_by p s) = Some c -> p c = false.
Proof.
  induction s as [|x s IH]; [discriminate |].
  cbn [Py.rstrip_by].
  destruct (Py.rstrip_by p s) as [|y r] eqn:Hr; cbn [Py.is_empty andb].
  - destruct (p x) eqn:Hx; [discriminate |].
    intros H. injection H as <-. exact Hx.
  - exact IH.
Qed.

Lemma all_chars_app_l (p : ascii -> bool) (a b : string) :
  all_chars p (a ++ b) = true -> all_chars p a = true.
Proof. rewrite all_chars_app. intros H. apply andb_true_iff in H as [H _]. exact H. Qed.

Lemma all_chars_ext (p q : ascii -> bool) (s : string) :
  (forall c, p c = q c) -> all_chars p s = all_chars q s.
Proof.
  intros H. induction s as [|c s IH]; [reflexivity |].
  cbn [all_chars]. rewrite H, IH. reflexivity.
Qed.

Lemma rstrip_no_space (chars t : string) :
  all_chars not_space t = true -> all_chars not_space (Py.rstrip chars t) = true.
Proof.
  intros H. unfold Py.rstrip.
  destruct (rstrip_by_split (fun c => Py.mem c chars) t) as (rest & Ht & _).
  rewrite Ht in H. apply all_chars_app_l in H. exact H.
Qed.

Lemma nth_error_token (s : string) (i : nat) (t : string) :
  nth_error (Py.split s) i = Some t -> is_token t.
Proof.
  intros H. pose proof (split_tokens_are_tokens s) as Hall.
  rewrite Forall_forall in Hall. apply Hall.
  apply list_elem_of_In. eapply nth_error_In, H.
Qed.

(** X4. The author of a parsed event contains no whitespace. For an
    action it is the third token as it stands; for a message it is the
    third token without its trailing [>] characters, so it never ends with
    [>]; for a mode change it is the fifth token without its trailing []]
    characters, so it never ends with []]. *)
Theorem parsed_author_is_stripped_token (line : string) (m : ChatMessage.t) :
  ChatMessage.parse line = Ret (Some m) ->
  all_chars not_space (ChatMessage.username m) = true
  /\ match ChatMessage.line_type m with
     | ACTION =>
         nth_error (Py.split line) 2 = Some (ChatMessage.username m)
         /\ ChatMessage.username m <> EmptyString
     | REGULAR =>
         last_char (ChatMessage.username m) <> Some ">"%char
         /\ exists tail,
              nth_error (Py.split line) 2 = Some (ChatMessage.username m ++ tail)
              /\ all_chars (fun c => Ascii.eqb c ">") tail = true
     | MODE_CHANGE =>
         last_char (ChatMessage.username m) <> Some "]"%char
         /\ exists tail,
              nth_error (Py.split line) 4 = Some (ChatMessage.username m ++ tail)
              /\ all_chars (fun c => Ascii.eqb c "]") tail = true
     end.
Proof.
  intros H.
  destruct (parse_some_inv _ _ H)
    as (_ & t0 & c & t1' & _ & _ & _ &
        [(_ & -> & _ & t2 & H2 & ->)
        | [(_ & -> & _ & t2 & H2 & ->) | (_ & -> & _ & t4 & H4 & ->)]]).
  - destruct (nth_error_token _ _ _ H2) as [Hne Hns].
    split; [exact Hns |]. split; [exact H2 |].
    intros ->. discriminate Hne.
  - destruct (nth_error_token _ _ _ H2) as [Hne Hns].
    split; [apply rstrip_no_space, Hns |]. split.
    + intros Hlast. apply rstrip_by_last in Hlast. discriminate Hlast.
    + unfold Py.rstrip.
      destruct (rstrip_by_split (fun c => Py.mem c ">") t2) as (tail & Ht & Htail).
      exists tail. split; [rewrite <- Ht; exact H2 |].
      rewrite (all_chars_ext _ (fun x => Py.mem x ">")); [exact Htail |].
      intros x. cbn [Py.mem]. rewrite orb_false_r. reflexivity.
  - destruct (nth_error_token _ _ _ H4) as [Hne Hns].
    split; [apply rstrip_no_space, Hns |]. split.
    + intros Hlast. apply rstrip_by_last in Hlast. discriminate Hlast.
    + unfold Py.rstrip.
      destruct (rstrip_by_split (fun c => Py.mem c "]") t4) as (tail & Ht & Htail).
      exists tail. split; [rewrite <- Ht; exact H4 |].
      rewrite (all_chars_ext _ (fun x => Py.mem x "]")); [exact Htail |].
      intros x. cbn [Py.mem]. rewrite orb_false_r. reflexivity.
Qed.

Lemma parsed_author_is_stripped_token_witness :
  last_char "terho" <> Some "]"%char
  /\ all_chars not_space "terho" = true.
Proof.
  pose proof (parsed_author_is_stripped_token
                "16:45:29 -!- mode/#russian [+o terho]] by BanchoBot"
                (ChatMessage.mk (Py.mk_time 16 45 29 0) "terho" EmptyString MODE_CHANGE)
                eq_refl) as (Hns & Hlast & _).
  split; [exact Hlast | exact Hns].
Defined.

(* ===================================================================== *)
(** ** More on the URL extractor *)
(* ===================================================================== *)

Lemma found_in_order_in (r : Re.regex) (us : list string) (s u : string) :
  found_in_order r us s ->
  In u us ->
  exists before rest,
    s = before ++ u ++ rest /\ Re.match_at r (u ++ rest) = Some (u, rest).
Proof.
  induction 1 as [s _ | gap v rest us _ Hmatch _ IH]; [contradiction |].
  intros [<- | Hin].
  - exists gap, rest. split; [reflexivity | exact Hmatch].
  - destruct (IH Hin) as (before & rest' & -> & Hu).
    exists (gap ++ v ++ before), rest'. split; [|exact Hu].
    rewrite !string_app_assoc. reflexivity.
Qed.

Lemma matches_seq_lit (p : string) (r : Re.regex) (s s' : string) :
  In s' (Re.matches (Re.Seq (Re.Lit p) r) s) ->
  Py.startswith p s = true /\ In s' (Re.matches r (Re.string_drop (String.length p) s)).
Proof.
  cbn [Re.matches]. destruct (Py.startswith p s); [|contradiction].
  cbn [flat_map]. rewrite app_nil_r. auto.
Qed.

Lemma matches_opt_s (t t1 : string) :
  In t1 (Re.matches (Re.Opt (Re.Bracket "s")) t) ->
  t1 = t \/ t = String "s" t1.
Proof.
  cbn [Re.matches]. intros H. apply in_app_or in H as [H | [<- | []]]; [|left; reflexivity].
  destruct t as [|c t]; [contradiction |].
  destruct (Re.class_matches (Re.class_items "s") c) eqn:Hc; [|contradiction].
  destruct H as [<- | []]. right.
  change (Re.class_items "s") with [Re.CChar "s"] in Hc.
  cbn [Re.class_matches existsb Re.item_matches] in Hc.
  rewrite orb_false_r in Hc. apply Ascii.eqb_eq in Hc. subst c. reflexivity.
Qed.

Lemma plus_loop_starts (fuel : nat) (t s' : string) :
  In s' (Re.plus_loop (Re.matches url_atom) fuel t) ->
  exists c t', t = String c t' /\ url_char c = true.
Proof.
  intros H. destruct t as [|c t'].
  - rewrite plus_loop_stops in H by exact I. contradiction.
  - destruct (url_char c) eqn:Hc; [eauto |].
    rewrite plus_loop_stops in H by exact Hc. contradiction.
Qed.

(** Where the pattern matches, the text reads: scheme, "://", then a URL
    character. *)
Lemma url_match_inv (s u rest : string) :
  Re.match_at URLS_PATTERN s = Some (u, rest) ->
  exists scheme c t,
    (scheme = "http" \/ scheme = "https")
    /\ url_char c = true
    /\ s = scheme ++ "://" ++ String c t.
Proof.
  unfold Re.match_at.
  destruct (Re.matches URLS_PATTERN s) as [|s' l] eqn:Hm; [discriminate |].
  intros _.
  assert (Hin : In s' (Re.matches URLS_PATTERN s)) by (rewrite Hm; left; reflexivity).
  clear Hm. unfold URLS_PATTERN in Hin.
  change (Re.matches (Re.Group ?r) s) with (Re.matches r s) in Hin.
  apply matches_seq_lit in Hin as [Hhttp Hin].
  apply startswith_app in Hhttp.
  set (t := Re.string_drop (String.length "http") s) in *.
  apply (in_flat_map_inv (Re.matches _)) in Hin as (t1 & Hopt & Hin).
  apply matches_opt_s in Hopt.
  apply matches_seq_lit in Hin as [Hsep Hin].
  apply startswith_app in Hsep.
  apply plus_loop_starts in Hin as (c & t' & Ht2 & Hc).
  rewrite Ht2 in Hsep.
  destruct Hopt as [Ht1 | Ht1].
  - exists "http", c, t'. split; [left; reflexivity |]. split; [exact Hc |].
    rewrite Hhttp. rewrite <- Ht1, Hsep. reflexivity.
  - exists "https", c, t'. split; [right; reflexivity |]. split; [exact Hc |].
    rewrite Hhttp, Ht1, Hsep. reflexivity.
Qed.

Lemma take_while_all_chars (p : ascii -> bool) (s : string) :
  all_chars p (take_while p s) = true.
Proof.
  induction s as [|c s IH]; [reflexivity |].
  cbn [take_while]. destruct (p c) eqn:Hc; [|reflexivity].
  cbn [all_chars]. rewrite Hc, IH. reflexivity.
Qed.

Lemma lstrip_by_head (p : ascii -> bool) (s : string) :
  Py.lstrip_by p s = EmptyString
  \/ exists c r, Py.lstrip_by p s = String c r /\ p c = false.
Proof.
  induction s as [|c s IH]; [left; reflexivity |].
  cbn [Py.lstrip_by]. destruct (p c) eqn:Hc; [exact IH |].
  right. exists c, s. split; [reflexivity | exact Hc].
Qed.

(** X5. Every string the extractor returns stands in the body and reads:
    "http" or "https", then "://", then one or more URL characters (the
    exclamation mark, the characters from [$] to [_], and the lower-case
    letters). It goes on as far as URL characters go: what follows it in
    the body is nothing or a character that is not a URL character. *)
Theorem extracted_url_shape (m : ChatMessage.t) (u : string) :
  In u (ChatMessage.parse_urls m) ->
  exists before rest scheme c run,
    ChatMessage.text m = before ++ u ++ rest
    /\ (scheme = "http" \/ scheme = "https")
    /\ u = scheme ++ "://" ++ String c run
    /\ url_char c = true
    /\ all_chars url_char run = true
    /\ (rest = EmptyString \/ exists c' r, rest = String c' r /\ url_char c' = false).
Proof.
  intros Hin.
  pose proof (findall_skip_found URLS_PATTERN url_matches_nonempty
                (ChatMessage.text m) 0%nat) as Hfound.
  destruct (found_in_order_in _ _ _ _ Hfound Hin) as (before & rest & Htext & Hmatch).
  destruct (url_match_inv _ _ _ Hmatch) as (scheme & c & t & Hscheme & Hc & Hs).
  rewrite Hs, (url_match_at scheme c t Hscheme Hc) in Hmatch.
  injection Hmatch as Hu Hrest.
  exists before, rest, scheme, c, (take_while url_char t).
  split; [exact Htext |]. split; [exact Hscheme |]. split; [symmetry; exact Hu |].
  split; [exact Hc |]. split; [apply take_while_all_chars |].
  rewrite <- Hrest. apply lstrip_by_head.
Qed.

Lemma extracted_url_shape_witness :
  exists before rest scheme c run,
    "see http://a.b/c?x=1 and https://d.e" = before ++ "https://d.e" ++ rest
    /\ (scheme = "http" \/ scheme = "https")
    /\ "https://d.e" = scheme ++ "://" ++ String c run.
Proof.
  destruct (extracted_url_shape
              (ChatMessage.mk (Py.mk_time 10 0 1 0) "nick"
                 "see http://a.b/c?x=1 and https://d.e" REGULAR)
              "https://d.e")
    as (before & rest & scheme & c & run & Htext & Hscheme & Hu & _).
  { vm_compute. right. left. reflexivity. }
  exists before, rest, scheme, c, run. split; [exact Htext |]. split; assumption.
Defined.

(* ===================================================================== *)
(** ** More on the reservoir sampler *)
(* ===================================================================== *)

(** One call, exactly: the count of [k] goes up by one; a first value is
    stored; a later value is stored when the entropy is a multiple of the
    new count, which is when the draw from [1..count] is 1. *)
Lemma consider_exact (entropy : nat) (s : ReservoirSampler.t) (k v : string) (i : nat) :
  sampler_wf s ->
  default 0 (ReservoirSampler._counter s !! k) = Z.of_nat i ->
  exists s',
    ReservoirSampler.consider entropy s k v = Ret s'
    /\ sampler_wf s'
    /\ default 0 (ReservoirSampler._counter s' !! k) = Z.of_nat (S i)
    /\ ReservoirSampler.get s' k
       = match ReservoirSampler.get s k with
         | None => Some v
         | Some h => if (entropy mod S i =? 0)%nat then Some v else Some h
         end.
Proof.
  intros Hwf Hcount.
  destruct (consider_spec entropy s k v Hwf)
    as (s' & Hcall & Hwf' & _ & Hfresh & _ & Hcount' & _).
  exists s'. split; [exact Hcall |]. split; [exact Hwf' |].
  split; [rewrite Hcount', Hcount; lia |].
  destruct (ReservoirSampler.get s k) as [h|] eqn:Hget; [|apply Hfresh; reflexivity].
  unfold ReservoirSampler.consider in Hcall. unfold ReservoirSampler.get in Hget.
  rewrite Hget in Hcall. rewrite lookup_insert_eq in Hcall.
  cbn [default] in Hcall.
  change (id (default 0 (ReservoirSampler._counter s !! k) + 1))
    with (default 0 (ReservoirSampler._counter s !! k) + 1) in Hcall.
  rewrite Hcount in Hcall. unfold Py.randint in Hcall.
  destruct (Z.ltb_spec (Z.of_nat i + 1) 1) as [Hlt|_]; [lia |].
  cbn [bind] in Hcall.
  replace (Z.of_nat i + 1 - 1 + 1) with (Z.of_nat (S i)) in Hcall by lia.
  rewrite <- Nat2Z.inj_mod in Hcall.
  destruct (Nat.eqb_spec (entropy mod S i) 0) as [Hzero | Hnonzero].
  - rewrite Hzero in Hcall. cbn [Z.of_nat Z.add Z.eqb] in Hcall.
    injection Hcall as <-. apply lookup_insert_eq.
  - destruct (Z.eqb_spec (1 + Z.of_nat (entropy mod S i)) 1) as [Heq|_]; [lia |].
    injection Hcall as <-. exact Hget.
Qed.

Lemma stream_cons (k : string) (e : nat) (es : list nat) (v : string) (vs : list string) :
  stream k (e :: es) (v :: vs) = (e, k, v) :: stream k es vs.
Proof. reflexivity. Qed.

Lemma observed_stream (k : string) (es : list nat) (vs : list string) :
  List.length es = List.length vs -> observed k (stream k es vs) = vs.
Proof.
  revert es. induction vs as [|v vs IH]; intros [|e es] Hlen; try discriminate;
    [reflexivity |].
  rewrite stream_cons. cbn [observed]. rewrite String.eqb_refl.
  f_equal. apply IH. simpl in Hlen. lia.
Qed.

(** Running a stream from a state that has seen [seen] and holds the one
    at index [cur]. *)
Lemma stream_run (k : string) (vs : list string) :
  forall (es : list nat) (seen : list string) (cur : nat) (s : ReservoirSampler.t),
    List.length es = List.length vs ->
    sampler_wf s ->
    default 0 (ReservoirSampler._counter s !! k) = Z.of_nat (List.length seen) ->
    ReservoirSampler.get s k = nth_error seen cur ->
    (seen <> [] -> (cur < List.length seen)%nat) ->
    exists s',
      consider_all s (stream k es vs) = Ret s'
      /\ ReservoirSampler.get s' k
         = nth_error (seen ++ vs)%list (choose (List.length seen) cur es)
      /\ ((seen ++ vs)%list <> [] ->
          (choose (List.length seen) cur es < List.length (seen ++ vs)%list)%nat).
Proof.
  induction vs as [|v vs IH]; intros [|e es] seen cur s Hlen Hwf Hcount Hget Hcur;
    try discriminate.
  - exists s. rewrite app_nil_r. cbn [stream combine map consider_all choose].
    split; [reflexivity |]. split; [exact Hget | exact Hcur].
  - rewrite stream_cons. cbn [consider_all choose].
    destruct (consider_exact e s k v (List.length seen) Hwf Hcount)
      as (s1 & -> & Hwf1 & Hcount1 & Hget1).
    cbn [bind].
    assert (Hlen1 : List.length (seen ++ [v])%list = S (List.length seen))
      by (rewrite length_app; simpl; lia).
    destruct (IH es (seen ++ [v])%list
                (if (e mod S (List.length seen) =? 0)%nat then List.length seen else cur)
                s1)
      as (s' & Hrun & Hget' & Hlt).
    + simpl in Hlen. lia.
    + exact Hwf1.
    + rewrite Hlen1. exact Hcount1.
    + rewrite Hget1, Hget.
      destruct seen as [|x seen].
      * destruct cur; reflexivity.
      * specialize (Hcur ltac:(discriminate)).
        destruct (nth_error (x :: seen) cur) as [h|] eqn:Hh;
          [|apply nth_error_None in Hh; lia].
        destruct (e mod S (List.length (x :: seen)) =? 0)%nat.
        -- rewrite nth_error_app2 by lia. rewrite Nat.sub_diag. reflexivity.
        -- rewrite nth_error_app1 by exact Hcur. symmetry. exact Hh.
    + intros _. rewrite Hlen1.
      destruct seen as [|x seen].
      * cbn [List.length]. rewrite Nat.mod_1_r. cbn [Nat.eqb]. lia.
      * specialize (Hcur ltac:(discriminate)).
        destruct (e mod S (List.length (x :: seen)) =? 0)%nat; lia.
    + exists s'. rewrite Hlen1, <- app_assoc in *.
      split; [exact Hrun |]. split; [exact Hget' | exact Hlt].
Qed.

Lemma observed_count (calls : list (nat * string * string)) (k : string) :
  forall s,
    sampler_wf s ->
    exists s',
      consider_all s calls = Ret s'
      /\ default 0 (ReservoirSampler._counter s' !! k)
         = default 0 (ReservoirSampler._counter s !! k)
           + Z.of_nat (List.length (observed k calls)).
Proof.
  induction calls as [|[[entropy k'] v] calls IH]; intros s Hwf.
  - exists s. split; [reflexivity | simpl; lia].
  - destruct (consider_spec entropy s k' v Hwf)
      as (s1 & Hcall & Hwf1 & _ & _ & _ & Hcount & Hcount').
    destruct (IH s1 Hwf1) as (s' & Hrun & Hs').
    exists s'. cbn [consider_all observed]. rewrite Hcall. cbn [bind].
    split; [exact Hrun |]. rewrite Hs'.
    destruct (String.eqb_spec k' k) as [->|Hne].
    + rewrite Hcount. cbn [List.length]. lia.
    + rewrite (Hcount' k) by congruence. lia.
Qed.

(** X6. The sampler counts what it is shown: after any calls on a new
    sampler, the occurrence count kept for a key is the number of calls
    made with that key, and a sample is held for the key exactly when that
    number is not zero. *)
Theorem sampler_counts_observations
    (calls : list (nat * string * string)) (k : string) :
  exists s,
    consider_all ReservoirSampler.init calls = Ret s
    /\ default 0 (ReservoirSampler._counter s !! k)
       = Z.of_nat (List.length (observed k calls))
    /\ (ReservoirSampler.get s k = None <-> observed k calls = []).
Proof.
  destruct (observed_count calls k _ sampler_wf_init) as (s & Hrun & Hcount).
  destruct (consider_all_spec calls k _ sampler_wf_init)
    as (s2 & Hrun2 & _ & Hnone & Hsome & _).
  rewrite Hrun in Hrun2. injection Hrun2 as <-.
  exists s. split; [exact Hrun |]. split.
  - rewrite Hcount. change (ReservoirSampler._counter ReservoirSampler.init) with (∅ : gmap string Z).
    rewrite lookup_empty. simpl. lia.
  - split.
    + intros Hget. destruct (observed k calls) as [|v vs] eqn:Hobs; [reflexivity |].
      destruct Hsome as (w & Hw & _); [discriminate | congruence].
    + intros Hobs. rewrite (Hnone Hobs). apply lookup_empty.
Qed.

Lemma choose_snoc (es : list nat) (e : nat) :
  forall i cur,
    choose i cur (es ++ [e])%list
    = if (e mod S (i + List.length es) =? 0)%nat
      then (i + List.length es)%nat
      else choose i cur es.
Proof.
  induction es as [|x es IH]; intros i cur.
  - cbn [app choose List.length]. rewrite Nat.add_0_r. reflexivity.
  - cbn [app choose List.length]. rewrite IH.
    replace (S i + List.length es)%nat with (i + S (List.length es))%nat by lia.
    reflexivity.
Qed.

(** X7. Which observation is held is decided by the draws alone. For a
    key shown the values [vs], the i-th with entropy [es[i]], the calls
    return and [get] gives the value at [chosen_index es]: the first value
    if no later draw came out 1, and otherwise the value of the last
    observation whose draw came out 1, which is the case when its entropy
    is a multiple of its 1-based position. *)
Theorem held_value_follows_the_draws
    (k : string) (es : list nat) (vs : list string) :
  List.length es = List.length vs ->
  (exists s,
     consider_all ReservoirSampler.init (stream k es vs) = Ret s
     /\ ReservoirSampler.get s k = nth_error vs (chosen_index es))
  /\ (vs <> [] -> (chosen_index es < List.length vs)%nat)
  /\ chosen_index [] = 0%nat
  /\ forall es' e,
       chosen_index (es' ++ [e])%list
       = if (e mod S (List.length es') =? 0)%nat
         then List.length es'
         else chosen_index es'.
Proof.
  intros Hlen.
  destruct (stream_run k vs es [] 0%nat ReservoirSampler.init Hlen sampler_wf_init)
    as (s & Hrun & Hget & Hlt).
  - change (ReservoirSampler._counter ReservoirSampler.init) with (∅ : gmap string Z).
    rewrite lookup_empty. reflexivity.
  - apply lookup_empty.
  - intros H. contradiction.
  - split; [exists s; split; [exact Hrun | exact Hget] |].
    split; [exact Hlt |]. split; [reflexivity |].
    intros es' e. unfold chosen_index. rewrite choose_snoc. reflexivity.
Qed.

Lemma held_value_follows_the_draws_witness :
  exists s,
    consider_all ReservoirSampler.init (stream "nick" [7; 4; 5; 3]%nat ["a"; "b"; "c"; "d"])
    = Ret s
    /\ ReservoirSampler.get s "nick" = Some "b".
Proof.
  destruct (held_value_follows_the_draws "nick" [7; 4; 5; 3]%nat ["a"; "b"; "c"; "d"] eq_refl)
    as ((s & Hrun & Hget) & _).
  exists s. split; [exact Hrun | exact Hget].
Defined.

Lemma sampler_counts_observations_witness :
  exists s,
    consider_all ReservoirSampler.init [(0%nat, "a", "x"); (1%nat, "b", "y"); (2%nat, "a", "z")]
    = Ret s
    /\ default 0 (ReservoirSampler._counter s !! "a") = 2
    /\ ReservoirSampler.get s "c" = None.
Proof.
  pose (calls := [(0%nat, "a", "x"); (1%nat, "b", "y"); (2%nat, "a", "z")]).
  destruct (sampler_counts_observations calls "a") as (s & Hrun & Ha & _).
  destruct (sampler_counts_observations calls "c") as (s' & Hrun' & _ & Hc).
  assert (s' = s) as -> by congruence.
  exists s. split; [exact Hrun |]. split; [exact Ha |]. apply Hc. reflexivity.
Defined.

(** *** Counting the draws *)

Lemma count_if_app {A : Type} (p : A -> bool) (l1 l2 : list A) :
  count_if p (l1 ++ l2)%list = (count_if p l1 + count_if p l2)%nat.
Proof. induction l1 as [|x l1 IH]; simpl; [reflexivity | rewrite IH; lia]. Qed.

Lemma count_if_ext {A : Type} (p q : A -> bool) (l : list A) :
  (forall x, In x l -> p x = q x) -> count_if p l = count_if q l.
Proof.
  induction l as [|x l IH]; intros H; [reflexivity |].
  cbn [count_if]. rewrite (H x (or_introl eq_refl)), IH; [reflexivity |].
  intros y Hy. apply H. right. exact Hy.
Qed.

Lemma count_if_const {A : Type} (p : A -> bool) (b : bool) (l : list A) :
  (forall x, In x l -> p x = b) ->
  count_if p l = if b then List.length l else 0%nat.
Proof.
  induction l as [|x l IH]; intros H; [destruct b; reflexivity |].
  cbn [count_if List.length]. rewrite (H x (or_introl eq_refl)), IH.
  - destruct b; lia.
  - intros y Hy. apply H. right. exact Hy.
Qed.

Lemma count_if_map {A B : Type} (f : A -> B) (p : B -> bool) (l : list A) :
  count_if p (map f l) = count_if (fun x => p (f x)) l.
Proof. induction l as [|x l IH]; simpl; [reflexivity | rewrite IH; reflexivity]. Qed.

Lemma choose_below (es : list nat) :
  forall i cur, (cur < i)%nat -> (choose i cur es < i + List.length es)%nat.
Proof.
  induction es as [|e es IH]; intros i cur Hcur; cbn [choose List.length]; [lia |].
  specialize (IH (S i) (if (e mod S i =? 0)%nat then i else cur)).
  destruct (e mod S i =? 0)%nat; lia.
Qed.

Lemma chosen_index_below (es : list nat) :
  es <> [] -> (chosen_index es < List.length es)%nat.
Proof.
  destruct es as [|e es]; [contradiction |]. intros _.
  unfold chosen_index. cbn [choose List.length].
  rewrite Nat.mod_1_r. cbn [Nat.eqb].
  pose proof (choose_below es 1 0 ltac:(lia)). lia.
Qed.

(** The ways one more observation can go, after the draws [es]: it takes
    the place in one of them and leaves it in the others. *)
Lemma count_next_draw (es : list nat) (j : nat) :
  count_if (fun es' => (chosen_index es' =? j)%nat)
           (map (fun e => (es ++ [e])%list) (seq 0 (S (List.length es))))
  = ((if (j =? List.length es)%nat then 1 else 0)
     + (if (chosen_index es =? j)%nat then List.length es else 0))%nat.
Proof.
  rewrite count_if_map. cbn [seq count_if].
  unfold chosen_index at 1. rewrite choose_snoc.
  cbn [Nat.add]. rewrite Nat.Div0.mod_0_l. cbn [Nat.eqb].
  rewrite (Nat.eqb_sym (List.length es) j). f_equal.
  rewrite (count_if_const _ (chosen_index es =? j)%nat).
  - rewrite length_seq. reflexivity.
  - intros e He. apply in_seq in He.
    unfold chosen_index. rewrite choose_snoc. cbn [Nat.add].
    rewrite Nat.mod_small by lia.
    destruct (Nat.eqb_spec e 0) as [->|_]; [lia | reflexivity].
Qed.

Lemma draws_lengths (n : nat) : Forall (fun es => List.length es = n) (draws n).
Proof.
  induction n as [|n IH]; [repeat constructor |].
  cbn [draws]. apply Forall_forall. intros es Hes.
  apply list_elem_of_In, in_flat_map in Hes as (es0 & Hes0 & Hes).
  apply in_map_iff in Hes as (e & <- & _).
  rewrite Forall_forall in IH.
  rewrite length_app, (IH es0 (proj2 (list_elem_of_In _ _) Hes0)). simpl. lia.
Qed.

Lemma count_draws_step (n j : nat) (L : list (list nat)) :
  Forall (fun es => List.length es = n) L ->
  count_if (fun es' => (chosen_index es' =? j)%nat)
           (flat_map (fun es => map (fun e => (es ++ [e])%list) (seq 0 (S n))) L)
  = ((if (j =? n)%nat then List.length L else 0)
     + n * count_if (fun es => (chosen_index es =? j)%nat) L)%nat.
Proof.
  induction 1 as [|es L Hes _ IH];
    [cbn [flat_map count_if List.length]; destruct (j =? n)%nat; lia |].
  cbn [flat_map count_if List.length]. rewrite count_if_app, IH.
  rewrite <- Hes at 1. rewrite count_next_draw, Hes.
  destruct (j =? n)%nat, (chosen_index es =? j)%nat; lia.
Qed.

Lemma draws_count (n : nat) : List.length (draws n) = fact n.
Proof.
  induction n as [|n IH]; [reflexivity |].
  cbn [draws fact]. rewrite <- IH.
  generalize (draws n). intros L. induction L as [|es L IHL]; [simpl; lia |].
  cbn [flat_map List.length]. rewrite length_app, length_map, length_seq, IHL. lia.
Qed.

(** Each of the [n+1] positions is the chosen one for [n!] of the
    [(n+1)!] ways the draws can go. *)
Lemma chosen_index_uniform (n j : nat) :
  count_if (fun es => (chosen_index es =? j)%nat) (draws (S n))
  = if (j <=? n)%nat then fact n else 0%nat.
Proof.
  revert j. induction n as [|n IH]; intros j.
  - destruct j; reflexivity.
  - change (draws (S (S n)))
      with (flat_map (fun es => map (fun e => (es ++ [e])%list) (seq 0 (S (S n))))
                     (draws (S n))).
    rewrite (count_draws_step (S n) j _ (draws_lengths (S n))), IH, draws_count.
    destruct (Nat.eqb_spec j (S n)) as [->|Hne].
    + destruct (Nat.leb_spec (S n) n) as [Hle|_]; [lia |].
      destruct (Nat.leb_spec (S n) (S n)) as [_|Hgt]; lia.
    + destruct (Nat.leb_spec j n) as [Hle|Hgt].
      * destruct (Nat.leb_spec j (S n)) as [_|Hgt]; [|lia].
        change (fact (S n)) with (fact n + n * fact n)%nat. lia.
      * destruct (Nat.leb_spec j (S n)) as [Hle|_]; lia.
Qed.

Lemma held_chosen (k : string) (es : list nat) (vs : list string) :
  List.length es = List.length vs ->
  held k es vs = nth_error vs (chosen_index es).
Proof.
  intros Hlen. unfold held.
  destruct (stream_run k vs es [] 0%nat ReservoirSampler.init Hlen sampler_wf_init)
    as (s & -> & Hget & _).
  - change (ReservoirSampler._counter ReservoirSampler.init) with (∅ : gmap string Z).
    rewrite lookup_empty. reflexivity.
  - apply lookup_empty.
  - intros H. contradiction.
  - exact Hget.
Qed.

(** X8. The sampler is uniform. Let a key be shown [n] distinct values.
    The draws of the run can come out in [n!] ways, all equally likely
    (the i-th draw is uniform on [1..i]); in exactly [(n-1)!] of them the
    value held at the end is a given one of the [n] values. *)
Theorem sampler_is_uniform (k : string) (vs : list string) (v : string) :
  List.NoDup vs ->
  In v vs ->
  count_if (fun es => holds v (held k es vs)) (draws (List.length vs))
  = fact (List.length vs - 1)
  /\ List.length (draws (List.length vs)) = fact (List.length vs).
Proof.
  intros Hnodup Hin. split; [|apply draws_count].
  apply In_nth_error in Hin as (j & Hj).
  assert (Hjlt : (j < List.length vs)%nat)
    by (apply nth_error_Some; rewrite Hj; discriminate).
  destruct (List.length vs) as [|n] eqn:Hn; [lia |].
  rewrite (count_if_ext _ (fun es => (chosen_index es =? j)%nat)).
  - rewrite chosen_index_uniform.
    destruct (Nat.leb_spec j n) as [_|Hgt]; [|lia].
    f_equal. lia.
  - intros es Hes.
    pose proof (draws_lengths (S n)) as Hlens. rewrite Forall_forall in Hlens.
    specialize (Hlens es (proj2 (list_elem_of_In _ _) Hes)).
    rewrite held_chosen by congruence.
    assert (Hlt : (chosen_index es < List.length vs)%nat).
    { rewrite Hn, <- Hlens. apply chosen_index_below.
      intros ->. discriminate Hlens. }
    destruct (nth_error vs (chosen_index es)) as [w|] eqn:Hw;
      [|apply nth_error_None in Hw; lia].
    cbn [holds].
    destruct (String.eqb_spec w v) as [->|Hne];
      destruct (Nat.eqb_spec (chosen_index es) j) as [Heq|Hneq];
      try reflexivity.
    + exfalso. apply Hneq.
      apply (proj1 (NoDup_nth_error vs) Hnodup); [exact Hlt | congruence].
    + exfalso. apply Hne. rewrite Heq in Hw. congruence.
Qed.

Lemma sampler_is_uniform_witness :
  count_if (fun es => holds "b" (held "nick" es ["a"; "b"; "c"])) (draws 3) = 2%nat
  /\ List.length (draws 3) = 6%nat.
Proof.
  apply (sampler_is_uniform "nick" ["a"; "b"; "c"] "b").
  - repeat (apply List.NoDup_cons; [simpl; intuition discriminate |]).
    apply List.NoDup_nil.
  - right; left; reflexivity.
Defined.

(* ===================================================================== *)
(** ** More on the aggregator *)
(* ===================================================================== *)

(** What a line of a file does to each field of the state. *)
Lemma one_line_event (entropy : nat) (st st' : Main.t) (raw : string) :
  Main.one_line entropy st (Py.strip raw) = Ret st' ->
  match event_of raw with
  | None => st' = Main.debug st (SkippedLine (Py.strip raw))
  | Some m =>
      let u := ChatMessage.username m in
      Main.channel_name st' = Main.channel_name st
      /\ Main.stderr st' = Main.stderr st
      /\ if is_message m then
           Main.user_messages st' = Counter.incr (Main.user_messages st) u
           /\ Main.user_actions st'
              = (if is_action m then Counter.incr (Main.user_actions st) u
                 else Main.user_actions st)
           /\ Main.user_question st'
              = (if Py.contains "?" (ChatMessage.text m)
                 then Counter.incr (Main.user_question st) u
                 else Main.user_question st)
           /\ Main.user_exclamation st'
              = (if Py.contains "!" (ChatMessage.text m)
                 then Counter.incr (Main.user_exclamation st) u
                 else Main.user_exclamation st)
           /\ Main.user_givemodes st' = Main.user_givemodes st
           /\ Main.url_count st'
              = fst (Main.count_urls u (ChatMessage.parse_urls m)
                       (Main.url_count st, Main.last_url_usage st))
           /\ Main.last_url_usage st'
              = snd (Main.count_urls u (ChatMessage.parse_urls m)
                       (Main.url_count st, Main.last_url_usage st))
         else
           Main.user_messages st' = Main.user_messages st
           /\ Main.user_actions st' = Main.user_actions st
           /\ Main.user_question st' = Main.user_question st
           /\ Main.user_exclamation st' = Main.user_exclamation st
           /\ Main.user_givemodes st' = Counter.incr (Main.user_givemodes st) u
           /\ Main.url_count st' = Main.url_count st
           /\ Main.last_url_usage st' = Main.last_url_usage st
           /\ Main.activity_graph st' = Main.activity_graph st
           /\ Main._cache_user_messages st' = Main._cache_user_messages st
  end.
Proof.
  unfold Main.one_line, event_of, is_message, is_action. cbv zeta.
  destruct (ChatMessage.parse (Py.strip raw)) as [[m|]|e]; cbn [bind]; [| |discriminate].
  - destruct (ChatMessage.line_type m).
    1, 2:
      destruct (Main.list_incr _ _) as [graph'|e]; cbn [bind]; [|discriminate];
      destruct (ReservoirSampler.consider _ _ _ _) as [cache'|e]; cbn [bind];
        [|discriminate];
      intros H; injection H as <-; repeat split.
    intros H. injection H as <-. repeat split.
  - intros H. injection H as <-. reflexivity.
Qed.

Lemma counter_get_incr (c : Counter.t) (k u : string) :
  Counter.get (Counter.incr c k) u
  = Counter.get c u + (if String.eqb k u then 1 else 0).
Proof.
  destruct (String.eqb_spec k u) as [->|Hne].
  - apply counter_get_incr_eq.
  - rewrite counter_get_incr_ne by congruence. lia.
Qed.

Lemma counter_total_set (c : Counter.t) (k : string) (v : Z) :
  Counter.total (Counter.set c k v) = Counter.total c - Counter.get c k + v.
Proof.
  induction c as [|[k' n] c IH]; cbn [Counter.set Counter.get].
  - unfold Counter.total. simpl. lia.
  - destruct (String.eqb k k'); unfold Counter.total in *; cbn [fold_right snd] in *; lia.
Qed.

Lemma counter_total_incr (c : Counter.t) (k : string) :
  Counter.total (Counter.incr c k) = Counter.total c + 1.
Proof. unfold Counter.incr. rewrite counter_total_set. lia. Qed.

(** The counters of one author after some lines, from any state. *)
Lemma feed_tallies (u : string) (lines : list (nat * string)) :
  forall st st',
    Main.feed st lines = Ret st' ->
    Counter.get (Main.user_messages st') u
    = Counter.get (Main.user_messages st) u
      + tally (fun m => is_message m && by_author u m) lines
    /\ Counter.get (Main.user_actions st') u
       = Counter.get (Main.user_actions st) u
         + tally (fun m => is_action m && by_author u m) lines
    /\ Counter.get (Main.user_question st') u
       = Counter.get (Main.user_question st) u
         + tally (fun m => asks m && by_author u m) lines
    /\ Counter.get (Main.user_exclamation st') u
       = Counter.get (Main.user_exclamation st) u
         + tally (fun m => exclaims m && by_author u m) lines
    /\ Counter.get (Main.user_givemodes st') u
       = Counter.get (Main.user_givemodes st) u
         + tally (fun m => is_mode_change m && by_author u m) lines.
Proof.
  induction lines as [|[entropy raw] lines IH]; intros st st'.
  - simpl. intros H. injection H as <-. repeat split; lia.
  - cbn [Main.feed].
    destruct (Main.one_line entropy st (Py.strip raw)) as [st1|e] eqn:Hone;
      cbn [bind]; [|discriminate].
    intros Hfeed. destruct (IH _ _ Hfeed) as (Hm & Ha & Hq & He & Hg).
    rewrite Hm, Ha, Hq, He, Hg. clear IH Hfeed Hm Ha Hq He Hg.
    pose proof (one_line_event _ _ _ _ Hone) as Hev.
    cbn [tally]. unfold asks, exclaims, is_mode_change, by_author.
    destruct (event_of raw) as [m|]; [|subst st1; cbn; repeat split; lia].
    cbv zeta in Hev. destruct Hev as (_ & _ & Hev).
    destruct (is_message m) eqn:Hmsg.
    + destruct Hev as (-> & -> & -> & -> & -> & _).
      assert (Hact : is_action m = true -> is_message m = true) by auto.
      destruct (is_action m), (Py.contains "?" (ChatMessage.text m)),
        (Py.contains "!" (ChatMessage.text m));
        rewrite ?counter_get_incr; cbn [andb negb];
        destruct (String.eqb (ChatMessage.username m) u); repeat split; lia.
    + destruct Hev as (-> & -> & -> & -> & -> & _).
      assert (Hact : is_action m = false).
      { unfold is_action, is_message in *. destruct (ChatMessage.line_type m); congruence. }
      rewrite Hact, ?counter_get_incr. cbn [andb negb].
      destruct (String.eqb (ChatMessage.username m) u); repeat split; lia.
Qed.

(** File boundaries do not matter to the statistics. *)
Lemma feed_files_concat (files : list (list (nat * string))) :
  forall st, Main.feed_files st files = Main.feed st (concat files).
Proof.
  induction files as [|f files IH]; intros st; [reflexivity |].
  cbn [Main.feed_files concat]. rewrite feed_app.
  destruct (Main.feed st f) as [st1|e]; cbn [bind]; [apply IH | reflexivity].
Qed.

Lemma bulk_lines_feed (start st : Main.t) (files : list (list (nat * string))) :
  Main.bulk_lines start files = Ret st ->
  exists st0,
    Main.feed start (concat files) = Ret st0
    /\ st = Main.debug st0 (ParsedLogs (List.length files)).
Proof.
  intros H. destruct (bulk_lines_inv _ _ _ H) as (st0 & Hfiles & ->).
  exists st0. split; [|reflexivity]. rewrite <- feed_files_concat. exact Hfiles.
Qed.

(** X9. The per-author counters are tallies of the events. After a run
    over the lines of the files, in order, the message counter of an
    author is the number of lines classified as a message or an action of
    that author; the action counter counts the actions; the question and
    exclamation counters count the messages and actions whose body
    contains [?] and [!]; the mode-change counter counts the mode changes.
    Lines that are skipped count nowhere. *)
Theorem counters_are_tallies
    (channel : string) (files : list (list (nat * string))) (st : Main.t) (u : string) :
  Main.bulk_lines (Main.init channel) files = Ret st ->
  Counter.get (Main.user_messages st) u
  = tally (fun m => is_message m && by_author u m) (concat files)
  /\ Counter.get (Main.user_actions st) u
     = tally (fun m => is_action m && by_author u m) (concat files)
  /\ Counter.get (Main.user_question st) u
     = tally (fun m => asks m && by_author u m) (concat files)
  /\ Counter.get (Main.user_exclamation st) u
     = tally (fun m => exclaims m && by_author u m) (concat files)
  /\ Counter.get (Main.user_givemodes st) u
     = tally (fun m => is_mode_change m && by_author u m) (concat files).
Proof.
  intros Hrun. destruct (bulk_lines_feed _ _ _ Hrun) as (st0 & Hfeed & ->).
  destruct (feed_tallies u _ _ _ Hfeed) as (Hm & Ha & Hq & He & Hg).
  cbn [Main.debug Main.user_messages Main.user_actions Main.user_question
       Main.user_exclamation Main.user_givemodes].
  rewrite Hm, Ha, Hq, He, Hg. cbn. repeat split; lia.
Qed.

Lemma counters_are_tallies_witness :
  exists st,
    Main.bulk_lines (Main.init "osu")
      [[(0%nat, "10:00:01 < nick1> hello? world!"); (1%nat, "10:15:00 * nick1 waves")];
       [(2%nat, "11:00:00 -!- mode/#c [+o nick2] by Bot")]]
    = Ret st
    /\ Counter.get (Main.user_messages st) "nick1" = 2
    /\ Counter.get (Main.user_givemodes st) "nick2" = 1.
Proof.
  pose (files := [[(0%nat, "10:00:01 < nick1> hello? world!");
                   (1%nat, "10:15:00 * nick1 waves")];
                  [(2%nat, "11:00:00 -!- mode/#c [+o nick2] by Bot")]]).
  destruct (Main.bulk_lines (Main.init "osu") files) as [st|e] eqn:Hrun;
    [|vm_compute in Hrun; discriminate Hrun].
  exists st. split; [exact Hrun |].
  destruct (counters_are_tallies "osu" files st "nick1" Hrun) as (Hm & _).
  destruct (counters_are_tallies "osu" files st "nick2" Hrun) as (_ & _ & _ & _ & Hg).
  split; [rewrite Hm | rewrite Hg]; vm_compute; reflexivity.
Defined.

Lemma one_line_graph_sum (entropy : nat) (st st' : Main.t) (raw : string) :
  Main.one_line entropy st (Py.strip raw) = Ret st' ->
  graph_sum (Main.activity_graph st')
  = graph_sum (Main.activity_graph st)
    + match event_of raw with
      | Some m => if is_message m then 1 else 0
      | None => 0
      end.
Proof.
  intros Hone. unfold event_of, is_message.
  destruct (one_line_cases _ _ _ _ Hone)
    as [[-> ->] | [(m & -> & -> & _ & _ & ->)
                 | (m & graph' & cache' & -> & Htype & Hincr & _ & _ & _ & ->)]].
  - simpl. lia.
  - lia.
  - destruct (list_incr_spec _ _ _ Hincr) as (old & Hold & ->).
    rewrite (graph_sum_insert _ _ _ Hold).
    destruct (ChatMessage.line_type m); congruence.
Qed.

(** The sums of the counters and of the histogram after some lines. *)
Lemma feed_totals (lines : list (nat * string)) :
  forall st st',
    Main.feed st lines = Ret st' ->
    Counter.total (Main.user_messages st')
    = Counter.total (Main.user_messages st) + tally is_message lines
    /\ Counter.total (Main.user_actions st')
       = Counter.total (Main.user_actions st) + tally is_action lines
    /\ Counter.total (Main.user_question st')
       = Counter.total (Main.user_question st) + tally asks lines
    /\ Counter.total (Main.user_exclamation st')
       = Counter.total (Main.user_exclamation st) + tally exclaims lines
    /\ Counter.total (Main.user_givemodes st')
       = Counter.total (Main.user_givemodes st) + tally is_mode_change lines
    /\ graph_sum (Main.activity_graph st')
       = graph_sum (Main.activity_graph st) + tally is_message lines.
Proof.
  induction lines as [|[entropy raw] lines IH]; intros st st'.
  - simpl. intros H. injection H as <-. repeat split; lia.
  - cbn [Main.feed].
    destruct (Main.one_line entropy st (Py.strip raw)) as [st1|e] eqn:Hone;
      cbn [bind]; [|discriminate].
    intros Hfeed. destruct (IH _ _ Hfeed) as (Hm & Ha & Hq & He & Hg & Hs).
    rewrite Hm, Ha, Hq, He, Hg, Hs. clear IH Hfeed Hm Ha Hq He Hg Hs.
    rewrite (one_line_graph_sum _ _ _ _ Hone).
    pose proof (one_line_event _ _ _ _ Hone) as Hev.
    cbn [tally]. unfold asks, exclaims, is_mode_change.
    destruct (event_of raw) as [m|]; [|subst st1; cbn; repeat split; lia].
    cbv zeta in Hev. destruct Hev as (_ & _ & Hev).
    destruct (is_message m) eqn:Hmsg.
    + destruct Hev as (-> & -> & -> & -> & -> & _).
      destruct (is_action m), (Py.contains "?" (ChatMessage.text m)),
        (Py.contains "!" (ChatMessage.text m));
        rewrite ?counter_total_incr; cbn [andb negb]; repeat split; lia.
    + destruct Hev as (-> & -> & -> & -> & -> & _).
      assert (Hact : is_action m = false).
      { unfold is_action, is_message in *. destruct (ChatMessage.line_type m); congruence. }
      rewrite Hact, ?counter_total_incr. cbn [andb negb]. repeat split; lia.
Qed.

(* ===================================================================== *)
(** ** More on the report assembler *)
(* ===================================================================== *)

Lemma debug_all_eq (entries : list log_entry) :
  forall self,
    debug_all self entries
    = {| Main.channel_name := Main.channel_name self;
         Main.user_messages := Main.user_messages self;
         Main.user_question := Main.user_question self;
         Main.user_exclamation := Main.user_exclamation self;
         Main.user_actions := Main.user_actions self;
         Main.user_givemodes := Main.user_givemodes self;
         Main._cache_user_messages := Main._cache_user_messages self;
         Main.activity_graph := Main.activity_graph self;
         Main.url_count := Main.url_count self;
         Main.last_url_usage := Main.last_url_usage self;
         Main.stderr := (Main.stderr self ++ entries)%list |}.
Proof.
  unfold debug_all.
  induction entries as [|e entries IH]; intros self; cbn [fold_left].
  - rewrite app_nil_r. destruct self; reflexivity.
  - rewrite IH. cbn. rewrite <- app_assoc. reflexivity.
Qed.

Lemma most_active_loop_users (api_uid : string -> option Z) (top : list (string * Z)) :
  forall (self : Main.t) (acc : list User.t),
    (forall u n, In (u, n) top ->
       exists q, ReservoirSampler.get (Main._cache_user_messages self) u = Some q) ->
    exists users,
      Main.most_active_loop api_uid self top acc
      = Ret (debug_all self (map (fun x => FetchingProfile (fst x)) top),
             (acc ++ users)%list)
      /\ Forall2 (user_of api_uid (Main._cache_user_messages self)) users top.
Proof.
  induction top as [|[username message_count] top IH]; intros self acc Hquotes.
  - exists []. simpl. rewrite app_nil_r. split; [reflexivity | constructor].
  - destruct (Hquotes username message_count (or_introl eq_refl)) as (q & Hq).
    cbn [Main.most_active_loop].
    change (Main._cache_user_messages (Main.debug self (FetchingProfile username)))
      with (Main._cache_user_messages self).
    rewrite Hq.
    destruct (IH (Main.debug self (FetchingProfile username))
                 (acc ++ [{| User.user_id := api_uid username;
                             User.username := username;
                             User.message_count := message_count;
                             User.random_quote := Py.html_escape q |}])%list)
      as (users & Hloop & Husers).
    { intros u n Hin. apply (Hquotes u n). right. exact Hin. }
    eexists (_ :: users). rewrite Hloop. split.
    + simpl. rewrite <- app_assoc. reflexivity.
    + constructor; [|exact Husers].
      repeat split. exists q. split; [exact Hq | reflexivity].
Qed.

Lemma users_pairs (api_uid : string -> option Z) (cache : ReservoirSampler.t)
    (users : list User.t) (top : list (string * Z)) :
  Forall2 (user_of api_uid cache) users top ->
  map (fun user => (User.username user, User.message_count user)) users = top.
Proof.
  induction 1 as [|user [u n] users top (Hu & Hn & _) _ IH]; [reflexivity |].
  cbn [map]. rewrite IH, Hu, Hn. reflexivity.
Qed.

(** [save_page] on a state of a run that is not too large for the float
    division: it returns, and every field of what it returns is read off
    the state. *)
Lemma save_page_spec (api_uid : string -> option Z) (st : Main.t) :
  stats_inv st ->
  graph_sum (Main.activity_graph st) < Main.float_overflow_bound ->
  exists users st' rendered json,
    Forall2 (user_of api_uid (Main._cache_user_messages st)) users (top25 st)
    /\ Main.save_page api_uid st = Ret (st', rendered, json)
    /\ rendered
       = {| Rendered.name := Main.channel_name st;
            Rendered.most_active := users;
            Rendered.runner_ups := runner_ups_of st;
            Rendered.being :=
              {| Being.screaming := Counter.most_common_n 2 (Main.user_exclamation st);
                 Being.asking := Counter.most_common_n 2 (Main.user_question st);
                 Being.telling := Counter.most_common_n 2 (Main.user_actions st);
                 Being.modding := Counter.most_common_n 2 (Main.user_givemodes st) |};
            Rendered.urls_used := top10_urls_of st;
            Rendered.total :=
              [Counter.total (Main.user_question st);
               Counter.total (Main.user_exclamation st);
               Counter.total (Main.user_actions st);
               Counter.total (Main.user_givemodes st)];
            Rendered.activity_graph := Main.activity_graph st |}
    /\ json
       = {| Json.name := Main.channel_name st;
            Json.total_numbers := Rendered.total rendered;
            Json.most_active := top25 st;
            Json.runner_ups := runner_ups_of st;
            Json.being := Rendered.being rendered;
            Json.most_used_urls :=
              map (fun url => (Url.address url, Url.count url)) (top10_urls_of st);
            Json.activity_graph := Main.activity_graph st |}
    /\ st'
       = {| Main.channel_name := Main.channel_name st;
            Main.user_messages := Main.user_messages st;
            Main.user_question := Main.user_question st;
            Main.user_exclamation := Main.user_exclamation st;
            Main.user_actions := Main.user_actions st;
            Main.user_givemodes := Main.user_givemodes st;
            Main._cache_user_messages := Main._cache_user_messages st;
            Main.activity_graph := Main.activity_graph st;
            Main.url_count := Main.url_count st;
            Main.last_url_usage :=
              fst (Main.top_urls (Main.last_url_usage st)
                     (Counter.most_common_n 10 (Main.url_count st)));
            Main.stderr :=
              (Main.stderr st
               ++ map (fun x => FetchingProfile (fst x)) (top25 st)
               ++ [RenderingTemplate (Main.channel_name st)])%list |}.
Proof.
  intros Hinv Hsize.
  assert (Hbound : 0 <= graph_sum (Main.activity_graph st) < Main.float_overflow_bound).
  { split; [apply graph_sum_nonneg, (inv_counts st Hinv) | exact Hsize]. }
  destruct (most_active_loop_users api_uid (top25 st) st [] (top25_has_quotes st Hinv))
    as (users & Hloop & Husers).
  exists users.
  unfold Main.save_page, Main.save_page_div. cbv zeta.
  fold (top25 st). rewrite Hloop. cbn [bind fst snd app].
  rewrite debug_all_eq.
  cbn [Main.activity_graph Main.channel_name Main.user_messages Main.user_question
       Main.user_exclamation Main.user_actions Main.user_givemodes
       Main._cache_user_messages Main.url_count Main.last_url_usage Main.stderr].
  rewrite (graph_percentage_spec (240 # 1) _ (inv_buckets st Hinv) Hbound eq_refl).
  cbn [bind fst snd].
  eexists _, _, _. split; [exact Husers |]. split; [reflexivity |].
  split; [reflexivity |]. split.
  - rewrite (users_pairs _ _ _ _ Husers). reflexivity.
  - unfold Main.debug. cbn. rewrite <- app_assoc. reflexivity.
Qed.

Lemma tally_bounds (p : ChatMessage.t -> bool) (lines : list (nat * string)) :
  0 <= tally p lines <= Z.of_nat (List.length lines).
Proof.
  induction lines as [|[entropy raw] lines IH]; cbn [tally List.length]; [lia |].
  destruct (event_of raw) as [m|]; [destruct (p m) |]; lia.
Qed.

(** A finished run of ordinary size: its state satisfies the invariant
    and is small enough for [save_page]. *)
Lemma run_state (channel : string) (files : list (list (nat * string))) (st : Main.t) :
  Main.bulk_lines (Main.init channel) files = Ret st ->
  Z.of_nat (List.length (concat files)) < Main.float_overflow_bound ->
  stats_inv st
  /\ graph_sum (Main.activity_graph st) < Main.float_overflow_bound
  /\ exists st0,
       Main.feed (Main.init channel) (concat files) = Ret st0
       /\ st = Main.debug st0 (ParsedLogs (List.length files)).
Proof.
  intros Hrun Hsize.
  split; [apply (reachable_inv channel), bulk_lines_reachable with files, Hrun |].
  destruct (bulk_lines_feed _ _ _ Hrun) as (st0 & Hfeed & ->).
  split; [|exists st0; split; [exact Hfeed | reflexivity]].
  destruct (feed_totals _ _ _ Hfeed) as (_ & _ & _ & _ & _ & Hsum).
  cbn [Main.debug Main.activity_graph]. rewrite Hsum.
  change (graph_sum (Main.activity_graph (Main.init channel))) with 0.
  pose proof (tally_bounds is_message (concat files)). lia.
Qed.

(** X10. The four totals of the report are event counts of the run: the
    numbers of messages and actions whose body contains [?], of those
    whose body contains [!], of actions and of mode changes, in this
    order, the same in the template's arguments and in the JSON data. The
    buckets of the histogram add up to the number of messages and
    actions, which is also the sum of the authors' message counters. *)
Theorem report_totals_are_event_counts
    (channel : string) (files : list (list (nat * string))) (st : Main.t)
    (api_uid : string -> option Z) :
  Main.bulk_lines (Main.init channel) files = Ret st ->
  Z.of_nat (List.length (concat files)) < Main.float_overflow_bound ->
  exists st' rendered json,
    Main.save_page api_uid st = Ret (st', rendered, json)
    /\ Rendered.total rendered
       = [tally asks (concat files); tally exclaims (concat files);
          tally is_action (concat files); tally is_mode_change (concat files)]
    /\ Json.total_numbers json = Rendered.total rendered
    /\ graph_sum (Rendered.activity_graph rendered) = tally is_message (concat files)
    /\ Counter.total (Main.user_messages st) = tally is_message (concat files).
Proof.
  intros Hrun Hsize.
  destruct (run_state _ _ _ Hrun Hsize) as (Hinv & Hsum & st0 & Hfeed & Hst).
  destruct (save_page_spec api_uid st Hinv Hsum)
    as (users & st' & rendered & json & _ & Hsave & Hr & Hj & _).
  exists st', rendered, json. split; [exact Hsave |].
  destruct (feed_totals _ _ _ Hfeed) as (Hm & Ha & Hq & He & Hg & Hs).
  rewrite Hj, Hr, Hst.
  cbn [Rendered.total Json.total_numbers Rendered.activity_graph Main.debug
       Main.user_question Main.user_exclamation Main.user_actions Main.user_givemodes
       Main.user_messages Main.activity_graph].
  rewrite Hm, Ha, Hq, He, Hg, Hs.
  change (graph_sum (Main.activity_graph (Main.init channel))) with 0.
  cbn [Main.init Main.user_messages Main.user_question Main.user_exclamation
       Main.user_actions Main.user_givemodes Counter.empty Counter.total fold_right].
  repeat split; f_equal; lia.
Qed.

Lemma report_totals_are_event_counts_witness :
  exists st st' rendered json,
    Main.bulk_lines (Main.init "osu")
      [[(0%nat, "10:00:01 < nick1> hello? world!"); (1%nat, "10:15:00 * nick1 waves")];
       [(2%nat, "11:00:00 -!- mode/#c [+o nick2] by Bot")]]
    = Ret st
    /\ Main.save_page (fun _ => None) st = Ret (st', rendered, json)
    /\ Rendered.total rendered = [1; 1; 1; 1].
Proof.
  pose (files := [[(0%nat, "10:00:01 < nick1> hello? world!");
                   (1%nat, "10:15:00 * nick1 waves")];
                  [(2%nat, "11:00:00 -!- mode/#c [+o nick2] by Bot")]]).
  destruct (Main.bulk_lines (Main.init "osu") files) as [st|e] eqn:Hrun;
    [|vm_compute in Hrun; discriminate Hrun].
  assert (Hsize : Z.of_nat (List.length (concat files)) < Main.float_overflow_bound)
    by (vm_compute; reflexivity).
  destruct (report_totals_are_event_counts "osu" files st (fun _ => None) Hrun Hsize)
    as (st' & rendered & json & Hsave & Htotal & _).
  exists st, st', rendered, json.
  split; [exact Hrun |]. split; [exact Hsave |].
  rewrite Htotal. vm_compute. reflexivity.
Defined.

(** *** The ranking *)

Lemma insert_desc_perm (x : string * Z) (l : list (string * Z)) :
  Permutation (Counter.insert_desc x l) (x :: l).
Proof.
  induction l as [|y l IH]; cbn [Counter.insert_desc]; [reflexivity |].
  destruct (snd x <? snd y); [|reflexivity].
  rewrite IH. apply perm_swap.
Qed.

Lemma most_common_perm (c : Counter.t) : Permutation (Counter.most_common c) c.
Proof.
  unfold Counter.most_common. induction c as [|x c IH]; cbn [fold_right]; [reflexivity |].
  rewrite insert_desc_perm, IH. reflexivity.
Qed.

Lemma insert_desc_sorted (x : string * Z) (l : list (string * Z)) :
  StronglySorted count_ge l -> StronglySorted count_ge (Counter.insert_desc x l).
Proof.
  induction 1 as [|y l Hl IH Hy]; cbn [Counter.insert_desc].
  - repeat constructor.
  - destruct (Z.ltb_spec (snd x) (snd y)) as [Hlt|Hge].
    + constructor; [exact IH |].
      apply Forall_forall. intros z Hz.
      apply list_elem_of_In, insert_desc_in in Hz as [-> | Hz].
      * unfold count_ge. lia.
      * rewrite Forall_forall in Hy. apply Hy, list_elem_of_In, Hz.
    + constructor; [constructor; assumption |].
      constructor; [exact Hge |].
      eapply Forall_impl; [exact Hy |]. unfold count_ge. intros z Hz. lia.
Qed.

Lemma most_common_sorted (c : Counter.t) : StronglySorted count_ge (Counter.most_common c).
Proof.
  unfold Counter.most_common. induction c as [|x c IH]; cbn [fold_right].
  - constructor.
  - apply insert_desc_sorted, IH.
Qed.

Lemma insert_desc_stable (n : Z) (x : string * Z) (l : list (string * Z)) :
  List.filter (has_count n) (Counter.insert_desc x l)
  = List.filter (has_count n) (x :: l).
Proof.
  induction l as [|y l IH]; cbn [Counter.insert_desc]; [reflexivity |].
  destruct (Z.ltb_spec (snd x) (snd y)) as [Hlt|Hge]; [|reflexivity].
  cbn [List.filter] in *. rewrite IH. unfold has_count.
  destruct (Z.eqb_spec (snd x) n), (Z.eqb_spec (snd y) n); try reflexivity. lia.
Qed.

Lemma most_common_stable (n : Z) (c : Counter.t) :
  List.filter (has_count n) (Counter.most_common c) = List.filter (has_count n) c.
Proof.
  unfold Counter.most_common. induction c as [|x c IH]; cbn [fold_right]; [reflexivity |].
  rewrite insert_desc_stable. cbn [List.filter]. rewrite IH. reflexivity.
Qed.

(** *** The keys of a counter *)

Lemma counter_set_keys (c : Counter.t) (k : string) (v : Z) :
  map fst (Counter.set c k v)
  = if existsb (String.eqb k) (map fst c) then map fst c else (map fst c ++ [k])%list.
Proof.
  induction c as [|[k' n] c IH]; cbn [Counter.set map fst existsb]; [reflexivity |].
  destruct (String.eqb k k'); cbn [orb map fst]; [reflexivity |].
  rewrite IH. destruct (existsb (String.eqb k) (map fst c)); reflexivity.
Qed.

Lemma existsb_eqb_in (k : string) (l : list string) :
  existsb (String.eqb k) l = true <-> In k l.
Proof.
  rewrite existsb_exists. split.
  - intros (x & Hx & Heq). apply String.eqb_eq in Heq. subst x. exact Hx.
  - intros H. exists k. split; [exact H | apply String.eqb_refl].
Qed.

Lemma counter_set_nodup (c : Counter.t) (k : string) (v : Z) :
  List.NoDup (map fst c) -> List.NoDup (map fst (Counter.set c k v)).
Proof.
  intros H. rewrite counter_set_keys.
  destruct (existsb (String.eqb k) (map fst c)) eqn:Hk; [exact H |].
  apply List.NoDup_app; [exact H | repeat constructor; intros [] |].
  intros a Ha [<- | []].
  apply existsb_eqb_in in Ha. congruence.
Qed.

Lemma counter_get_in (c : Counter.t) (k : string) (n : Z) :
  List.NoDup (map fst c) -> In (k, n) c -> Counter.get c k = n.
Proof.
  induction c as [|[k' n'] c IH]; cbn [map fst Counter.get]; [contradiction |].
  intros Hnodup [Heq | Hin].
  - injection Heq as -> ->. rewrite String.eqb_refl. reflexivity.
  - apply List.NoDup_cons_iff in Hnodup as [Hk' Hnodup].
    destruct (String.eqb_spec k k') as [->|_]; [|apply IH; assumption].
    exfalso. apply Hk'. apply (in_map fst) in Hin. exact Hin.
Qed.

(** A counter is its keys, in order, each with its count. *)
Lemma counter_by_keys (c : Counter.t) :
  List.NoDup (map fst c) -> c = map (fun k => (k, Counter.get c k)) (map fst c).
Proof.
  intros Hnodup. rewrite map_map.
  rewrite <- (map_id c) at 1. apply map_ext_in.
  intros [k n] Hin. cbn [fst]. rewrite (counter_get_in c k n Hnodup Hin). reflexivity.
Qed.

Lemma count_urls_cons (u x : string) (urls : list string)
    (counts : Counter.t) (last : gmap string string) :
  Main.count_urls u (x :: urls) (counts, last)
  = Main.count_urls u urls (Counter.incr counts x, <[x := u]> last).
Proof. reflexivity. Qed.

Lemma count_urls_nodup (u : string) (urls : list string) :
  forall counts last,
    List.NoDup (map fst counts) ->
    List.NoDup (map fst (fst (Main.count_urls u urls (counts, last)))).
Proof.
  induction urls as [|x urls IH]; intros counts last H; [exact H |].
  rewrite count_urls_cons. apply IH. unfold Counter.incr. apply counter_set_nodup, H.
Qed.

(** The authors known to the message counter, and the keys of the two
    ranked counters, after some lines. *)
Lemma feed_keys (lines : list (nat * string)) :
  forall st st',
    Main.feed st lines = Ret st' ->
    map fst (Main.user_messages st')
    = first_seen_from (map fst (Main.user_messages st)) lines
    /\ (List.NoDup (map fst (Main.user_messages st)) ->
        List.NoDup (map fst (Main.user_messages st')))
    /\ (List.NoDup (map fst (Main.url_count st)) ->
        List.NoDup (map fst (Main.url_count st'))).
Proof.
  induction lines as [|[entropy raw] lines IH]; intros st st'.
  - simpl. intros H. injection H as <-. auto.
  - cbn [Main.feed first_seen_from].
    destruct (Main.one_line entropy st (Py.strip raw)) as [st1|e] eqn:Hone;
      cbn [bind]; [|discriminate].
    intros Hfeed. destruct (IH _ _ Hfeed) as (Hkeys & Hnd & Hndu).
    pose proof (one_line_event _ _ _ _ Hone) as Hev.
    destruct (event_of raw) as [m|].
    + cbv zeta in Hev. destruct Hev as (_ & _ & Hev).
      destruct (is_message m).
      * destruct Hev as (Hm & _ & _ & _ & _ & Hu & _).
        rewrite Hm in Hkeys, Hnd. rewrite Hu in Hndu.
        unfold Counter.incr in Hkeys. rewrite counter_set_keys in Hkeys.
        cbn [andb].
        split; [rewrite Hkeys; destruct (existsb _ _); reflexivity |].
        split; [intros H; apply Hnd; unfold Counter.incr; apply counter_set_nodup, H |].
        intros H. apply Hndu, count_urls_nodup, H.
      * destruct Hev as (Hm & _ & _ & _ & _ & Hu & _).
        rewrite Hm in Hkeys, Hnd. rewrite Hu in Hndu. cbn [andb]. auto.
    + subst st1. cbn [Main.debug Main.user_messages Main.url_count] in *. auto.
Qed.

(** X11. The ranking of the authors. After a run, the message counter
    lists the authors of the messages and actions in the order of their
    first one, each once, with the number of their messages and actions;
    the ranking of [save_page] holds the same entries in descending order
    of count, and authors with equal counts stay in the order of their
    first message. *)
Theorem ranking_is_a_stable_descending_sort
    (channel : string) (files : list (list (nat * string))) (st : Main.t) :
  Main.bulk_lines (Main.init channel) files = Ret st ->
  Main.user_messages st
  = map (fun u => (u, tally (fun m => is_message m && by_author u m) (concat files)))
        (first_seen (concat files))
  /\ List.NoDup (first_seen (concat files))
  /\ Permutation (ranking st) (Main.user_messages st)
  /\ StronglySorted count_ge (ranking st)
  /\ forall n,
       List.filter (has_count n) (ranking st)
       = List.filter (has_count n) (Main.user_messages st).
Proof.
  intros Hrun. destruct (bulk_lines_feed _ _ _ Hrun) as (st0 & Hfeed & ->).
  destruct (feed_keys _ _ _ Hfeed) as (Hkeys & Hnodup & _).
  specialize (Hnodup (List.NoDup_nil _)).
  change (map fst (Main.user_messages (Main.init channel))) with (@nil string) in Hkeys.
  fold (first_seen (concat files)) in Hkeys.
  change (Main.user_messages (Main.debug st0 _)) with (Main.user_messages st0).
  unfold ranking.
  change (Main.user_messages (Main.debug st0 _)) with (Main.user_messages st0).
  split.
  { rewrite (counter_by_keys _ Hnodup) at 1. rewrite Hkeys.
    apply map_ext. intros u.
    destruct (feed_tallies u _ _ _ Hfeed) as (-> & _). reflexivity. }
  split; [rewrite <- Hkeys; exact Hnodup |].
  split; [apply most_common_perm |].
  split; [apply most_common_sorted | intros n; apply most_common_stable].
Qed.

Lemma ranking_is_a_stable_descending_sort_witness :
  exists st,
    Main.bulk_lines (Main.init "osu")
      [[(0%nat, "10:00:01 < bob> hi"); (1%nat, "10:00:02 < amy> hi");
        (2%nat, "10:00:03 < cat> hi"); (3%nat, "10:00:04 < cat> again")]]
    = Ret st
    /\ Main.user_messages st = [("bob", 1); ("amy", 1); ("cat", 2)]
    /\ ranking st = [("cat", 2); ("bob", 1); ("amy", 1)].
Proof.
  pose (files := [[(0%nat, "10:00:01 < bob> hi"); (1%nat, "10:00:02 < amy> hi");
                   (2%nat, "10:00:03 < cat> hi"); (3%nat, "10:00:04 < cat> again")]]).
  destruct (Main.bulk_lines (Main.init "osu") files) as [st|e] eqn:Hrun;
    [|vm_compute in Hrun; discriminate Hrun].
  destruct (ranking_is_a_stable_descending_sort "osu" files st Hrun) as (Hm & _).
  exists st. split; [exact Hrun |].
  split; [rewrite Hm; vm_compute; reflexivity |].
  unfold ranking. rewrite Hm. vm_compute. reflexivity.
Defined.

(** *** The top 25 and the runners-up *)

Lemma slice_from_zero {A : Type} (n : nat) (l : list A) : Py.slice 0 n l = firstn n l.
Proof. unfold Py.slice. rewrite Nat.sub_0_r. reflexivity. Qed.

Lemma firstn_slice {A : Type} (a b : nat) (l : list A) :
  (a <= b)%nat -> (firstn a l ++ Py.slice a b l)%list = firstn b l.
Proof.
  unfold Py.slice. revert b l. induction a as [|a IH]; intros b l Hab.
  - rewrite Nat.sub_0_r. reflexivity.
  - destruct b as [|b]; [lia |]. destruct l as [|x l].
    + cbn [firstn skipn app]. destruct (S b - S a)%nat; reflexivity.
    + cbn [firstn skipn app]. rewrite <- (IH b l) by lia. reflexivity.
Qed.

Lemma firstn_min_length {A : Type} (n : nat) (l : list A) :
  firstn (Nat.min n (List.length l)) l = firstn n l.
Proof.
  destruct (Nat.le_ge_cases n (List.length l)) as [H | H].
  - rewrite Nat.min_l by exact H. reflexivity.
  - rewrite Nat.min_r by exact H. rewrite firstn_all, firstn_all2 by exact H. reflexivity.
Qed.

Lemma top25_runner_ups (st : Main.t) :
  (top25 st ++ runner_ups_of st)%list = firstn 35 (ranking st)
  /\ List.length (top25 st) = Nat.min 25 (List.length (ranking st))
  /\ List.length (runner_ups_of st)
     = (Nat.min 35 (List.length (ranking st)) - Nat.min 25 (List.length (ranking st)))%nat.
Proof.
  unfold top25, runner_ups_of. fold (ranking st). cbv zeta.
  rewrite slice_from_zero. split; [|split].
  - rewrite firstn_slice by lia. apply firstn_min_length.
  - rewrite length_firstn. lia.
  - unfold Py.slice. rewrite length_firstn, length_skipn. lia.
Qed.

Lemma sorted_app_order {A : Type} (R : A -> A -> Prop) (l1 l2 : list A) (a b : A) :
  StronglySorted R (l1 ++ l2)%list -> In a l1 -> In b l2 -> R a b.
Proof.
  induction l1 as [|x l1 IH]; [contradiction |].
  cbn [app]. intros Hs [-> | Ha] Hb.
  - apply StronglySorted_inv in Hs as [_ Hall].
    rewrite Forall_forall in Hall. apply Hall, list_elem_of_In, in_or_app. right. exact Hb.
  - apply StronglySorted_inv in Hs as [Hs _]. apply IH; assumption.
Qed.

Lemma sorted_firstn {A : Type} (R : A -> A -> Prop) (n : nat) (l : list A) :
  StronglySorted R l -> StronglySorted R (firstn n l).
Proof.
  revert l. induction n as [|n IH]; intros l Hs; [constructor |].
  destruct Hs as [|x l Hl Hx]; [constructor |].
  cbn [firstn]. constructor; [apply IH, Hl |].
  rewrite Forall_forall in *. intros y Hy. apply Hx.
  apply list_elem_of_In. apply list_elem_of_In in Hy.
  rewrite <- (firstn_skipn n l). apply in_or_app. left. exact Hy.
Qed.

Lemma nodup_firstn {A : Type} (n : nat) (l : list A) :
  List.NoDup l -> List.NoDup (firstn n l).
Proof.
  intros H. rewrite <- (firstn_skipn n l) in H.
  apply List.NoDup_app_remove_r in H. exact H.
Qed.

(** X12. The two lists of authors in the report. The most active authors
    followed by the runners-up are the first 35 entries of the ranking:
    the first 25, or all if there are fewer, are the most active, and the
    next 10 at most are the runners-up. No author is in both or twice in
    one, and no runner-up has more messages than a most active author. *)
Theorem most_active_and_runner_ups_split_the_top35
    (channel : string) (files : list (list (nat * string))) (st : Main.t)
    (api_uid : string -> option Z) :
  Main.bulk_lines (Main.init channel) files = Ret st ->
  Z.of_nat (List.length (concat files)) < Main.float_overflow_bound ->
  exists st' rendered json,
    Main.save_page api_uid st = Ret (st', rendered, json)
    /\ (Json.most_active json ++ Json.runner_ups json)%list = firstn 35 (ranking st)
    /\ map (fun user => (User.username user, User.message_count user))
         (Rendered.most_active rendered)
       = Json.most_active json
    /\ Rendered.runner_ups rendered = Json.runner_ups json
    /\ List.length (Json.most_active json) = Nat.min 25 (List.length (ranking st))
    /\ (List.length (Json.runner_ups json) <= 10)%nat
    /\ (List.length (ranking st) <= 25 -> Json.runner_ups json = [])%nat
    /\ List.NoDup (map fst (Json.most_active json ++ Json.runner_ups json)%list)
    /\ forall a b,
         In a (Json.most_active json) -> In b (Json.runner_ups json) -> snd b <= snd a.
Proof.
  intros Hrun Hsize.
  destruct (run_state _ _ _ Hrun Hsize) as (Hinv & Hsum & st0 & Hfeed & Hst).
  destruct (save_page_spec api_uid st Hinv Hsum)
    as (users & st' & rendered & json & Husers & Hsave & Hr & Hj & _).
  exists st', rendered, json. split; [exact Hsave |].
  destruct (top25_runner_ups st) as (Happ & Hlen25 & Hlen35).
  rewrite Hj, Hr. cbn [Json.most_active Json.runner_ups Rendered.most_active
                       Rendered.runner_ups].
  split; [exact Happ |].
  split; [apply (users_pairs _ _ _ _ Husers) |].
  split; [reflexivity |]. split; [exact Hlen25 |].
  split; [lia |].
  split.
  { intros Hle. destruct (runner_ups_of st) as [|x l]; [reflexivity |].
    cbn [List.length] in Hlen35. lia. }
  split.
  - rewrite Happ.
    assert (Hnodup : List.NoDup (map fst (ranking st))).
    { destruct (feed_keys _ _ _ Hfeed) as (_ & Hnodup & _).
      specialize (Hnodup (List.NoDup_nil _)).
      eapply Permutation_NoDup; [|exact Hnodup].
      apply Permutation_map. symmetry. unfold ranking. rewrite Hst.
      apply most_common_perm. }
    rewrite <- firstn_map. apply nodup_firstn, Hnodup.
  - intros a b Ha Hb.
    apply (sorted_app_order count_ge (top25 st) (runner_ups_of st)); [|exact Ha | exact Hb].
    rewrite Happ. apply sorted_firstn, most_common_sorted.
Qed.

Lemma most_active_and_runner_ups_split_the_top35_witness :
  exists st st' rendered json,
    Main.bulk_lines (Main.init "osu")
      [[(0%nat, "10:00:01 < bob> hi"); (1%nat, "10:00:02 < amy> hi");
        (2%nat, "10:00:03 < amy> again")]]
    = Ret st
    /\ Main.save_page (fun _ => None) st = Ret (st', rendered, json)
    /\ (Json.most_active json ++ Json.runner_ups json)%list = [("amy", 2); ("bob", 1)]
    /\ Json.runner_ups json = [].
Proof.
  pose (files := [[(0%nat, "10:00:01 < bob> hi"); (1%nat, "10:00:02 < amy> hi");
                   (2%nat, "10:00:03 < amy> again")]]).
  destruct (Main.bulk_lines (Main.init "osu") files) as [st|e] eqn:Hrun;
    [|vm_compute in Hrun; discriminate Hrun].
  assert (Hsize : Z.of_nat (List.length (concat files)) < Main.float_overflow_bound)
    by (vm_compute; reflexivity).
  destruct (most_active_and_runner_ups_split_the_top35 "osu" files st (fun _ => None)
              Hrun Hsize)
    as (st' & rendered & json & Hsave & Happ & _ & _ & _ & _ & Hnone & _).
  exists st, st', rendered, json.
  split; [exact Hrun |]. split; [exact Hsave |].
  assert (Hst : st = match Main.bulk_lines (Main.init "osu") files with
                     | Ret s => s | Raise _ => st end)
    by (rewrite Hrun; reflexivity).
  split.
  - rewrite Happ, Hst. vm_compute. reflexivity.
  - apply Hnone. rewrite Hst. vm_compute. lia.
Defined.

(** *** The quotes of the report *)

Lemma one_line_cache (entropy : nat) (st st' : Main.t) (raw : string) :
  Main.one_line entropy st (Py.strip raw) = Ret st' ->
  consider_all (Main._cache_user_messages st) (sampler_calls [(entropy, raw)])
  = Ret (Main._cache_user_messages st').
Proof.
  unfold Main.one_line, sampler_calls, event_of, is_message. cbv zeta.
  destruct (ChatMessage.parse (Py.strip raw)) as [[m|]|e]; cbn [bind]; [| |discriminate].
  - destruct (ChatMessage.line_type m).
    1, 2:
      destruct (Main.list_incr _ _) as [graph'|e]; cbn [bind]; [|discriminate];
      cbn [app consider_all];
      destruct (ReservoirSampler.consider _ _ _ _) as [cache'|e]; cbn [bind];
        [|discriminate];
      intros H; injection H as <-; reflexivity.
    intros H. injection H as <-. reflexivity.
  - intros H. injection H as <-. reflexivity.
Qed.

Lemma consider_all_app (calls1 calls2 : list (nat * string * string)) :
  forall s,
    consider_all s (calls1 ++ calls2)%list
    = let* s' := consider_all s calls1 in consider_all s' calls2.
Proof.
  induction calls1 as [|[[entropy k] v] calls1 IH]; intros s; [reflexivity |].
  cbn [app consider_all].
  destruct (ReservoirSampler.consider entropy s k v) as [s1|e]; cbn [bind]; [apply IH |].
  reflexivity.
Qed.

Lemma sampler_calls_cons (entropy : nat) (raw : string) (lines : list (nat * string)) :
  sampler_calls ((entropy, raw) :: lines)
  = (sampler_calls [(entropy, raw)] ++ sampler_calls lines)%list.
Proof. cbn [sampler_calls]. rewrite app_nil_r. reflexivity. Qed.

Lemma feed_cache (lines : list (nat * string)) :
  forall st st',
    Main.feed st lines = Ret st' ->
    consider_all (Main._cache_user_messages st) (sampler_calls lines)
    = Ret (Main._cache_user_messages st').
Proof.
  induction lines as [|[entropy raw] lines IH]; intros st st'.
  - simpl. intros H. injection H as <-. reflexivity.
  - cbn [Main.feed].
    destruct (Main.one_line entropy st (Py.strip raw)) as [st1|e] eqn:Hone;
      cbn [bind]; [|discriminate].
    intros Hfeed.
    rewrite sampler_calls_cons, consider_all_app, (one_line_cache _ _ _ _ Hone).
    cbn [bind]. apply IH, Hfeed.
Qed.

Lemma observed_app (k : string) (calls1 calls2 : list (nat * string * string)) :
  observed k (calls1 ++ calls2)%list = (observed k calls1 ++ observed k calls2)%list.
Proof.
  induction calls1 as [|[[entropy k'] v] calls1 IH]; [reflexivity |].
  cbn [app observed]. destruct (String.eqb k' k); rewrite IH; reflexivity.
Qed.

Lemma observed_sampler_calls (u v : string) (lines : list (nat * string)) :
  In v (observed u (sampler_calls lines)) ->
  exists entropy raw m,
    In (entropy, raw) lines
    /\ event_of raw = Some m
    /\ is_message m = true
    /\ ChatMessage.username m = u
    /\ ChatMessage.text m = v.
Proof.
  induction lines as [|[entropy raw] lines IH]; [contradiction |].
  cbn [sampler_calls]. rewrite observed_app. intros Hin.
  apply in_app_or in Hin as [Hin | Hin].
  - destruct (event_of raw) as [m|] eqn:Hev; [|contradiction].
    destruct (is_message m) eqn:Hmsg; [|contradiction].
    cbn [observed] in Hin.
    destruct (String.eqb_spec (ChatMessage.username m) u) as [Hu|]; [|contradiction].
    destruct Hin as [<- | []].
    exists entropy, raw, m. repeat split; try assumption. left. reflexivity.
  - destruct (IH Hin) as (entropy' & raw' & m & Hl & H).
    exists entropy', raw', m. split; [right; exact Hl | exact H].
Qed.

Lemma html_escape_safe (s : string) : html_safe (Py.html_escape s) = true.
Proof.
  unfold html_safe. induction s as [|c s IH]; [reflexivity |].
  cbn [Py.html_escape]. rewrite all_chars_app, IH, andb_true_r.
  destruct c as [[] [] [] [] [] [] [] []]; vm_compute; reflexivity.
Qed.

(** The quote held for an author after some lines on a new state is the
    body of one of that author's messages or actions among the lines. *)
Lemma held_quote_origin (channel : string) (lines : list (nat * string)) (st : Main.t)
    (u q : string) :
  Main.feed (Main.init channel) lines = Ret st ->
  ReservoirSampler.get (Main._cache_user_messages st) u = Some q ->
  exists entropy raw m,
    In (entropy, raw) lines
    /\ event_of raw = Some m
    /\ is_message m = true
    /\ ChatMessage.username m = u
    /\ ChatMessage.text m = q.
Proof.
  intros Hfeed Hget. apply feed_cache in Hfeed.
  change (Main._cache_user_messages (Main.init channel)) with ReservoirSampler.init in Hfeed.
  destruct (consider_all_spec (sampler_calls lines) u ReservoirSampler.init sampler_wf_init)
    as (s' & Hrun & _ & Hnone & Hsome & _).
  rewrite Hfeed in Hrun. injection Hrun as <-.
  destruct (observed u (sampler_calls lines)) as [|w ws] eqn:Hobs.
  - rewrite (Hnone eq_refl) in Hget. discriminate Hget.
  - destruct Hsome as (v & Hv & [Hin | Hinit]); [discriminate | | discriminate Hinit].
    rewrite Hv in Hget. injection Hget as <-.
    apply observed_sampler_calls. rewrite Hobs. exact Hin.
Qed.

Lemma Forall2_in_l {A B : Type} (P : A -> B -> Prop) (l : list A) (l' : list B) (x : A) :
  Forall2 P l l' -> In x l -> exists y, In y l' /\ P x y.
Proof.
  induction 1 as [|a b l l' Hab _ IH]; [contradiction |].
  intros [<- | Hin].
  - exists b. split; [left; reflexivity | exact Hab].
  - destruct (IH Hin) as (y & Hy & Hxy). exists y. split; [right; exact Hy | exact Hxy].
Qed.

(** X13. The quotes of the report. The quote shown for each of the most
    active authors is the HTML-escaped body of one of that author's own
    messages or actions of the run, and it contains none of the
    characters [<], [>] and the two quotation marks. *)
Theorem quotes_are_escaped_messages_of_their_author
    (channel : string) (files : list (list (nat * string))) (st : Main.t)
    (api_uid : string -> option Z) :
  Main.bulk_lines (Main.init channel) files = Ret st ->
  Z.of_nat (List.length (concat files)) < Main.float_overflow_bound ->
  exists st' rendered json,
    Main.save_page api_uid st = Ret (st', rendered, json)
    /\ Forall
         (fun user =>
            html_safe (User.random_quote user) = true
            /\ User.user_id user = api_uid (User.username user)
            /\ exists entropy raw m,
                 In (entropy, raw) (concat files)
                 /\ event_of raw = Some m
                 /\ is_message m = true
                 /\ ChatMessage.username m = User.username user
                 /\ User.random_quote user = Py.html_escape (ChatMessage.text m))
         (Rendered.most_active rendered).
Proof.
  intros Hrun Hsize.
  destruct (run_state _ _ _ Hrun Hsize) as (Hinv & Hsum & st0 & Hfeed & Hst).
  destruct (save_page_spec api_uid st Hinv Hsum)
    as (users & st' & rendered & json & Husers & Hsave & Hr & _).
  exists st', rendered, json. split; [exact Hsave |].
  rewrite Hr. cbn [Rendered.most_active].
  apply List.Forall_forall. intros user Hin.
  destruct (Forall2_in_l _ _ _ _ Husers Hin) as (kv & _ & Hu & _ & Hid & q & Hq & Hquote).
  split; [rewrite Hquote; apply html_escape_safe |].
  split; [rewrite Hu; exact Hid |].
  rewrite Hst in Hq. cbn [Main.debug Main._cache_user_messages] in Hq.
  destruct (held_quote_origin _ _ _ _ _ Hfeed Hq)
    as (entropy & raw & m & Hl & Hev & Hmsg & Hm & Ht).
  exists entropy, raw, m. rewrite Hu, Hquote, Ht. auto.
Qed.

Lemma quotes_are_escaped_messages_of_their_author_witness :
  exists st st' rendered json,
    Main.bulk_lines (Main.init "osu")
      [[(0%nat, "10:00:01 < bob> <b>hi</b>")]]
    = Ret st
    /\ Main.save_page (fun _ => Some 7) st = Ret (st', rendered, json)
    /\ map User.random_quote (Rendered.most_active rendered) = ["&lt;b&gt;hi&lt;/b&gt;"].
Proof.
  pose (files := [[(0%nat, "10:00:01 < bob> <b>hi</b>")]]).
  destruct (Main.bulk_lines (Main.init "osu") files) as [st|e] eqn:Hrun;
    [|vm_compute in Hrun; discriminate Hrun].
  assert (Hsize : Z.of_nat (List.length (concat files)) < Main.float_overflow_bound)
    by (vm_compute; reflexivity).
  destruct (quotes_are_escaped_messages_of_their_author "osu" files st (fun _ => Some 7)
              Hrun Hsize)
    as (st' & rendered & json & Hsave & _).
  exists st, st', rendered, json.
  split; [exact Hrun |]. split; [exact Hsave |].
  assert (Hst : st = match Main.bulk_lines (Main.init "osu") files with
                     | Ret s => s | Raise _ => st end)
    by (rewrite Hrun; reflexivity).
  rewrite Hst in Hsave. vm_compute in Hsave. injection Hsave as _ <- _.
  reflexivity.
Defined.

(** *** The URL statistics *)

Lemma count_urls_last (u : string) (urls : list string) :
  forall (counts : Counter.t) (last : gmap string string) (url : string),
    snd (Main.count_urls u urls (counts, last)) !! url
    = if existsb (String.eqb url) urls then Some u else last !! url.
Proof.
  induction urls as [|x urls IH]; intros counts last url; [reflexivity |].
  rewrite count_urls_cons, IH. cbn [existsb].
  destruct (String.eqb_spec url x) as [->|Hne]; cbn [orb].
  - rewrite lookup_insert_eq. destruct (existsb _ _); reflexivity.
  - rewrite lookup_insert_ne by congruence. reflexivity.
Qed.

Lemma count_urls_known (u : string) (urls : list string) :
  forall (counts : Counter.t) (last : gmap string string),
    urls_known counts last ->
    urls_known (fst (Main.count_urls u urls (counts, last)))
               (snd (Main.count_urls u urls (counts, last))).
Proof.
  induction urls as [|x urls IH]; intros counts last Hknown; [exact Hknown |].
  rewrite count_urls_cons. apply IH. intros url Hin.
  unfold Counter.incr in Hin. rewrite counter_set_keys in Hin.
  destruct (decide (url = x)) as [->|Hne].
  - rewrite lookup_insert_eq. eexists. reflexivity.
  - rewrite lookup_insert_ne by congruence. apply Hknown.
    destruct (existsb (String.eqb x) (map fst counts)); [exact Hin |].
    apply in_app_or in Hin as [Hin | [Heq | []]]; [exact Hin | congruence].
Qed.

(** The two URL maps after some lines. *)
Lemma feed_urls (lines : list (nat * string)) :
  forall st st',
    Main.feed st lines = Ret st' ->
    (forall url,
       Counter.get (Main.url_count st') url
       = Counter.get (Main.url_count st) url + url_occurrences url lines)
    /\ (forall url,
          Main.last_url_usage st' !! url
          = last_poster url (Main.last_url_usage st !! url) lines)
    /\ (urls_known (Main.url_count st) (Main.last_url_usage st) ->
        urls_known (Main.url_count st') (Main.last_url_usage st')).
Proof.
  induction lines as [|[entropy raw] lines IH]; intros st st'.
  - simpl. intros H. injection H as <-. repeat split; auto. intros url. lia.
  - cbn [Main.feed url_occurrences last_poster].
    destruct (Main.one_line entropy st (Py.strip raw)) as [st1|e] eqn:Hone;
      cbn [bind]; [|discriminate].
    intros Hfeed. destruct (IH _ _ Hfeed) as (Hcount & Hlast & Hknown).
    pose proof (one_line_event _ _ _ _ Hone) as Hev.
    destruct (event_of raw) as [m|].
    + cbv zeta in Hev. destruct Hev as (_ & _ & Hev).
      destruct (is_message m).
      * destruct Hev as (_ & _ & _ & _ & _ & Hu & Hl).
        split; [|split].
        -- intros url. rewrite Hcount, Hu, count_urls_counts. lia.
        -- intros url. rewrite Hlast, Hl, count_urls_last. cbn [andb]. reflexivity.
        -- intros H. apply Hknown. rewrite Hu, Hl. apply count_urls_known, H.
      * destruct Hev as (_ & _ & _ & _ & _ & Hu & Hl & _).
        rewrite Hu, Hl in *. cbn [andb].
        split; [intros url; rewrite Hcount; lia |]. split; [exact Hlast | exact Hknown].
    + subst st1. cbn [Main.debug Main.url_count Main.last_url_usage] in *.
      split; [intros url; rewrite Hcount; lia |]. split; [exact Hlast | exact Hknown].
Qed.

Lemma url_occurrences_nonneg (url : string) (lines : list (nat * string)) :
  0 <= url_occurrences url lines.
Proof.
  induction lines as [|[entropy raw] lines IH]; cbn [url_occurrences]; [lia |].
  destruct (event_of raw) as [m|]; [destruct (is_message m) |]; lia.
Qed.

Lemma existsb_count_occ (url : string) (urls : list string) :
  existsb (String.eqb url) urls = true ->
  (0 < count_occ string_dec urls url)%nat.
Proof. intros H. apply count_occ_In, existsb_eqb_in, H. Qed.

(** A URL has a last poster exactly when it occurs. *)
Lemma last_poster_occurs (url : string) (lines : list (nat * string)) :
  forall acc,
    (is_Some (last_poster url acc lines) <->
     is_Some acc \/ 0 < url_occurrences url lines).
Proof.
  induction lines as [|[entropy raw] lines IH]; intros acc;
    cbn [last_poster url_occurrences].
  - split; [auto | intros [H | H]; [exact H | lia]].
  - rewrite IH. pose proof (url_occurrences_nonneg url lines) as Hpos.
    destruct (event_of raw) as [m|]; [|split; intros [H | H]; auto; right; lia].
    destruct (is_message m); cbn [andb];
      [|split; intros [H | H]; auto; right; lia].
    destruct (existsb (String.eqb url) (ChatMessage.parse_urls m)) eqn:Hex.
    + apply existsb_count_occ in Hex. split; intros _; [right; lia |].
      left. eexists. reflexivity.
    + assert (Hzero : count_occ string_dec (ChatMessage.parse_urls m) url = 0%nat).
      { apply count_occ_not_In. intros Hin. apply existsb_eqb_in in Hin. congruence. }
      rewrite Hzero. split; intros [H | H]; auto; right; lia.
Qed.

Lemma counter_get_key (c : Counter.t) (k : string) :
  Counter.get c k <> 0 -> In (k, Counter.get c k) c.
Proof.
  induction c as [|[k' n] c IH]; cbn [Counter.get]; [congruence |].
  destruct (String.eqb_spec k k') as [->|_]; [left; reflexivity |].
  intros H. right. apply IH, H.
Qed.

(** The URL maps of a finished run. *)
Lemma run_urls (channel : string) (files : list (list (nat * string))) (st : Main.t) :
  Main.bulk_lines (Main.init channel) files = Ret st ->
  (forall url,
     Counter.get (Main.url_count st) url = url_occurrences url (concat files))
  /\ (forall url,
        Main.last_url_usage st !! url = last_poster url None (concat files))
  /\ urls_known (Main.url_count st) (Main.last_url_usage st)
  /\ List.NoDup (map fst (Main.url_count st)).
Proof.
  intros Hrun. destruct (bulk_lines_feed _ _ _ Hrun) as (st0 & Hfeed & ->).
  cbn [Main.debug Main.url_count Main.last_url_usage].
  destruct (feed_urls _ _ _ Hfeed) as (Hcount & Hlast & Hknown).
  destruct (feed_keys _ _ _ Hfeed) as (_ & _ & Hnodup).
  split; [intros url; rewrite Hcount; reflexivity |].
  split; [intros url; rewrite Hlast; reflexivity |].
  split; [apply Hknown; intros url [] | apply Hnodup, List.NoDup_nil].
Qed.

(** X14. The URL statistics are tallies of the events. After a run, the
    counter of a URL is the number of its occurrences in the bodies of the
    messages and actions, the last poster recorded for it is the author of
    the last message or action it occurs in, and a URL has a counter, and
    a last poster, exactly when it occurs at least once. *)
Theorem url_statistics_are_tallies
    (channel : string) (files : list (list (nat * string))) (st : Main.t) (url : string) :
  Main.bulk_lines (Main.init channel) files = Ret st ->
  Counter.get (Main.url_count st) url = url_occurrences url (concat files)
  /\ Main.last_url_usage st !! url = last_poster url None (concat files)
  /\ (In url (map fst (Main.url_count st)) <-> 0 < url_occurrences url (concat files))
  /\ (is_Some (Main.last_url_usage st !! url) <-> 0 < url_occurrences url (concat files)).
Proof.
  intros Hrun. destruct (run_urls _ _ _ Hrun) as (Hcount & Hlast & Hknown & _).
  assert (Hsome : is_Some (Main.last_url_usage st !! url)
                  <-> 0 < url_occurrences url (concat files)).
  { rewrite Hlast, last_poster_occurs. split; [|auto].
    intros [[x Hx] | H]; [discriminate Hx | exact H]. }
  split; [apply Hcount |]. split; [apply Hlast |]. split; [|exact Hsome].
  split.
  - intros Hin. apply Hsome, Hknown, Hin.
  - intros Hpos. rewrite <- Hcount in Hpos.
    apply (in_map fst) with (x := (url, Counter.get (Main.url_count st) url)).
    apply counter_get_key. lia.
Qed.

Lemma url_statistics_are_tallies_witness :
  exists st,
    Main.bulk_lines (Main.init "osu")
      [[(0%nat, "10:00:01 < bob> see http://a.b http://a.b");
        (1%nat, "10:00:02 * amy likes http://a.b")]]
    = Ret st
    /\ Counter.get (Main.url_count st) "http://a.b" = 3
    /\ Main.last_url_usage st !! "http://a.b" = Some "amy".
Proof.
  pose (files := [[(0%nat, "10:00:01 < bob> see http://a.b http://a.b");
                   (1%nat, "10:00:02 * amy likes http://a.b")]]).
  destruct (Main.bulk_lines (Main.init "osu") files) as [st|e] eqn:Hrun;
    [|vm_compute in Hrun; discriminate Hrun].
  destruct (url_statistics_are_tallies "osu" files st "http://a.b" Hrun)
    as (Hcount & Hlast & _).
  exists st. split; [exact Hrun |].
  split; [rewrite Hcount | rewrite Hlast]; vm_compute; reflexivity.
Defined.

Lemma top_urls_known (items : list (string * Z)) (m : gmap string string) :
  (forall item, In item items -> is_Some (m !! fst item)) ->
  Main.top_urls m items = (m, map (url_entry m) items).
Proof.
  induction items as [|item items IH]; intros Hknown; [reflexivity |].
  cbn [Main.top_urls map]. unfold Main.last_url_lookup.
  destruct (Hknown item (or_introl eq_refl)) as (who & Hwho).
  rewrite Hwho. rewrite IH by (intros x Hx; apply Hknown; right; exact Hx).
  unfold url_entry at 2. rewrite Hwho. reflexivity.
Qed.

(** The reported URLs of a finished run, and the map of the last posters
    that [save_page] leaves. *)
Lemma run_top_urls (channel : string) (files : list (list (nat * string))) (st : Main.t) :
  Main.bulk_lines (Main.init channel) files = Ret st ->
  Main.top_urls (Main.last_url_usage st) (Counter.most_common_n 10 (Main.url_count st))
  = (Main.last_url_usage st,
     map (url_entry (Main.last_url_usage st))
         (Counter.most_common_n 10 (Main.url_count st))).
Proof.
  intros Hrun. destruct (run_urls _ _ _ Hrun) as (_ & _ & Hknown & _).
  apply top_urls_known. intros item Hin. apply Hknown, in_map.
  apply most_common_in. unfold Counter.most_common_n in Hin.
  rewrite <- (firstn_skipn 10 (Counter.most_common (Main.url_count st))).
  apply in_or_app. left. exact Hin.
Qed.

Lemma url_entry_pairs (last : gmap string string) (items : list (string * Z)) :
  map (fun url => (Url.address url, Url.count url)) (map (url_entry last) items) = items.
Proof.
  rewrite map_map. rewrite <- (map_id items) at 2. apply map_ext.
  intros [k n]. reflexivity.
Qed.

Lemma most_common_n_in (n : nat) (c : Counter.t) (item : string * Z) :
  In item (Counter.most_common_n n c) -> In item c.
Proof.
  intros Hin. apply most_common_in. unfold Counter.most_common_n in Hin.
  rewrite <- (firstn_skipn n (Counter.most_common c)).
  apply in_or_app. left. exact Hin.
Qed.

(** X15. The URLs of the report. They are the first ten entries, or all
    if there are fewer, of the URL counter in descending order of count,
    no address twice, the same in the template's arguments and in the
    JSON data. Each is shown with the number of its occurrences in the
    run, which is positive, and with the author of the last message or
    action it occurs in. A URL that occurs in the run and is not shown
    occurs no more often than any of the ten that are. *)
Theorem reported_urls_are_the_most_used
    (channel : string) (files : list (list (nat * string))) (st : Main.t)
    (api_uid : string -> option Z) :
  Main.bulk_lines (Main.init channel) files = Ret st ->
  Z.of_nat (List.length (concat files)) < Main.float_overflow_bound ->
  exists st' rendered json,
    Main.save_page api_uid st = Ret (st', rendered, json)
    /\ Json.most_used_urls json = Counter.most_common_n 10 (Main.url_count st)
    /\ map (fun url => (Url.address url, Url.count url)) (Rendered.urls_used rendered)
       = Json.most_used_urls json
    /\ (List.length (Json.most_used_urls json) <= 10)%nat
    /\ List.NoDup (map fst (Json.most_used_urls json))
    /\ StronglySorted count_ge (Json.most_used_urls json)
    /\ Forall
         (fun entry =>
            Url.count entry = url_occurrences (Url.address entry) (concat files)
            /\ 0 < Url.count entry
            /\ last_poster (Url.address entry) None (concat files)
               = Some (Url.last_used_username entry))
         (Rendered.urls_used rendered)
    /\ forall url,
         0 < url_occurrences url (concat files) ->
         In (url, url_occurrences url (concat files)) (Json.most_used_urls json)
         \/ (List.length (Json.most_used_urls json) = 10%nat
             /\ forall item,
                  In item (Json.most_used_urls json) ->
                  url_occurrences url (concat files) <= snd item).
Proof.
  intros Hrun Hsize.
  destruct (run_state _ _ _ Hrun Hsize) as (Hinv & Hsum & _).
  destruct (save_page_spec api_uid st Hinv Hsum)
    as (users & st' & rendered & json & _ & Hsave & Hr & Hj & _).
  exists st', rendered, json. split; [exact Hsave |].
  destruct (run_urls _ _ _ Hrun) as (Hcount & Hlast & Hknown & Hnodup).
  assert (Hurls : top10_urls_of st
                  = map (url_entry (Main.last_url_usage st))
                        (Counter.most_common_n 10 (Main.url_count st))).
  { unfold top10_urls_of. rewrite (run_top_urls _ _ _ Hrun). reflexivity. }
  rewrite Hj, Hr. cbn [Json.most_used_urls Rendered.urls_used].
  rewrite Hurls, url_entry_pairs.
  pose proof (most_common_perm (Main.url_count st)) as Hperm.
  pose proof (most_common_sorted (Main.url_count st)) as Hsorted.
  unfold Counter.most_common_n.
  split; [reflexivity |]. split; [reflexivity |].
  split; [rewrite length_firstn; lia |].
  split.
  { rewrite <- firstn_map. apply nodup_firstn.
    eapply Permutation_NoDup; [|exact Hnodup].
    apply Permutation_map. symmetry. exact Hperm. }
  split; [apply sorted_firstn, Hsorted |].
  split.
  - apply List.Forall_forall. intros entry Hin.
    apply in_map_iff in Hin as ([url n] & <- & Hin).
    apply (most_common_n_in 10) in Hin.
    cbn [url_entry Url.address Url.count Url.last_used_username fst snd].
    assert (Hn : n = url_occurrences url (concat files)).
    { rewrite <- Hcount. symmetry. apply counter_get_in; assumption. }
    destruct (Hknown url) as (who & Hwho); [apply (in_map fst) in Hin; exact Hin |].
    rewrite Hwho. cbn [default]. rewrite <- Hlast.
    split; [exact Hn |]. split; [|exact Hwho].
    rewrite Hn.
    destruct (proj1 (last_poster_occurs url (concat files) None)) as [[x Hx] | Hpos];
      [rewrite <- Hlast, Hwho; eexists; reflexivity | discriminate Hx | exact Hpos].
  - intros url Hpos.
    assert (Hin : In (url, url_occurrences url (concat files))
                     (Counter.most_common (Main.url_count st))).
    { apply Permutation_in with (l := Main.url_count st); [symmetry; exact Hperm |].
      rewrite <- Hcount. apply counter_get_key. rewrite Hcount. lia. }
    rewrite <- (firstn_skipn 10 (Counter.most_common (Main.url_count st))) in Hin, Hsorted.
    apply in_app_or in Hin as [Hin | Hin]; [left; exact Hin | right].
    split.
    + rewrite length_firstn.
      destruct (Nat.le_gt_cases 10 (List.length (Counter.most_common (Main.url_count st))))
        as [Hle | Hlt]; [lia |].
      rewrite skipn_all2 in Hin by lia. contradiction.
    + intros item Hitem.
      apply (sorted_app_order count_ge _ _ item _ Hsorted Hitem Hin).
Qed.

Lemma reported_urls_are_the_most_used_witness :
  exists st st' rendered json,
    Main.bulk_lines (Main.init "osu")
      [[(0%nat, "10:00:01 < bob> see http://a.b http://c.d");
        (1%nat, "10:00:02 * amy likes http://c.d")]]
    = Ret st
    /\ Main.save_page (fun _ => None) st = Ret (st', rendered, json)
    /\ Json.most_used_urls json = [("http://c.d", 2); ("http://a.b", 1)].
Proof.
  pose (files := [[(0%nat, "10:00:01 < bob> see http://a.b http://c.d");
                   (1%nat, "10:00:02 * amy likes http://c.d")]]).
  destruct (Main.bulk_lines (Main.init "osu") files) as [st|e] eqn:Hrun;
    [|vm_compute in Hrun; discriminate Hrun].
  assert (Hsize : Z.of_nat (List.length (concat files)) < Main.float_overflow_bound)
    by (vm_compute; reflexivity).
  destruct (reported_urls_are_the_most_used "osu" files st (fun _ => None) Hrun Hsize)
    as (st' & rendered & json & Hsave & Hurls & _).
  exists st, st', rendered, json.
  split; [exact Hrun |]. split; [exact Hsave |].
  assert (Hst : st = match Main.bulk_lines (Main.init "osu") files with
                     | Ret s => s | Raise _ => st end)
    by (rewrite Hrun; reflexivity).
  rewrite Hurls, Hst. vm_compute. reflexivity.
Defined.

(** *** What [save_page] changes *)

Lemma stats_inv_debug_all (entries : list log_entry) :
  forall st, stats_inv st -> stats_inv (debug_all st entries).
Proof.
  unfold debug_all. induction entries as [|e entries IH]; intros st Hinv; [exact Hinv |].
  cbn [fold_left]. apply IH, stats_inv_debug, Hinv.
Qed.

(** [save_page] on a state of a run with more in its log: what it
    returns is read off the state without the log, so it is what
    [save_page] returns on the state itself but for the answers of the
    lookup. *)
Lemma save_page_after_log (api_uid : string -> option Z) (st : Main.t)
    (entries : list log_entry) :
  stats_inv st ->
  graph_sum (Main.activity_graph st) < Main.float_overflow_bound ->
  Main.top_urls (Main.last_url_usage st) (Counter.most_common_n 10 (Main.url_count st))
  = (Main.last_url_usage st,
     map (url_entry (Main.last_url_usage st))
         (Counter.most_common_n 10 (Main.url_count st))) ->
  exists users st' rendered json,
    Forall2 (user_of api_uid (Main._cache_user_messages st)) users (top25 st)
    /\ Main.save_page api_uid (debug_all st entries) = Ret (st', rendered, json)
    /\ st' = debug_all st (entries ++ save_page_log st)
    /\ same_statistics st' st
    /\ Rendered.most_active rendered = users
    /\ Rendered.name rendered = Main.channel_name st
    /\ Rendered.runner_ups rendered = runner_ups_of st
    /\ Rendered.being rendered
       = {| Being.screaming := Counter.most_common_n 2 (Main.user_exclamation st);
            Being.asking := Counter.most_common_n 2 (Main.user_question st);
            Being.telling := Counter.most_common_n 2 (Main.user_actions st);
            Being.modding := Counter.most_common_n 2 (Main.user_givemodes st) |}
    /\ Rendered.urls_used rendered = top10_urls_of st
    /\ Rendered.total rendered
       = [Counter.total (Main.user_question st);
          Counter.total (Main.user_exclamation st);
          Counter.total (Main.user_actions st);
          Counter.total (Main.user_givemodes st)]
    /\ Rendered.activity_graph rendered = Main.activity_graph st
    /\ json
       = {| Json.name := Main.channel_name st;
            Json.total_numbers := Rendered.total rendered;
            Json.most_active := top25 st;
            Json.runner_ups := runner_ups_of st;
            Json.being := Rendered.being rendered;
            Json.most_used_urls :=
              map (fun url => (Url.address url, Url.count url)) (top10_urls_of st);
            Json.activity_graph := Main.activity_graph st |}.
Proof.
  intros Hinv Hsum Hurls.
  assert (Hinv2 : stats_inv (debug_all st entries)) by apply stats_inv_debug_all, Hinv.
  assert (Hsum2 : graph_sum (Main.activity_graph (debug_all st entries))
                  < Main.float_overflow_bound)
    by (rewrite debug_all_eq; exact Hsum).
  destruct (save_page_spec api_uid _ Hinv2 Hsum2)
    as (users & st' & rendered & json & Husers & Hsave & Hr & Hj & Hst').
  exists users, st', rendered, json.
  unfold top25, runner_ups_of, top10_urls_of, ranking in Hr, Hj, Hst', Husers.
  rewrite Hr in Hj.
  rewrite debug_all_eq in Hr, Hj, Hst', Husers.
  cbn [Main.channel_name Main.user_messages Main.user_question Main.user_exclamation
       Main.user_actions Main.user_givemodes Main._cache_user_messages
       Main.activity_graph Main.url_count Main.last_url_usage Main.stderr
       Rendered.total Rendered.being]
    in Hr, Hj, Hst', Husers.
  rewrite Hurls in Hst'. cbn [fst] in Hst'.
  split; [exact Husers |]. split; [exact Hsave |].
  split.
  { rewrite Hst', debug_all_eq. unfold save_page_log, top25.
    rewrite <- !app_assoc. reflexivity. }
  split; [rewrite Hst'; reflexivity |].
  rewrite Hj, Hr. repeat split.
Qed.

(** X16. Rendering changes no statistic. On the state of a run,
    [save_page] leaves every counter, the sampler, the histogram and the
    two URL maps as they were: the loop that casts the histogram to
    integers and the lookups of the last posters, which insert missing
    keys, change nothing. So a second call gives the same JSON data and
    the same report but for the user identifiers, which are what the
    lookup answers then: [api_uid] stands for the answers during the
    first call and [api_uid'] for those during the second. *)
Theorem rendering_changes_no_statistic
    (channel : string) (files : list (list (nat * string))) (st : Main.t)
    (api_uid api_uid' : string -> option Z) :
  Main.bulk_lines (Main.init channel) files = Ret st ->
  Z.of_nat (List.length (concat files)) < Main.float_overflow_bound ->
  exists st' rendered json,
    Main.save_page api_uid st = Ret (st', rendered, json)
    /\ same_statistics st' st
    /\ exists st'' rendered',
         Main.save_page api_uid' st' = Ret (st'', rendered', json)
         /\ same_statistics st'' st
         /\ Rendered.name rendered' = Rendered.name rendered
         /\ Rendered.runner_ups rendered' = Rendered.runner_ups rendered
         /\ Rendered.being rendered' = Rendered.being rendered
         /\ Rendered.urls_used rendered' = Rendered.urls_used rendered
         /\ Rendered.total rendered' = Rendered.total rendered
         /\ Rendered.activity_graph rendered' = Rendered.activity_graph rendered
         /\ Forall2
              (fun user user' =>
                 User.username user' = User.username user
                 /\ User.message_count user' = User.message_count user
                 /\ User.random_quote user' = User.random_quote user
                 /\ User.user_id user = api_uid (User.username user)
                 /\ User.user_id user' = api_uid' (User.username user))
              (Rendered.most_active rendered) (Rendered.most_active rendered').
Proof.
  intros Hrun Hsize.
  destruct (run_state _ _ _ Hrun Hsize) as (Hinv & Hsum & _).
  pose proof (run_top_urls _ _ _ Hrun) as Hurls.
  destruct (save_page_after_log api_uid st [] Hinv Hsum Hurls)
    as (users & st' & rendered & json & Husers & Hsave & Hst' & Hsame
        & Hmost & Hname & Hrunner & Hbeing & Hused & Htotal & Hgraph & Hjson).
  change (debug_all st []) with st in Hsave. cbn [app] in Hst'.
  exists st', rendered, json. split; [exact Hsave |]. split; [exact Hsame |].
  destruct (save_page_after_log api_uid' st (save_page_log st) Hinv Hsum Hurls)
    as (users' & st'' & rendered' & json' & Husers' & Hsave' & _ & Hsame'
        & Hmost' & Hname' & Hrunner' & Hbeing' & Hused' & Htotal' & Hgraph' & Hjson').
  rewrite <- Hst' in Hsave'.
  assert (Hj : json' = json).
  { rewrite Hjson, Hjson', Htotal, Htotal', Hbeing, Hbeing'. reflexivity. }
  rewrite Hj in Hsave'.
  exists st'', rendered'. split; [exact Hsave' |]. split; [exact Hsame' |].
  rewrite Hname, Hname', Hrunner, Hrunner', Hbeing, Hbeing', Hused, Hused',
    Htotal, Htotal', Hgraph, Hgraph', Hmost, Hmost'.
  repeat (split; [reflexivity |]).
  clear - Husers Husers'. revert users' Husers'.
  induction Husers as [|user kv users top (Hu & Hn & Hid & q & Hq & Hquote) _ IH];
    intros users' Husers'.
  - inversion Husers'. constructor.
  - inversion Husers' as [|user' ? users2 ? (Hu' & Hn' & Hid' & q' & Hq' & Hquote') Hrest];
      subst.
    constructor; [|apply IH, Hrest].
    rewrite Hq in Hq'. injection Hq' as <-.
    rewrite Hu, Hu', Hn, Hn', Hquote, Hquote', Hid, Hid'. repeat split.
Qed.

Lemma rendering_changes_no_statistic_witness :
  exists st st' st'' rendered rendered' json,
    Main.bulk_lines (Main.init "osu")
      [[(0%nat, "10:00:01 < bob> see http://a.b")]]
    = Ret st
    /\ Main.save_page (fun _ => None) st = Ret (st', rendered, json)
    /\ Main.save_page (fun _ => Some 7) st' = Ret (st'', rendered', json)
    /\ Main.user_messages st'' = [("bob", 1)]
    /\ Main.last_url_usage st'' = Main.last_url_usage st
    /\ map User.user_id (Rendered.most_active rendered) = [None]
    /\ map User.user_id (Rendered.most_active rendered') = [Some 7].
Proof.
  pose (files := [[(0%nat, "10:00:01 < bob> see http://a.b")]]).
  destruct (Main.bulk_lines (Main.init "osu") files) as [st|e] eqn:Hrun;
    [|vm_compute in Hrun; discriminate Hrun].
  assert (Hsize : Z.of_nat (List.length (concat files)) < Main.float_overflow_bound)
    by (vm_compute; reflexivity).
  destruct (rendering_changes_no_statistic "osu" files st
              (fun _ => None) (fun _ => Some 7) Hrun Hsize)
    as (st' & rendered & json & Hsave & Hsame
        & st'' & rendered' & Hsave' & Hsame' & _ & _ & _ & _ & _ & _ & Husers).
  exists st, st', st'', rendered, rendered', json.
  split; [exact Hrun |]. split; [exact Hsave |]. split; [exact Hsave' |].
  assert (Hst : st = match Main.bulk_lines (Main.init "osu") files with
                     | Ret s => s | Raise _ => st end)
    by (rewrite Hrun; reflexivity).
  unfold same_statistics, with_log in Hsame'.
  injection Hsame' as _ Hmessages _ _ _ _ _ _ _ Hlast.
  split; [rewrite Hmessages, Hst; vm_compute; reflexivity |].
  split; [exact Hlast |].
  rewrite Hst in Hsave. vm_compute in Hsave. injection Hsave as _ <- _.
  cbn [Rendered.most_active] in Husers.
  apply Forall2_cons_inv_l in Husers as (user' & users' & (_ & _ & _ & _ & Hid') & Hrest & ->).
  apply Forall2_nil_inv_l in Hrest as ->.
  cbn [map]. rewrite Hid'. split; reflexivity.
Defined.

(** *** Where a run ends *)

(** In a state of a run, [one_line] raises what the classifier raises and
    nothing else: the histogram has a bucket for every hour and the
    sampler's draw is never from an empty range. *)
Lemma one_line_total (entropy : nat) (st : Main.t) (line : string) :
  stats_inv st ->
  match ChatMessage.parse line with
  | Raise e => Main.one_line entropy st line = Raise e
  | Ret _ => exists st', Main.one_line entropy st line = Ret st'
  end.
Proof.
  intros Hinv. unfold Main.one_line.
  destruct (ChatMessage.parse line) as [[m|]|e] eqn:Hparse; cbn [bind];
    [|eexists; reflexivity | reflexivity].
  cbv zeta.
  assert (Hgraph : exists graph',
             Main.list_incr (Main.activity_graph st)
               (Z.to_nat (Py.hour (ChatMessage.time m))) = Ret graph').
  { unfold Main.list_incr, Py.getitem.
    destruct (nth_error (Main.activity_graph st)
                (Z.to_nat (Py.hour (ChatMessage.time m)))) as [old|] eqn:Hold.
    - eexists. reflexivity.
    - apply nth_error_None in Hold. rewrite (inv_buckets st Hinv) in Hold.
      pose proof (parse_hour _ _ Hparse). lia. }
  destruct Hgraph as (graph' & Hgraph).
  destruct (consider_spec entropy (Main._cache_user_messages st)
              (ChatMessage.username m) (ChatMessage.text m) (inv_sampler_wf st Hinv))
    as (cache' & Hcache & _).
  destruct (ChatMessage.line_type m); [| |eexists; reflexivity];
    rewrite Hgraph; cbn [bind]; rewrite Hcache; cbn [bind]; eexists; reflexivity.
Qed.

Lemma feed_total (lines : list (nat * string)) :
  forall st,
    stats_inv st ->
    match first_error lines with
    | Some e => Main.feed st lines = Raise e
    | None => exists st', Main.feed st lines = Ret st'
    end.
Proof.
  induction lines as [|[entropy raw] lines IH]; intros st Hinv;
    cbn [first_error Main.feed]; [eexists; reflexivity |].
  pose proof (one_line_total entropy st (Py.strip raw) Hinv) as Hone.
  destruct (ChatMessage.parse (Py.strip raw)) as [om|e].
  - destruct Hone as (st1 & Hone). rewrite Hone. cbn [bind].
    apply IH. eapply stats_inv_one_line; eassumption.
  - rewrite Hone. reflexivity.
Qed.


Lemma feed_log (lines : list (nat * string)) :
  forall st st',
    Main.feed st lines = Ret st' ->
    Main.stderr st' = (Main.stderr st ++ skipped_log lines)%list
    /\ Main.channel_name st' = Main.channel_name st.
Proof.
  induction lines as [|[entropy raw] lines IH]; intros st st'.
  - simpl. intros H. injection H as <-. rewrite app_nil_r. auto.
  - cbn [Main.feed skipped_log].
    destruct (Main.one_line entropy st (Py.strip raw)) as [st1|e] eqn:Hone;
      cbn [bind]; [|discriminate].
    intros Hfeed. destruct (IH _ _ Hfeed) as (Hlog & Hname).
    rewrite Hlog, Hname. clear IH Hfeed Hlog Hname.
    unfold Main.one_line in Hone.
    destruct (ChatMessage.parse (Py.strip raw)) as [[m|]|e]; cbn [bind] in Hone;
      [| |discriminate].
    + cbv zeta in Hone.
      destruct (ChatMessage.line_type m).
      1, 2:
        destruct (Main.list_incr _ _) as [graph'|e]; cbn [bind] in Hone; [|discriminate];
        destruct (ReservoirSampler.consider _ _ _ _) as [cache'|e]; cbn [bind] in Hone;
          [|discriminate];
        injection Hone as <-; auto.
      injection Hone as <-. auto.
    + injection Hone as <-. cbn [Main.debug Main.stderr Main.channel_name].
      rewrite <- app_assoc. auto.
Qed.

(** X18. The log of a run. After [bulk_lines], the log holds one entry
    for each line that the classifier rejected, in the order of the lines
    and with the stripped line, and then one entry with the number of
    files; a line that gave an event leaves no entry. *)
Theorem log_lists_the_skipped_lines
    (channel : string) (files : list (list (nat * string))) (st : Main.t) :
  Main.bulk_lines (Main.init channel) files = Ret st ->
  Main.stderr st
  = (skipped_log (concat files) ++ [ParsedLogs (List.length files)])%list
  /\ Main.channel_name st = channel
  /\ Z.of_nat (List.length (Main.stderr st))
     = Z.of_nat (List.length (concat files)) - tally (fun _ => true) (concat files) + 1.
Proof.
  intros Hrun. destruct (bulk_lines_feed _ _ _ Hrun) as (st0 & Hfeed & ->).
  destruct (feed_log _ _ _ Hfeed) as (Hlog & Hname).
  cbn [Main.debug Main.stderr Main.channel_name]. rewrite Hlog, Hname.
  split; [reflexivity |]. split; [reflexivity |].
  cbn [Main.init Main.stderr app]. rewrite length_app. cbn [List.length].
  rewrite Nat2Z.inj_add.
  assert (Hfirst : first_error (concat files) = None).
  { pose proof (feed_total (concat files) (Main.init channel) (stats_inv_init channel)) as H.
    destruct (first_error (concat files)); [congruence | reflexivity]. }
  clear - Hfirst. induction (concat files) as [|[entropy raw] lines IH];
    cbn [skipped_log tally first_error List.length] in *; [reflexivity |].
  unfold event_of.
  destruct (ChatMessage.parse (Py.strip raw)) as [[m|]|e]; [| |discriminate].
  - specialize (IH Hfirst). lia.
  - specialize (IH Hfirst). cbn [List.length]. lia.
Qed.

Lemma log_lists_the_skipped_lines_witness :
  exists st,
    Main.bulk_lines (Main.init "osu")
      [[(0%nat, "--- Log opened"); (1%nat, "10:00:01 < bob> hi")]; [(2%nat, "  ")]]
    = Ret st
    /\ Main.stderr st
       = [SkippedLine "--- Log opened"; SkippedLine EmptyString; ParsedLogs 2].
Proof.
  pose (files := [[(0%nat, "--- Log opened"); (1%nat, "10:00:01 < bob> hi")];
                  [(2%nat, "  ")]]).
  destruct (Main.bulk_lines (Main.init "osu") files) as [st|e] eqn:Hrun;
    [|vm_compute in Hrun; discriminate Hrun].
  destruct (log_lists_the_skipped_lines "osu" files st Hrun) as (Hlog & _).
  exists st. split; [exact Hrun |].
  rewrite Hlog. vm_compute. reflexivity.
Defined.

(** X19. The files are read as one stream. How the lines are divided
    among the files makes no difference: two runs from the same state
    over files with the same lines in the same order end with the same
    exception, or leave the same statistics and the same log up to its
    last entry, which tells the number of files. *)
Theorem files_are_read_as_one_stream
    (start : Main.t) (files files' : list (list (nat * string))) :
  concat files = concat files' ->
  match Main.bulk_lines start files, Main.bulk_lines start files' with
  | Ret st, Ret st' =>
      same_statistics st st'
      /\ List.removelast (Main.stderr st) = List.removelast (Main.stderr st')
      /\ List.last (Main.stderr st) (ParsedLogs 0) = ParsedLogs (List.length files)
      /\ List.last (Main.stderr st') (ParsedLogs 0) = ParsedLogs (List.length files')
  | Raise e, Raise e' => e = e'
  | _, _ => False
  end.
Proof.
  intros Hsame. unfold Main.bulk_lines.
  rewrite !feed_files_concat, <- Hsame.
  destruct (Main.feed start (concat files)) as [st|e]; cbn [bind]; [|reflexivity].
  cbn [Main.debug Main.stderr]. rewrite !List.removelast_last, !List.last_last.
  repeat split.
Qed.

Lemma files_are_read_as_one_stream_witness :
  exists st st',
    Main.bulk_lines (Main.init "osu")
      [[(0%nat, "10:00:01 < bob> hi"); (1%nat, "10:00:02 < amy> hi")]] = Ret st
    /\ Main.bulk_lines (Main.init "osu")
         [[(0%nat, "10:00:01 < bob> hi")]; []; [(1%nat, "10:00:02 < amy> hi")]] = Ret st'
    /\ Main.user_messages st = Main.user_messages st'
    /\ Main.stderr st = [ParsedLogs 1]
    /\ Main.stderr st' = [ParsedLogs 3].
Proof.
  pose (files := [[(0%nat, "10:00:01 < bob> hi"); (1%nat, "10:00:02 < amy> hi")]]).
  pose (files' := [[(0%nat, "10:00:01 < bob> hi")]; [];
                   [(1%nat, "10:00:02 < amy> hi")]]).
  pose proof (files_are_read_as_one_stream (Main.init "osu") files files' eq_refl) as H.
  destruct (Main.bulk_lines (Main.init "osu") files) as [st|e] eqn:Hrun;
    [|vm_compute in Hrun; discriminate Hrun].
  destruct (Main.bulk_lines (Main.init "osu") files') as [st'|e] eqn:Hrun';
    [|contradiction].
  destruct H as (Hstats & _).
  exists st, st'. split; [exact Hrun |]. split; [exact Hrun' |].
  split; [unfold same_statistics, with_log in Hstats; congruence |].
  vm_compute in Hrun, Hrun'. injection Hrun as <-. injection Hrun' as <-.
  split; reflexivity.
Defined.

(** *** The file-name filter *)

Lemma decimal_length (fuel : nat) :
  forall n acc,
    (String.length (Datetime.decimal fuel n acc) <= fuel + String.length acc)%nat.
Proof.
  induction fuel as [|fuel IH]; intros n acc; cbn [Datetime.decimal]; [lia |].
  cbv zeta. destruct (n / 10 =? 0).
  - cbn [String.length]. lia.
  - specialize (IH (n / 10) (String (Datetime.digit (n mod 10)) acc)).
    cbn [String.length] in IH. lia.
Qed.

Lemma eqb_length (a b : string) : String.eqb a b = true -> String.length a = String.length b.
Proof. intros H. apply String.eqb_eq in H. subst. reflexivity. Qed.

(** What [strftime] gives is not the keyword [previous]. *)
Lemma strftime_not_previous (now : Datetime.t) :
  String.eqb (Datetime.strftime_m now) "previous"
  || String.eqb (Datetime.strftime_Y now) "previous" = false.
Proof.
  apply orb_false_iff. split.
  - destruct (String.eqb (Datetime.strftime_m now) "previous") eqn:H; [|reflexivity].
    apply eqb_length in H. discriminate H.
  - destruct (String.eqb (Datetime.strftime_Y now) "previous") eqn:H; [|reflexivity].
    apply eqb_length in H.
    pose proof (decimal_length 4 (Datetime.year now) EmptyString) as Hlen.
    unfold Datetime.strftime_Y in H. rewrite H in Hlen. cbn in Hlen. lia.
Qed.

(** X20. The keyword [previous] selects the month of the clock. When the
    year or the month is given as [previous], the filter is built for the
    year and the month that the clock shows, whatever the other setting
    is, and so is the filter that [current] and [current] give at that
    time: the month before is never selected, the year is never
    decreased, and no clock reading makes the call fail. *)
Theorem previous_selects_the_month_of_the_clock
    (now1 now2 now3 : Datetime.t) (year month : string) :
  valid_now now3 ->
  year = "previous" \/ month = "previous" ->
  get_filter_mask now1 now2 now3 year month
  = Ret {| mask_pattern :=
             "(" ++ Datetime.strftime_Y now3 ++ ")\-(" ++ Datetime.strftime_m now3
                 ++ ")\-\d+\.\w+";
           mask_ignorecase := true |}
  /\ get_filter_mask now1 now2 now3 year month
     = get_filter_mask now3 now3 now1 "current" "current".
Proof.
  intros ((Hy1 & Hy2) & (Hm1 & Hm2)) Hprev.
  assert (Hbranch :
            String.eqb (if String.eqb month "current" then Datetime.strftime_m now2
                        else month) "previous"
            || String.eqb (if String.eqb year "current" then Datetime.strftime_Y now1
                           else year) "previous" = true).
  { destruct Hprev as [-> | ->]; cbn [String.eqb Ascii.eqb Bool.eqb];
      [apply orb_true_r | reflexivity]. }
  assert (Hfirst :
            get_filter_mask now1 now2 now3 year month
            = Ret {| mask_pattern :=
                       "(" ++ Datetime.strftime_Y now3 ++ ")\-("
                           ++ Datetime.strftime_m now3 ++ ")\-\d+\.\w+";
                     mask_ignorecase := true |}).
  { unfold get_filter_mask. cbv zeta. rewrite Hbranch.
    destruct (Datetime.month now3 - 1 <? 0) eqn:Hneg; [lia |].
    unfold Datetime.on_the_15th.
    replace (Datetime.month now3 - 1 + 1) with (Datetime.month now3) by lia.
    destruct (Z.leb_spec 1 (Datetime.year now3)); [|lia].
    destruct (Z.leb_spec (Datetime.year now3) 9999); [|lia].
    destruct (Z.leb_spec 1 (Datetime.month now3)); [|lia].
    destruct (Z.leb_spec (Datetime.month now3) 12); [|lia].
    reflexivity. }
  split; [exact Hfirst |]. rewrite Hfirst.
  unfold get_filter_mask. cbv zeta.
  change (String.eqb "current" "current") with true. cbv iota.
  rewrite strftime_not_previous. reflexivity.
Qed.

Lemma previous_selects_the_month_of_the_clock_witness :
  get_filter_mask (Datetime.mk 2025 12 31) (Datetime.mk 2025 12 31) (Datetime.mk 2026 1 1)
    "2025" "previous"
  = Ret {| mask_pattern := "(2026)\-(01)\-\d+\.\w+"; mask_ignorecase := true |}.
Proof.
  destruct (previous_selects_the_month_of_the_clock
              (Datetime.mk 2025 12 31) (Datetime.mk 2025 12 31) (Datetime.mk 2026 1 1)
              "2025" "previous") as (H & _).
  - unfold valid_now. cbn. lia.
  - right. reflexivity.
  - rewrite H. vm_compute. reflexivity.
Defined.

(** *** Compressed logs *)

Lemma feed_bytes_spec (lines : list Bytes.t) :
  forall st,
    MainIO.feed_bytes st lines
    = if forallb short_line lines
      then Ret (debug_all st
                  (map (fun line => SkippedLine (string_of_list_byte (Bytes.strip line)))
                       lines))
      else Raise TypeError.
Proof.
  induction lines as [|line lines IH]; intros st; [reflexivity |].
  cbn [MainIO.feed_bytes forallb map].
  unfold MainIO.one_line_bytes, MainIO.parse_bytes, short_line at 1.
  destruct (List.length (Bytes.strip line) <? 7)%nat; cbn [bind andb]; [|reflexivity].
  rewrite IH. reflexivity.
Qed.

Lemma same_statistics_debug_all (st : Main.t) (entries : list log_entry) :
  same_statistics (debug_all st entries) st.
Proof. unfold same_statistics. rewrite debug_all_eq. reflexivity. Qed.

(** [one_line] does not read the log. *)
Lemma one_line_same_statistics (entropy : nat) (a b : Main.t) (line : string) :
  same_statistics a b ->
  match Main.one_line entropy a line, Main.one_line entropy b line with
  | Ret a', Ret b' => same_statistics a' b'
  | Raise x, Raise y => x = y
  | _, _ => False
  end.
Proof.
  unfold same_statistics, with_log. destruct a, b. cbn. intros H. injection H as -> -> -> -> -> -> -> -> -> ->.
  unfold Main.one_line.
  destruct (ChatMessage.parse line) as [[m|]|e]; cbn [bind]; [|reflexivity..].
  cbv zeta. cbn [Main.activity_graph Main._cache_user_messages].
  destruct (ChatMessage.line_type m); [| |reflexivity];
    (destruct (Main.list_incr _ _) as [graph'|e]; cbn [bind]; [|reflexivity]);
    (destruct (ReservoirSampler.consider _ _ _ _) as [cache'|e]; cbn [bind];
       reflexivity).
Qed.

Lemma feed_same_statistics (lines : list (nat * string)) :
  forall a b,
    same_statistics a b ->
    match Main.feed a lines, Main.feed b lines with
    | Ret a', Ret b' => same_statistics a' b'
    | Raise x, Raise y => x = y
    | _, _ => False
    end.
Proof.
  induction lines as [|[entropy raw] lines IH]; intros a b Hab; [exact Hab |].
  cbn [Main.feed].
  pose proof (one_line_same_statistics entropy a b (Py.strip raw) Hab) as Hone.
  destruct (Main.one_line entropy a (Py.strip raw)) as [a1|x],
           (Main.one_line entropy b (Py.strip raw)) as [b1|y];
    cbn [bind]; try contradiction; [apply IH, Hone | exact Hone].
Qed.

Lemma plain_lines_cons (f : MainIO.file) (files : list MainIO.file) :
  plain_lines (f :: files)
  = (match f with MainIO.Plain lines => lines | MainIO.Gz _ => [] end
     ++ plain_lines files)%list.
Proof. reflexivity. Qed.

Lemma gz_lines_cons (f : MainIO.file) (files : list MainIO.file) :
  gz_lines (f :: files)
  = (match f with MainIO.Plain _ => [] | MainIO.Gz lines => lines end
     ++ gz_lines files)%list.
Proof. reflexivity. Qed.

(** A run over files of both kinds that returns: the compressed lines
    were all short, and the statistics are those of the plain lines. *)
Lemma feed_files_io (files : list MainIO.file) :
  forall st st',
    MainIO.feed_files st files = Ret st' ->
    forallb short_line (gz_lines files) = true
    /\ exists st0,
         Main.feed st (plain_lines files) = Ret st0 /\ same_statistics st' st0.
Proof.
  induction files as [|[lines|lines] files IH]; intros st st'.
  - simpl. intros H. injection H as <-. split; [reflexivity |].
    exists st. split; reflexivity.
  - cbn [MainIO.feed_files MainIO.feed_file].
    destruct (Main.feed st lines) as [st1|e] eqn:Hfeed; cbn [bind]; [|discriminate].
    intros Hrest. destruct (IH _ _ Hrest) as (Hshort & st0 & Hplain & Hsame).
    rewrite plain_lines_cons, gz_lines_cons, feed_app, Hfeed. cbn [bind app].
    split; [exact Hshort |]. exists st0. split; assumption.
  - cbn [MainIO.feed_files MainIO.feed_file]. rewrite feed_bytes_spec.
    destruct (forallb short_line lines) eqn:Hlines; cbn [bind]; [|discriminate].
    intros Hrest. destruct (IH _ _ Hrest) as (Hshort & st1 & Hplain & Hsame).
    rewrite plain_lines_cons, gz_lines_cons, forallb_app, Hlines, Hshort. cbn [app].
    split; [reflexivity |].
    pose proof (feed_same_statistics (plain_lines files) _ st
                  (same_statistics_debug_all st
                     (map (fun line => SkippedLine (string_of_list_byte (Bytes.strip line)))
                          lines))) as Hboth.
    rewrite Hplain in Hboth.
    destruct (Main.feed st (plain_lines files)) as [st0|e]; [|contradiction].
    exists st0. split; [reflexivity |].
    unfold same_statistics in *. congruence.
Qed.

Lemma first_error_app (l1 l2 : list (nat * string)) :
  first_error (l1 ++ l2)%list
  = match first_error l1 with Some e => Some e | None => first_error l2 end.
Proof.
  induction l1 as [|[entropy raw] l1 IH]; [reflexivity |].
  cbn [app first_error]. destruct (ChatMessage.parse (Py.strip raw)); [exact IH | reflexivity].
Qed.

Lemma feed_inv (lines : list (nat * string)) :
  forall st st', stats_inv st -> Main.feed st lines = Ret st' -> stats_inv st'.
Proof.
  induction lines as [|[entropy raw] lines IH]; intros st st' Hinv; cbn [Main.feed].
  - intros H. injection H as <-. exact Hinv.
  - destruct (Main.one_line entropy st (Py.strip raw)) as [st1|e] eqn:Hone;
      cbn [bind]; [|discriminate].
    apply IH. eapply stats_inv_one_line; eassumption.
Qed.

(** Where the plain lines raise nothing, a compressed line that is not
    short ends the run. *)
Lemma feed_files_io_error (files : list MainIO.file) :
  forall st,
    stats_inv st ->
    first_error (plain_lines files) = None ->
    forallb short_line (gz_lines files) = false ->
    MainIO.feed_files st files = Raise TypeError.
Proof.
  induction files as [|[lines|lines] files IH]; intros st Hinv Hplain Hgz.
  - discriminate Hgz.
  - rewrite plain_lines_cons, first_error_app in Hplain.
    rewrite gz_lines_cons in Hgz. cbn [app] in Hgz.
    pose proof (feed_total lines st Hinv) as Hfeed.
    destruct (first_error lines); [discriminate |].
    destruct Hfeed as (st1 & Hfeed).
    cbn [MainIO.feed_files MainIO.feed_file]. rewrite Hfeed. cbn [bind].
    apply IH; [eapply feed_inv; eassumption | exact Hplain | exact Hgz].
  - rewrite plain_lines_cons in Hplain. cbn [app] in Hplain.
    rewrite gz_lines_cons, forallb_app in Hgz.
    cbn [MainIO.feed_files MainIO.feed_file]. rewrite feed_bytes_spec.
    destruct (forallb short_line lines); cbn [bind]; [|reflexivity].
    apply IH; [apply stats_inv_debug_all, Hinv | exact Hplain | exact Hgz].
Qed.

(** X21. A compressed log adds nothing to the statistics. If a run over
    plain and compressed files returns, every line of every compressed
    file had less than 7 bytes once stripped and was skipped, and the
    statistics are those of the run over the lines of the plain files
    alone: the two states differ in the log at most. *)
Theorem compressed_logs_add_nothing
    (channel : string) (files : list MainIO.file) (st : Main.t) :
  MainIO.bulk_lines (Main.init channel) files = Ret st ->
  Forall (fun line => (List.length (Bytes.strip line) < 7)%nat) (gz_lines files)
  /\ exists st0,
       Main.bulk_lines (Main.init channel) [plain_lines files] = Ret st0
       /\ same_statistics st st0.
Proof.
  unfold MainIO.bulk_lines, Main.bulk_lines.
  destruct (MainIO.feed_files (Main.init channel) files) as [st1|e] eqn:Hrun;
    cbn [bind]; [|discriminate].
  intros H. injection H as <-.
  destruct (feed_files_io _ _ _ Hrun) as (Hshort & st0 & Hplain & Hsame).
  split.
  - apply List.Forall_forall. intros line Hin.
    rewrite forallb_forall in Hshort. specialize (Hshort line Hin).
    unfold short_line in Hshort. apply Nat.ltb_lt in Hshort. exact Hshort.
  - cbn [Main.feed_files]. rewrite Hplain. cbn [bind].
    eexists. split; [reflexivity |].
    unfold same_statistics in *. exact Hsame.
Qed.

Lemma compressed_logs_add_nothing_witness :
  exists st st0,
    MainIO.bulk_lines (Main.init "osu")
      [MainIO.Gz [list_byte_of_string "10:00"]; MainIO.Plain [(0%nat, "10:00:01 < bob> hi")]]
    = Ret st
    /\ Main.bulk_lines (Main.init "osu") [[(0%nat, "10:00:01 < bob> hi")]] = Ret st0
    /\ Main.user_messages st = Main.user_messages st0
    /\ Main.stderr st = [SkippedLine "10:00"; ParsedLogs 2].
Proof.
  pose (files := [MainIO.Gz [list_byte_of_string "10:00"];
                  MainIO.Plain [(0%nat, "10:00:01 < bob> hi")]]).
  destruct (MainIO.bulk_lines (Main.init "osu") files) as [st|e] eqn:Hrun;
    [|vm_compute in Hrun; discriminate Hrun].
  destruct (compressed_logs_add_nothing "osu" files st Hrun) as (_ & st0 & Hplain & Hsame).
  exists st, st0. split; [exact Hrun |]. split; [exact Hplain |].
  split.
  - unfold same_statistics, with_log in Hsame. congruence.
  - vm_compute in Hrun. injection Hrun as <-. reflexivity.
Defined.

(** X22. A compressed line of 7 bytes or more ends the run. If no line of
    the plain files makes the classifier raise and some line of a
    compressed file has 7 bytes or more once stripped, [bulk_lines] ends
    with a [TypeError]: no run over a compressed log with a line long
    enough to be a message returns. *)
Theorem long_compressed_line_is_fatal
    (channel : string) (files : list MainIO.file) :
  first_error (plain_lines files) = None ->
  Exists (fun line => (7 <= List.length (Bytes.strip line))%nat) (gz_lines files) ->
  MainIO.bulk_lines (Main.init channel) files = Raise TypeError.
Proof.
  intros Hplain Hlong. unfold MainIO.bulk_lines.
  rewrite (feed_files_io_error files (Main.init channel) (stats_inv_init channel) Hplain);
    [reflexivity |].
  apply List.Exists_exists in Hlong as (line & Hin & Hlen).
  destruct (forallb short_line (gz_lines files)) eqn:Hall; [|reflexivity].
  rewrite forallb_forall in Hall. specialize (Hall line Hin).
  unfold short_line in Hall. apply Nat.ltb_lt in Hall. lia.
Qed.

Lemma long_compressed_line_is_fatal_witness :
  MainIO.bulk_lines (Main.init "osu")
    [MainIO.Plain [(0%nat, "10:00:01 < bob> hi")];
     MainIO.Gz [list_byte_of_string "10:00:02 < amy> hi"]]
  = Raise TypeError.
Proof.
  apply long_compressed_line_is_fatal.
  - vm_compute. reflexivity.
  - apply Exists_cons_hd. vm_compute. lia.
Defined.

(** *** The lookup of user identifiers *)

Lemma lstrip_by_fixed (p : ascii -> bool) (s : string) :
  (forall c, first_char s = Some c -> p c = false) -> Py.lstrip_by p s = s.
Proof.
  destruct s as [|c s]; [reflexivity |]. intros H.
  cbn [Py.lstrip_by]. rewrite (H c eq_refl). reflexivity.
Qed.

Lemma rstrip_by_fixed (p : ascii -> bool) (s : string) :
  (forall c, last_char s = Some c -> p c = false) -> Py.rstrip_by p s = s.
Proof.
  induction s as [|c s IH]; [reflexivity |]. intros H.
  cbn [Py.rstrip_by]. destruct s as [|d s].
  - cbn [Py.rstrip_by Py.is_empty andb]. rewrite (H c eq_refl). reflexivity.
  - rewrite IH by (intros x Hx; apply H; exact Hx). reflexivity.
Qed.

Lemma rstrip_by_first (p : ascii -> bool) (s : string) (c : ascii) :
  (forall x, first_char s = Some x -> p x = false) ->
  first_char (Py.rstrip_by p s) = Some c -> first_char s = Some c.
Proof.
  destruct s as [|x s]; [discriminate |]. intros H.
  cbn [Py.rstrip_by]. rewrite (H x eq_refl), andb_false_r. trivial.
Qed.

Lemma strip_trimmed (s : string) : trimmed (Py.strip s).
Proof.
  unfold Py.strip. split.
  - intros c Hc.
    assert (Hhead : forall x, first_char (Py.lstrip_by Py.isspace s) = Some x ->
                              Py.isspace x = false).
    { intros x Hx. destruct (lstrip_by_head Py.isspace s) as [Hnil | (y & r & Hs & Hy)].
      - rewrite Hnil in Hx. discriminate Hx.
      - rewrite Hs in Hx. injection Hx as <-. exact Hy. }
    apply Hhead. apply (rstrip_by_first Py.isspace _ c Hhead Hc).
  - intros c. apply rstrip_by_last.
Qed.

Lemma first_char_map (f : ascii -> ascii) (s : string) :
  first_char (APIClient.map_chars f s) = option_map f (first_char s).
Proof. destruct s; reflexivity. Qed.

Lemma last_char_map (f : ascii -> ascii) (s : string) :
  last_char (APIClient.map_chars f s) = option_map f (last_char s).
Proof.
  induction s as [|c s IH]; [reflexivity |].
  cbn [APIClient.map_chars]. destruct s as [|d s]; [reflexivity |].
  cbn [APIClient.map_chars last_char] in *. exact IH.
Qed.

Lemma all_chars_map (p : ascii -> bool) (f : ascii -> ascii) (s : string) :
  all_chars p (APIClient.map_chars f s) = all_chars (fun c => p (f c)) s.
Proof.
  induction s as [|c s IH]; [reflexivity |].
  cbn [APIClient.map_chars all_chars]. rewrite IH. reflexivity.
Qed.

Lemma all_chars_true (p : ascii -> bool) (s : string) :
  (forall c, p c = true) -> all_chars p s = true.
Proof.
  intros H. induction s as [|c s IH]; [reflexivity |].
  cbn [all_chars]. rewrite H, IH. reflexivity.
Qed.

Lemma all_chars_impl (p q : ascii -> bool) (s : string) :
  (forall c, p c = true -> q c = true) -> all_chars p s = true -> all_chars q s = true.
Proof.
  intros H. induction s as [|c s IH]; [reflexivity |].
  cbn [all_chars]. intros Hs. apply andb_true_iff in Hs as [Hc Hs].
  rewrite (H c Hc), (IH Hs). reflexivity.
Qed.

Lemma map_chars_fixed (f : ascii -> ascii) (s : string) :
  all_chars (fun c => Ascii.eqb (f c) c) s = true -> APIClient.map_chars f s = s.
Proof.
  induction s as [|c s IH]; [reflexivity |].
  cbn [all_chars APIClient.map_chars]. intros H. apply andb_true_iff in H as [Hc Hs].
  apply Ascii.eqb_eq in Hc. rewrite Hc, (IH Hs). reflexivity.
Qed.

Lemma all_chars_lstrip (p q : ascii -> bool) (s : string) :
  all_chars p s = true -> all_chars p (Py.lstrip_by q s) = true.
Proof.
  intros H. rewrite <- (take_while_lstrip q s), all_chars_app in H.
  apply andb_true_iff in H as [_ H]. exact H.
Qed.

Lemma all_chars_rstrip (p q : ascii -> bool) (s : string) :
  all_chars p s = true -> all_chars p (Py.rstrip_by q s) = true.
Proof.
  intros H. destruct (rstrip_by_split q s) as (t & Hs & _).
  rewrite Hs in H. apply all_chars_app_l in H. exact H.
Qed.

Lemma lower_char_lower (c : ascii) :
  APIClient.lower_char (APIClient.lower_char c) = APIClient.lower_char c.
Proof. destruct c as [[] [] [] [] [] [] [] []]; vm_compute; reflexivity. Qed.

Lemma replace_keeps_case (c : ascii) :
  APIClient.lower_char c = c ->
  name_char (if Ascii.eqb c " " then "_"%char else c) = true.
Proof. destruct c as [[] [] [] [] [] [] [] []]; vm_compute; auto; discriminate. Qed.

Lemma name_char_fixed (c : ascii) :
  name_char c = true ->
  Ascii.eqb (APIClient.lower_char c) c = true
  /\ Ascii.eqb (if Ascii.eqb c " " then "_"%char else c) c = true.
Proof. destruct c as [[] [] [] [] [] [] [] []]; vm_compute; auto. Qed.

Lemma name_char_not_blank (c : ascii) : name_char c = true -> not_blank c = true.
Proof. unfold name_char. intros H. apply andb_true_iff in H as [H _]. exact H. Qed.

Lemma replace_keeps_space (c : ascii) :
  Py.isspace c = false -> Py.isspace (if Ascii.eqb c " " then "_"%char else c) = false.
Proof. destruct c as [[] [] [] [] [] [] [] []]; vm_compute; auto. Qed.

(** The normalised name: its characters and its ends. *)
Lemma normalise_shape (username : string) :
  all_chars name_char (APIClient.normalise username) = true
  /\ trimmed (APIClient.normalise username).
Proof.
  unfold APIClient.normalise, APIClient.replace. split.
  - rewrite all_chars_map.
    apply all_chars_impl
      with (p := fun c => Ascii.eqb (APIClient.lower_char c) c).
    { intros c Hc. apply replace_keeps_case, Ascii.eqb_eq, Hc. }
    unfold Py.strip. apply all_chars_rstrip, all_chars_lstrip.
    unfold APIClient.lower. rewrite all_chars_map. apply all_chars_true.
    intros c. rewrite lower_char_lower. apply Ascii.eqb_refl.
  - destruct (strip_trimmed (APIClient.lower username)) as (Hfirst & Hlast).
    split; intros c; [rewrite first_char_map | rewrite last_char_map].
    + destruct (first_char (Py.strip (APIClient.lower username))) as [x|]; [|discriminate].
      cbn [option_map]. intros H. injection H as <-. apply replace_keeps_space, Hfirst.
      reflexivity.
    + destruct (last_char (Py.strip (APIClient.lower username))) as [x|]; [|discriminate].
      cbn [option_map]. intros H. injection H as <-. apply replace_keeps_space, Hlast.
      reflexivity.
Qed.

Lemma normalise_fixed (s : string) :
  all_chars name_char s = true -> trimmed s -> APIClient.normalise s = s.
Proof.
  intros Hchars (Hfirst & Hlast).
  unfold APIClient.normalise, APIClient.replace, APIClient.lower.
  rewrite (map_chars_fixed APIClient.lower_char s)
    by (revert Hchars; apply all_chars_impl; intros c Hc; apply name_char_fixed, Hc).
  unfold Py.strip. rewrite (lstrip_by_fixed _ _ Hfirst), (rstrip_by_fixed _ _ Hlast).
  apply map_chars_fixed. revert Hchars. apply all_chars_impl.
  intros c Hc. apply name_char_fixed, Hc.
Qed.

(** X24. The key of the cache is stable. Normalising a name twice gives
    what normalising it once gives; the normalised name has no space and
    no whitespace at either end; and [uid] gives for a name what it gives
    for its normalised form. *)
Theorem normalised_name_is_stable (username : string) :
  APIClient.normalise (APIClient.normalise username) = APIClient.normalise username
  /\ all_chars not_blank (APIClient.normalise username) = true
  /\ trimmed (APIClient.normalise username)
  /\ forall api_user append self,
       APIClient.uid api_user append self (APIClient.normalise username)
       = APIClient.uid api_user append self username.
Proof.
  destruct (normalise_shape username) as (Hchars & Htrim).
  assert (Hfix : APIClient.normalise (APIClient.normalise username)
                 = APIClient.normalise username)
    by (apply normalise_fixed; assumption).
  split; [exact Hfix |].
  split; [revert Hchars; apply all_chars_impl, name_char_not_blank |].
  split; [exact Htrim |].
  intros api_user append self. unfold APIClient.uid. rewrite Hfix. reflexivity.
Qed.



(** *** The whole run *)

(** X26. Logs that the classifier accepts always give a report. If the
    classifier raises on no line of the files, and the lines are fewer
    than the first integer that is too large for a float, [bulk_lines]
    returns and [save_page] on the state it leaves returns the report:
    no lookup, index, division or conversion of the two fails, whatever
    the lines, the random draws and the answers of the identifier
    service are. *)
Theorem accepted_logs_always_give_a_report
    (channel : string) (files : list (list (nat * string)))
    (api_uid : string -> option Z) :
  first_error (concat files) = None ->
  Z.of_nat (List.length (concat files)) < Main.float_overflow_bound ->
  exists st st' rendered json,
    Main.bulk_lines (Main.init channel) files = Ret st
    /\ Main.save_page api_uid st = Ret (st', rendered, json)
    /\ Rendered.name rendered = channel
    /\ Json.name json = channel.
Proof.
  intros Hfirst Hsize.
  assert (Hrun : exists st, Main.bulk_lines (Main.init channel) files = Ret st).
  { unfold Main.bulk_lines. rewrite feed_files_concat.
    pose proof (feed_total (concat files) (Main.init channel) (stats_inv_init channel)) as H.
    rewrite Hfirst in H. destruct H as (st & ->). eexists. reflexivity. }
  destruct Hrun as (st & Hrun).
  destruct (run_state _ _ _ Hrun Hsize) as (Hinv & Hsum & st0 & Hfeed & Hst).
  destruct (save_page_spec api_uid st Hinv Hsum)
    as (users & st' & rendered & json & _ & Hsave & Hr & Hj & _).
  exists st, st', rendered, json.
  split; [exact Hrun |]. split; [exact Hsave |].
  destruct (feed_log _ _ _ Hfeed) as (_ & Hname).
  rewrite Hj, Hr, Hst. cbn [Rendered.name Json.name Main.debug Main.channel_name].
  rewrite Hname. split; reflexivity.
Qed.

Lemma accepted_logs_always_give_a_report_witness :
  exists st st' rendered json,
    Main.bulk_lines (Main.init "osu")
      [[(0%nat, "--- Log opened"); (1%nat, "10:00:01 < bob> hi")]] = Ret st
    /\ Main.save_page (fun _ => None) st = Ret (st', rendered, json)
    /\ Rendered.name rendered = "osu"
    /\ Json.name json = "osu".
Proof.
  apply (accepted_logs_always_give_a_report "osu"
           [[(0%nat, "--- Log opened"); (1%nat, "10:00:01 < bob> hi")]] (fun _ => None)).
  - vm_compute. reflexivity.
  - vm_compute. reflexivity.
Defined.

(** *** The four short lists *)

Lemma counter_ok_incr (c : Counter.t) (k : string) :
  counter_ok c -> counter_ok (Counter.incr c k).
Proof.
  intros (Hnodup & Hpos). unfold Counter.incr. split.
  - apply counter_set_nodup, Hnodup.
  - apply counter_set_positive; [|exact Hpos].
    pose proof (counter_get_nonneg c k Hpos). lia.
Qed.

Lemma counter_ok_empty : counter_ok Counter.empty.
Proof. split; constructor. Qed.

Lemma most_common_n_top (k : nat) (c : Counter.t) (f : string -> Z) :
  counter_ok c ->
  (forall u, Counter.get c u = f u) ->
  top_of k f (Counter.most_common_n k c).
Proof.
  intros (Hnodup & Hpos) Hget.
  pose proof (most_common_perm c) as Hperm.
  pose proof (most_common_sorted c) as Hsorted.
  unfold top_of, Counter.most_common_n.
  split; [rewrite length_firstn; lia |].
  split.
  { rewrite <- firstn_map. apply nodup_firstn.
    eapply Permutation_NoDup; [|exact Hnodup].
    apply Permutation_map. symmetry. exact Hperm. }
  split; [apply sorted_firstn, Hsorted |].
  split.
  - intros u n Hin. apply (most_common_n_in k) in Hin.
    rewrite <- Hget. rewrite (counter_get_in c u n Hnodup Hin).
    split; [reflexivity |].
    rewrite Forall_forall in Hpos. apply (Hpos (u, n)), list_elem_of_In, Hin.
  - intros v Hv.
    assert (Hin : In (v, f v) (Counter.most_common c)).
    { apply Permutation_in with (l := c); [symmetry; exact Hperm |].
      rewrite <- Hget. apply counter_get_key. rewrite Hget. lia. }
    rewrite <- (firstn_skipn k (Counter.most_common c)) in Hin, Hsorted.
    apply in_app_or in Hin as [Hin | Hin]; [left; exact Hin | right].
    split.
    + rewrite length_firstn.
      destruct (Nat.le_gt_cases k (List.length (Counter.most_common c))) as [Hle | Hlt];
        [lia |].
      rewrite skipn_all2 in Hin by lia. contradiction.
    + intros item Hitem.
      apply (sorted_app_order count_ge _ _ item _ Hsorted Hitem Hin).
Qed.

Lemma feed_counters_ok (lines : list (nat * string)) :
  forall st st',
    Main.feed st lines = Ret st' ->
    (counter_ok (Main.user_question st) -> counter_ok (Main.user_question st'))
    /\ (counter_ok (Main.user_exclamation st) -> counter_ok (Main.user_exclamation st'))
    /\ (counter_ok (Main.user_actions st) -> counter_ok (Main.user_actions st'))
    /\ (counter_ok (Main.user_givemodes st) -> counter_ok (Main.user_givemodes st')).
Proof.
  induction lines as [|[entropy raw] lines IH]; intros st st'.
  - simpl. intros H. injection H as <-. auto.
  - cbn [Main.feed].
    destruct (Main.one_line entropy st (Py.strip raw)) as [st1|e] eqn:Hone;
      cbn [bind]; [|discriminate].
    intros Hfeed. destruct (IH _ _ Hfeed) as (Hq & He & Ha & Hg).
    pose proof (one_line_event _ _ _ _ Hone) as Hev.
    destruct (event_of raw) as [m|].
    + cbv zeta in Hev. destruct Hev as (_ & _ & Hev).
      destruct (is_message m).
      * destruct Hev as (_ & Ha1 & Hq1 & He1 & Hg1 & _).
        rewrite Ha1 in Ha. rewrite Hq1 in Hq. rewrite He1 in He. rewrite Hg1 in Hg.
        (split; [|split; [|split]]); intros H;
          [apply Hq; destruct (Py.contains "?" _)
          |apply He; destruct (Py.contains "!" _)
          |apply Ha; destruct (is_action m)
          |apply Hg];
          try apply counter_ok_incr; exact H.
      * destruct Hev as (_ & Ha1 & Hq1 & He1 & Hg1 & _).
        rewrite Ha1 in Ha. rewrite Hq1 in Hq. rewrite He1 in He. rewrite Hg1 in Hg.
        (split; [|split; [|split]]); intros H; [apply Hq | apply He | apply Ha | apply Hg];
          try apply counter_ok_incr; exact H.
    + subst st1. cbn [Main.debug Main.user_question Main.user_exclamation
                      Main.user_actions Main.user_givemodes] in *. auto.
Qed.

(** X27. The four short lists of the report. Each of the lists of the
    authors who exclaim, ask, act and change modes the most holds two
    authors at most, with the number of their messages and actions
    containing [!], of those containing [?], of their actions and of
    their mode changes in the run, the larger number first; an author
    with none is not listed, no author is listed twice in a list, and an
    author who is left out has no more than either of the two listed.
    The JSON data holds the same lists. *)
Theorem short_lists_are_the_top_two
    (channel : string) (files : list (list (nat * string))) (st : Main.t)
    (api_uid : string -> option Z) :
  Main.bulk_lines (Main.init channel) files = Ret st ->
  Z.of_nat (List.length (concat files)) < Main.float_overflow_bound ->
  exists st' rendered json,
    Main.save_page api_uid st = Ret (st', rendered, json)
    /\ Json.being json = Rendered.being rendered
    /\ top_of 2 (fun u => tally (fun m => exclaims m && by_author u m) (concat files))
         (Being.screaming (Rendered.being rendered))
    /\ top_of 2 (fun u => tally (fun m => asks m && by_author u m) (concat files))
         (Being.asking (Rendered.being rendered))
    /\ top_of 2 (fun u => tally (fun m => is_action m && by_author u m) (concat files))
         (Being.telling (Rendered.being rendered))
    /\ top_of 2 (fun u => tally (fun m => is_mode_change m && by_author u m) (concat files))
         (Being.modding (Rendered.being rendered)).
Proof.
  intros Hrun Hsize.
  destruct (run_state _ _ _ Hrun Hsize) as (Hinv & Hsum & st0 & Hfeed & Hst).
  destruct (save_page_spec api_uid st Hinv Hsum)
    as (users & st' & rendered & json & _ & Hsave & Hr & Hj & _).
  exists st', rendered, json. split; [exact Hsave |].
  destruct (feed_counters_ok _ _ _ Hfeed) as (Hq & He & Ha & Hg).
  rewrite Hj, Hr, Hst.
  cbn [Json.being Rendered.being Being.screaming Being.asking Being.telling Being.modding
       Main.debug Main.user_question Main.user_exclamation Main.user_actions
       Main.user_givemodes].
  split; [reflexivity |].
  (split; [|split; [|split]]); apply most_common_n_top;
    try (first [apply He | apply Hq | apply Ha | apply Hg]; apply counter_ok_empty);
    intros u; destruct (feed_tallies u _ _ _ Hfeed) as (_ & Ha' & Hq' & He' & Hg');
    first [rewrite He' | rewrite Hq' | rewrite Ha' | rewrite Hg']; reflexivity.
Qed.

Lemma short_lists_are_the_top_two_witness :
  exists st st' rendered json,
    Main.bulk_lines (Main.init "osu")
      [[(0%nat, "10:00:01 < bob> hi!"); (1%nat, "10:00:02 < amy> oh! no!");
        (2%nat, "10:00:03 < amy> yes!"); (3%nat, "10:00:04 < cat> what?!")]]
    = Ret st
    /\ Main.save_page (fun _ => None) st = Ret (st', rendered, json)
    /\ Being.screaming (Rendered.being rendered) = [("amy", 2); ("bob", 1)].
Proof.
  pose (files := [[(0%nat, "10:00:01 < bob> hi!"); (1%nat, "10:00:02 < amy> oh! no!");
                   (2%nat, "10:00:03 < amy> yes!"); (3%nat, "10:00:04 < cat> what?!")]]).
  destruct (Main.bulk_lines (Main.init "osu") files) as [st|e] eqn:Hrun;
    [|vm_compute in Hrun; discriminate Hrun].
  assert (Hsize : Z.of_nat (List.length (concat files)) < Main.float_overflow_bound)
    by (vm_compute; reflexivity).
  destruct (short_lists_are_the_top_two "osu" files st (fun _ => None) Hrun Hsize)
    as (st' & rendered & json & Hsave & _).
  exists st, st', rendered, json.
  split; [exact Hrun |]. split; [exact Hsave |].
  assert (Hst : st = match Main.bulk_lines (Main.init "osu") files with
                     | Ret s => s | Raise _ => st end)
    by (rewrite Hrun; reflexivity).
  rewrite Hst in Hsave. vm_compute in Hsave. injection Hsave as _ <- _.
  reflexivity.
Defined.
